(** * RESP2: the MOL2 charge-file rewriter of [resp2/resp2.py]

    A shallow embedding of [create_charge_file] (resp2.py, lines 581-685)
    and of the Python built-ins it calls, followed by the properties of the
    MOL2 charge rewriter.

    Conventions of the embedding:
    - a Python [str] is a [string]; every character is a code point below 256;
    - a Python [float] is a primitive binary64 [float]; arithmetic is the
      IEEE 754 arithmetic of [PrimFloat];
    - a raised exception is a value of [exn]; a computation that can raise
      returns a [result];
    - the file system is a finite map from paths to the text of the files,
      together with the set of existing directories; a text is what Python's
      text layer hands over (decoded, newlines normalised); a path names a
      file or a directory as it is written: the model has no links, no [.]
      and [..], and no two spellings of one path;
    - the calls to [log] leave no trace in the model. *)

From Stdlib Require Import ZArith Ascii PrimFloat SpecFloat FloatOps DecimalString
  DecimalFacts DecimalPos.
From stdpp Require Import gmap strings list.

Local Open Scope string_scope.
Local Open Scope Z_scope.
Local Open Scope list_scope.
#[local] Set Warnings "-inexact-float".

(** ** Exceptions *)

Inductive exn : Set :=
| FileNotFoundError
| IsADirectoryError
| NotADirectoryError
| IndexError
| ValueError
| OverflowError
| SystemExit.

Definition exn_name (e : exn) : string :=
  match e with
  | FileNotFoundError => "FileNotFoundError"
  | IsADirectoryError => "IsADirectoryError"
  | NotADirectoryError => "NotADirectoryError"
  | IndexError => "IndexError"
  | ValueError => "ValueError"
  | OverflowError => "OverflowError"
  | SystemExit => "SystemExit"
  end.

Inductive result (A : Type) : Type :=
| Ok (a : A)
| Raise (e : exn).
Arguments Ok {A} a.
Arguments Raise {A} e.

Definition rbind {A B : Type} (r : result A) (k : A -> result B) : result B :=
  match r with
  | Ok a => k a
  | Raise e => Raise e
  end.

Definition is_ok {A : Type} (r : result A) : bool :=
  match r with Ok _ => true | Raise _ => false end.

(** [l[i]] on a Python list, for a non-negative index. *)
Definition getitem {A : Type} (l : list A) (i : nat) : result A :=
  match l !! i with
  | Some a => Ok a
  | None => Raise IndexError
  end.

(** ** Strings: the [str] methods the function uses *)

Module Str.

(** [sub in s] *)
Fixpoint contains (sub s : string) : bool :=
  String.prefix sub s ||
  match s with
  | EmptyString => false
  | String _ s' => contains sub s'
  end.

(** [s.startswith(p)] *)
Definition startswith (s p : string) : bool := String.prefix p s.

(** [str.isspace] on one character, for code points below 256:
    TAB, LF, VT, FF, CR, FS, GS, RS, US, space, NEL and NBSP. *)
Definition isspace (c : ascii) : bool :=
  let n := nat_of_ascii c in
  ((9 <=? n) && (n <=? 13) || (28 <=? n) && (n <=? 32) ||
   (n =? 133) || (n =? 160))%nat.

(** The loop of [s.split()]: [tok] is the token read so far. *)
Fixpoint split_from (tok s : string) : list string :=
  match s with
  | EmptyString => if decide (tok = "") then [] else [tok]
  | String c s' =>
      if isspace c
      then (if decide (tok = "") then split_from "" s'
            else tok :: split_from "" s')
      else split_from (tok +:+ String c "") s'
  end.

(** [s.split()] *)
Definition split (s : string) : list string := split_from "" s.

Fixpoint spaces (n : nat) : string :=
  match n with
  | O => ""
  | S n' => String " " (spaces n')
  end.

(** [format(s, '>w')] and [format(s, '<w')] *)
Definition rjust (w : nat) (s : string) : string :=
  spaces (w - String.length s) +:+ s.
Definition ljust (w : nat) (s : string) : string :=
  s +:+ spaces (w - String.length s).

(** [''.join(l)] *)
Definition concat (l : list string) : string :=
  foldr String.append "" l.

(** [str(n)] for an [int] *)
Definition of_Z (n : Z) : string := NilZero.string_of_int (Z.to_int n).

(** [f.readlines()] on a text: the lines, each with its line break. *)
Fixpoint lines_from (cur s : string) : list string :=
  match s with
  | EmptyString => if decide (cur = "") then [] else [cur]
  | String c s' =>
      if Ascii.eqb c "010"%char
      then (cur +:+ String c "") :: lines_from "" s'
      else lines_from (cur +:+ String c "") s'
  end.
Definition readlines (text : string) : list string := lines_from "" text.

End Str.

(** ** Floats: [float(s)], [int(x)] and [format(x, '.4f')] *)

Module Float.

Definition digit_val (c : ascii) : option Z :=
  let n := nat_of_ascii c in
  if ((48 <=? n) && (n <=? 57))%nat then Some (Z.of_nat n - 48) else None.

(** A run of digits in which single underscores may separate digits
    (PEP 515); called after a first digit, with the value [acc] and the
    count [cnt] of the digits read. Returns the unread rest. *)
Fixpoint more_digits (acc : Z) (cnt : nat) (s : string) : Z * nat * string :=
  match s with
  | EmptyString => (acc, cnt, s)
  | String c s' =>
      match digit_val c with
      | Some d => more_digits (10 * acc + d) (S cnt) s'
      | None =>
          if Ascii.eqb c "_"%char then
            match s' with
            | String c' s'' =>
                match digit_val c' with
                | Some d => more_digits (10 * acc + d) (S cnt) s''
                | None => (acc, cnt, s)
                end
            | EmptyString => (acc, cnt, s)
            end
          else (acc, cnt, s)
      end
  end.

(** A digit part continuing the value [acc]; [None] when [s] does not
    start with a digit. *)
Definition digitpart (acc : Z) (s : string) : option (Z * nat * string) :=
  match s with
  | String c s' =>
      match digit_val c with
      | Some d => Some (more_digits (10 * acc + d) 1 s')
      | None => None
      end
  | EmptyString => None
  end.

Definition opt_digitpart (acc : Z) (s : string) : Z * nat * string :=
  match digitpart acc s with
  | Some r => r
  | None => (acc, O, s)
  end.

Definition read_sign (s : string) : bool * string :=
  match s with
  | String "-" s' => (true, s')
  | String "+" s' => (false, s')
  | _ => (false, s)
  end.

(** The exponent part: nothing, or [e] or [E], a sign and a digit part,
    up to the end of the string. *)
Definition exponent (s : string) : option Z :=
  match s with
  | EmptyString => Some 0
  | String c s' =>
      if Ascii.eqb c "e"%char || Ascii.eqb c "E"%char then
        let '(sg, s'') := read_sign s' in
        match digitpart 0 s'' with
        | Some (e, _, EmptyString) => Some (if sg then - e else e)
        | _ => None
        end
      else None
  end.

(** A decimal literal without its sign, as [m * 10 ^ e]. *)
Definition decimal (s : string) : option (Z * Z) :=
  let '(ip, icnt, s1) := opt_digitpart 0 s in
  let '(m, fcnt, s2) :=
    match s1 with
    | String "." s1' => opt_digitpart ip s1'
    | _ => (ip, O, s1)
    end in
  if decide (icnt + fcnt = 0)%nat then None
  else match exponent s2 with
       | Some e => Some (m, e - Z.of_nat fcnt)
       | None => None
       end.

(** The binary64 value nearest to [(-1)^sg * m * 10 ^ e], ties to even. *)
Definition of_decimal (sg : bool) (m e : Z) : float :=
  if m =? 0 then SF2Prim (S754_zero sg)
  else
    let p := m * 10 ^ Z.max e 0 in
    let d := 10 ^ Z.max (- e) 0 in
    let s := Z.max 0 (Z.log2 d - Z.log2 p + 56) in
    let '(q, r) := Z.div_eucl (Z.shiftl p s) d in
    let lz := if r =? 0 then loc_Exact else loc_Inexact (Z.compare (2 * r) d) in
    SF2Prim (binary_round_aux prec emax sg q (- s) lz).

Definition lower (c : ascii) : ascii :=
  let n := nat_of_ascii c in
  if ((65 <=? n) && (n <=? 90))%nat then ascii_of_nat (n + 32) else c.

Fixpoint lowercase (s : string) : string :=
  match s with
  | EmptyString => EmptyString
  | String c s' => String (lower c) (lowercase s')
  end.

(** [float(s)] for a string without surrounding white space. *)
Definition of_string (s : string) : result float :=
  let '(sg, body) := read_sign s in
  let low := lowercase body in
  if decide (low = "inf" \/ low = "infinity") then Ok (SF2Prim (S754_infinity sg))
  else if decide (low = "nan") then Ok nan
  else match decimal body with
       | Some (m, e) => Ok (of_decimal sg m e)
       | None => Raise ValueError
       end.

(** [int(x)]: truncation towards zero. *)
Definition to_int (x : float) : result Z :=
  match Prim2SF x with
  | S754_zero _ => Ok 0
  | S754_infinity _ => Raise OverflowError
  | S754_nan => Raise ValueError
  | S754_finite sg m e =>
      let a := if 0 <=? e then Z.pos m * 2 ^ e else Z.pos m / 2 ^ (- e) in
      Ok (if sg then - a else a)
  end.

(** [p / q] rounded to the nearest integer, ties to even ([0 < q]). *)
Definition div_nearest_even (p q : Z) : Z :=
  let '(n, r) := Z.div_eucl p q in
  match Z.compare (2 * r) q with
  | Lt => n
  | Gt => n + 1
  | Eq => if Z.even n then n else n + 1
  end.

Definition digit_char (d : Z) : ascii := ascii_of_nat (48 + Z.to_nat d).

(** The text of [n / 10000] with four decimal places ([0 <= n]). *)
Definition fixed4 (n : Z) : string :=
  Str.of_Z (n / 10000) +:+ "." +:+
  String (digit_char (n / 1000 mod 10))
    (String (digit_char (n / 100 mod 10))
       (String (digit_char (n / 10 mod 10))
          (String (digit_char (n mod 10)) ""))).

(** [format(x, '.4f')]: the exact value of [x], correctly rounded to four
    decimal places. *)
Definition format_4f (x : float) : string :=
  match Prim2SF x with
  | S754_nan => "nan"
  | S754_infinity sg => if sg then "-inf" else "inf"
  | S754_zero sg => (if sg then "-" else "") +:+ fixed4 0
  | S754_finite sg m e =>
      let n := if 0 <=? e then Z.pos m * 2 ^ e * 10000
               else div_nearest_even (Z.pos m * 10000) (2 ^ (- e)) in
      (if sg then "-" else "") +:+ fixed4 n
  end.

Definition is_finite (x : float) : bool :=
  match Prim2SF x with
  | S754_zero _ | S754_finite _ _ _ => true
  | _ => false
  end.

End Float.

(** ** Paths and the file system *)

Module Path.

Fixpoint endswith_slash (s : string) : bool :=
  match s with
  | EmptyString => false
  | String c EmptyString => Ascii.eqb c "/"%char
  | String _ s' => endswith_slash s'
  end.

(** [os.path.join(a, b)] (posixpath) *)
Definition join (a b : string) : string :=
  if Str.startswith b "/" then b
  else if bool_decide (a = "") || endswith_slash a then a +:+ b
  else a +:+ "/" +:+ b.

(** [p[:p.rfind('/') + 1]], or [None] when [p] has no slash. *)
Fixpoint head (p : string) : option string :=
  match p with
  | EmptyString => None
  | String c p' =>
      match head p' with
      | Some h => Some (String c h)
      | None => if Ascii.eqb c "/"%char then Some "/" else None
      end
  end.

(** [s.rstrip('/')] *)
Fixpoint rstrip_slash (s : string) : string :=
  match s with
  | EmptyString => EmptyString
  | String c s' =>
      let r := rstrip_slash s' in
      if bool_decide (r = "") && Ascii.eqb c "/"%char then "" else String c r
  end.

(** [os.path.dirname(p)] (posixpath) *)
Definition dirname (p : string) : string :=
  match head p with
  | None => ""
  | Some h => if bool_decide (rstrip_slash h = "") then h else rstrip_slash h
  end.

(** The parts of [p] that stop before a slash, after [pre]: for [a/b/c],
    [a] and [a/b]. *)
Fixpoint prefixes (pre p : string) : list string :=
  match p with
  | EmptyString => []
  | String c p' =>
      if Ascii.eqb c "/"%char
      then pre :: prefixes (pre +:+ String c "") p'
      else prefixes (pre +:+ String c "") p'
  end.

(** The directories on the way to [p]. *)
Definition ancestors (p : string) : list string :=
  map rstrip_slash (prefixes "" p).

End Path.

(** The files, each with its text, and the directories that exist. The
    text of a file being written is the text handed to [write] so far. On a
    real system no path is a file and a directory at once; the model does
    not ask for it, and for such a path reading finds the file and writing
    finds the directory. *)
Record fs : Type := Fs {
  files : gmap string string;
  dirs : gset string
}.

(** A computation on the file system that may raise; the file system it
    leaves behind is returned in both cases. *)
Definition M (A : Type) : Type := fs -> result A * fs.

Definition ret {A : Type} (a : A) : M A := fun st => (Ok a, st).

Definition raise {A : Type} (e : exn) : M A := fun st => (Raise e, st).

Definition lift {A : Type} (r : result A) : M A := fun st => (r, st).

Definition bind {A B : Type} (m : M A) (k : A -> M B) : M B :=
  fun st =>
    match m st with
    | (Ok a, st') => k a st'
    | (Raise e, st') => (Raise e, st')
    end.

Notation "'do' x <- m ; k" := (bind m (fun x => k))
  (at level 10, x name, m at level 100, k at level 200).
Notation "'run' m ; k" := (bind m (fun _ => k))
  (at level 10, m at level 100, k at level 200).
Notation "'try' x <- r ; k" := (rbind r (fun x => k))
  (at level 10, x name, r at level 100, k at level 200).

(** ** [open]

    What the system answers when a path is opened. The directory of the
    path is looked up first: it has to exist, the current directory and the
    root always do. *)
Definition parent_found (path : string) (st : fs) : bool :=
  let d := Path.dirname (Path.rstrip_slash path) in
  bool_decide (Path.rstrip_slash d = "" \/ d ∈ dirs st).

(** The path is the name of a directory, with or without slashes at its
    end. *)
Definition is_directory (path : string) (st : fs) : bool :=
  bool_decide (path ∈ dirs st \/ Path.rstrip_slash path ∈ dirs st).

(** The error for a path whose directory is not found: [ENOTDIR] when a
    file stands on the way, [ENOENT] otherwise. *)
Definition lost (path : string) (st : fs) : exn :=
  if existsb (fun a => bool_decide (is_Some (files st !! a)))
       (Path.ancestors path)
  then NotADirectoryError else FileNotFoundError.

(** The error of [open(path)] for a path that is not the name of a file. *)
Definition open_r_error (path : string) (st : fs) : exn :=
  if bool_decide (path = "") then FileNotFoundError
  else if parent_found path st then
    if is_directory path st || bool_decide (Path.rstrip_slash path = "")
    then IsADirectoryError
    else if bool_decide (is_Some (files st !! Path.rstrip_slash path))
         then NotADirectoryError
         else FileNotFoundError
  else lost path st.

(** [open(path, 'w')] succeeds: the path is not empty, its directory
    exists, and it is not the name of a directory. *)
Definition can_create (path : string) (st : fs) : bool :=
  negb (bool_decide (path = "")) && parent_found path st &&
  negb (is_directory path st) && negb (Path.endswith_slash path).

(** The error of [open(path, 'w')] when it fails. *)
Definition open_w_error (path : string) (st : fs) : exn :=
  if bool_decide (path = "") then FileNotFoundError
  else if parent_found path st then IsADirectoryError
  else lost path st.

(** [open(path)], for reading: the handle is the path. *)
Definition open_r (path : string) : M string :=
  fun st =>
    match files st !! path with
    | Some _ => (Ok path, st)
    | None => (Raise (open_r_error path st), st)
    end.

(** [open(path, 'w')]: the file is created, or emptied when it exists. *)
Definition open_w (path : string) : M string :=
  fun st =>
    if can_create path st
    then (Ok path, Fs (<[path := ""]> (files st)) (dirs st))
    else (Raise (open_w_error path st), st).

(** [f.readlines()] *)
Definition readlines (f : string) : M (list string) :=
  fun st => (Ok (Str.readlines (default "" (files st !! f))), st).

(** [output.write(s)] *)
Definition write (output s : string) : M unit :=
  fun st => (Ok tt, Fs (alter (fun t => t +:+ s) output (files st)) (dirs st)).

(** [f.close()] *)
Definition close (f : string) : M unit := ret tt.

(** ** The section scanner

    The variable [v] of the four loops: 0 before the atom section, 1 in
    it, 2 from the bond section on. *)

Inductive mode : Set := HEADER | ATOM | TRAILER.

Definition atom_marker : string := "@<TRIPOS>ATOM".
Definition bond_marker : string := "@<TRIPOS>BOND".

(** The line break. *)
Definition nl : string := String "010"%char "".

(** The value of [v] after a line, as the [if]/[elif] chain sets it. *)
Definition next_mode (v : mode) (line : string) : mode :=
  if Str.contains atom_marker line then ATOM
  else if Str.contains bond_marker line then TRAILER
  else v.

(** The last branch of the chain ([elif v == 1]) is reached. *)
Definition is_atom_line (v : mode) (line : string) : bool :=
  negb (Str.contains atom_marker line) &&
  negb (Str.contains bond_marker line) &&
  match v with ATOM => true | _ => false end.

(** ** Reading the charges (lines 598-609, 624-635 and 638-649)

    The loop over [lines], from the mode [v] and the charges appended
    so far. *)
Fixpoint read_charges (v : mode) (charges : list float) (lines : list string)
  : result (list float) :=
  match lines with
  | [] => Ok charges
  | line :: rest =>
      if Str.contains atom_marker line then read_charges ATOM charges rest
      else if Str.contains bond_marker line then read_charges TRAILER charges rest
      else
        match v with
        | ATOM =>
            let entry := Str.split line in
            try tok <- getitem entry 8;
            try c <- Float.of_string tok;
            read_charges ATOM (charges ++ [c]) rest
        | _ => read_charges v charges rest
        end
  end.

(** ** Mixing (lines 611-613 and 652-654) *)

(** [for i in range(len(resp1charges)): charges.append(resp1charges[i] * delta)] *)
Fixpoint scale_loop (resp1charges : list float) (delta : float)
    (range : list nat) (charges : list float) : result (list float) :=
  match range with
  | [] => Ok charges
  | i :: range' =>
      try c <- getitem resp1charges i;
      scale_loop resp1charges delta range' (charges ++ [(c * delta)%float])
  end.

Definition scale_charges (resp1charges : list float) (delta : float)
  : result (list float) :=
  scale_loop resp1charges delta (seq 0 (length resp1charges)) [].

(** [for i in range(len(isc)):
       charges.append(gpc[i] * (1.0 - delta) + isc[i] * delta)] *)
Fixpoint mix_loop (gpc isc : list float) (delta : float)
    (range : list nat) (charges : list float) : result (list float) :=
  match range with
  | [] => Ok charges
  | i :: range' =>
      try g <- getitem gpc i;
      try l <- getitem isc i;
      mix_loop gpc isc delta range'
        (charges ++ [(g * (1.0 - delta) + l * delta)%float])
  end.

Definition mix_charges (gpc isc : list float) (delta : float)
  : result (list float) :=
  mix_loop gpc isc delta (seq 0 (length isc)) [].

(** ** Writing (lines 661-685) *)

(** ["{:>7} {:<3}{:>15}{:>10}{:>10} {:<3}{:>8}{:>5}{:>14.4f} \n".format(
       entry[0], ..., entry[6], resname, charges[num])] *)
Definition format_atom (e0 e1 e2 e3 e4 e5 e6 resname : string) (charge : float)
  : string :=
  Str.rjust 7 e0 +:+ " " +:+ Str.ljust 3 e1 +:+ Str.rjust 15 e2 +:+
  Str.rjust 10 e3 +:+ Str.rjust 10 e4 +:+ " " +:+ Str.ljust 3 e5 +:+
  Str.rjust 8 e6 +:+ Str.rjust 5 resname +:+
  Str.rjust 14 (Float.format_4f charge) +:+ " " +:+ nl.

Definition atom_line (entry : list string) (resname : string)
    (charges : list float) (num : nat) : result string :=
  try e0 <- getitem entry 0;
  try e1 <- getitem entry 1;
  try e2 <- getitem entry 2;
  try e3 <- getitem entry 3;
  try e4 <- getitem entry 4;
  try e5 <- getitem entry 5;
  try e6 <- getitem entry 6;
  try charge <- getitem charges num;
  Ok (format_atom e0 e1 e2 e3 e4 e5 e6 resname charge).

(** The loop [for i, line in enumerate(lines)], from the mode [v] and the
    count [num] of the charges used. *)
Fixpoint write_loop (output resname : string) (charges : list float)
    (v : mode) (num : nat) (lines : list string) : M unit :=
  match lines with
  | [] => ret tt
  | line :: rest =>
      if Str.contains atom_marker line then
        run write output line;
        write_loop output resname charges ATOM num rest
      else if Str.contains bond_marker line then
        run write output line;
        write_loop output resname charges TRAILER num rest
      else
        match v with
        | ATOM =>
            let entry := Str.split line in
            do text <- lift (atom_line entry resname charges num);
            run write output text;
            write_loop output resname charges ATOM (S num) rest
        | _ =>
            run write output line;
            write_loop output resname charges v num rest
        end
  end.

(** The title line [lines[1]] is replaced when it starts with one of these. *)
Definition is_placeholder (line : string) : bool :=
  Str.startswith line "***" || Str.startswith line "resp_gas" ||
  Str.startswith line "mol1_conf1".

(** Lines 661-685: the part of the function after the two branches. *)
Definition write_charge_file (f output resname : string)
    (lines : list string) (charges : list float) : M Z :=
  do title <- lift (getitem lines 1);
  let lines :=
    if is_placeholder title then <[1%nat := resname +:+ nl]> lines else lines in
  run write_loop output resname charges HEADER 0 lines;
  run close f;
  run close output;
  ret 0.

(** ** [create_charge_file] *)

(** [str(int(delta * 100))] *)
Definition percent (delta : float) : result string :=
  try n <- Float.to_int (delta * 100)%float;
  Ok (Str.of_Z n).

Definition resp1_path (name : string) : string :=
  name +:+ "-RESP1/resp_output/mol1_conf1.mol2".
Definition gas_path (name : string) : string :=
  name +:+ "-RESP2GAS/resp_output/mol1_conf1.mol2".
Definition liquid_path (name : string) : string :=
  name +:+ "-RESP2LIQUID/resp_output/mol1_conf1.mol2".
Definition output_path (name resname tag : string) (pct : string) : string :=
  Path.join (name +:+ "-liquid") (resname +:+ tag +:+ pct +:+ ".mol2").

Definition create_charge_file (name resname : string) (delta : float)
    (type : string) : M Z :=
  if bool_decide (type = "RESP1") then
    let mol2_resp1 := resp1_path name in
    do f <- open_r mol2_resp1;
    do pct <- lift (percent delta);
    let output_file := output_path name resname "_R1_" pct in
    do output <- open_w output_file;
    do lines <- readlines f;
    do resp1charges <- lift (read_charges HEADER [] lines);
    run close f;
    do charges <- lift (scale_charges resp1charges delta);
    write_charge_file f output resname lines charges
  else if bool_decide (type = "RESP2") then
    let mol2_gas := gas_path name in
    let mol2_liquid := liquid_path name in
    do pct <- lift (percent delta);
    let output_file := output_path name resname "_R2_" pct in
    do f <- open_r mol2_gas;
    do f2 <- open_r mol2_liquid;
    do output <- open_w output_file;
    do lines <- readlines f;
    do gpc <- lift (read_charges HEADER [] lines);
    run close f;
    do lines2 <- readlines f2;
    do isc <- lift (read_charges HEADER [] lines2);
    run close f2;
    do charges <- lift (mix_charges gpc isc delta);
    write_charge_file f output resname lines charges
  else
    raise SystemExit.

(** ** Notions used in the statements *)

(** The lines of [lines] that reach the atom branch of the scanner
    started in the mode [v], in order. *)
Fixpoint atom_rows (v : mode) (lines : list string) : list string :=
  match lines with
  | [] => []
  | line :: rest =>
      if is_atom_line v line then line :: atom_rows ATOM rest
      else atom_rows (next_mode v line) rest
  end.

(** The mode in which the scanner reaches line [k], and the number of atom
    lines it has met before line [k]. *)
Definition mode_at (v : mode) (lines : list string) (k : nat) : mode :=
  foldl next_mode v (take k lines).
Definition rank (v : mode) (lines : list string) (k : nat) : nat :=
  length (atom_rows v (take k lines)).

(** [float(line.split()[8])] *)
Definition charge_of_line (line : string) : result float :=
  try tok <- getitem (Str.split line) 8;
  Float.of_string tok.

(** What [write_loop] hands to [write], line by line, and how it ends. *)
Fixpoint emitted (resname : string) (charges : list float) (v : mode)
    (num : nat) (lines : list string) : list string * result unit :=
  match lines with
  | [] => ([], Ok tt)
  | line :: rest =>
      if is_atom_line v line then
        match atom_line (Str.split line) resname charges num with
        | Ok text =>
            let '(out, r) := emitted resname charges ATOM (S num) rest in
            (text :: out, r)
        | Raise e => ([], Raise e)
        end
      else
        let '(out, r) := emitted resname charges (next_mode v line) num rest in
        (line :: out, r)
  end.

(** [lines] after the assignment to [lines[1]] of line 664. *)
Definition retitle (resname : string) (lines : list string) : list string :=
  match lines !! 1%nat with
  | Some title =>
      if is_placeholder title then <[1%nat := resname +:+ nl]> lines else lines
  | None => lines
  end.

Definition no_marker (line : string) : bool :=
  negb (Str.contains atom_marker line) && negb (Str.contains bond_marker line).

(** A file that begins as a MOL2 file does, with two lines before the
    section of atoms (the record type indicator, and the molecule name, free
    of markers), rewritten under a residue name that holds no marker. *)
Definition header_ok (resname : string) (lines : list string) : bool :=
  match lines with
  | l0 :: l1 :: _ =>
      negb (Str.contains atom_marker l0) && no_marker l1 &&
      no_marker (resname +:+ nl)
  | _ => false
  end.

(** The text written for line [k] of [lines], which reads [line]: an atom
    line is formatted anew with the charge of its rank, the title line is
    replaced when it is a placeholder, any other line is copied. *)
Definition line_rewritten (resname : string) (charges : list float)
    (lines : list string) (k : nat) (line text : string) : Prop :=
  if is_atom_line (mode_at HEADER lines k) line
  then atom_line (Str.split line) resname charges (rank HEADER lines k) = Ok text
  else if bool_decide (k = 1%nat) && is_placeholder line
       then text = resname +:+ nl
       else text = line.

(** The tag of the output file name in the two modes. *)
Definition tag (type : string) : string :=
  if bool_decide (type = "RESP1") then "_R1_" else "_R2_".

(** [field] is [tok], padded with spaces on the left (on the right) up to
    the width [w] when it is shorter, and never cut. *)
Definition right_aligned (w : nat) (tok field : string) : Prop :=
  exists pad, field = Str.spaces pad +:+ tok /\
    String.length field = Nat.max w (String.length tok).
Definition left_aligned (w : nat) (tok field : string) : Prop :=
  exists pad, field = tok +:+ Str.spaces pad /\
    String.length field = Nat.max w (String.length tok).

Definition is_digit (c : ascii) : Prop := is_Some (Float.digit_val c).

(** A sign, at least one digit, a point and exactly four digits. *)
Definition four_decimals (s : string) : Prop :=
  exists sign int d1 d2 d3 d4,
    s = sign +:+ int +:+ "." +:+ String d1 (String d2 (String d3 (String d4 ""))) /\
    (sign = "" \/ sign = "-") /\
    int <> "" /\ Forall is_digit (String.list_ascii_of_string int) /\
    is_digit d1 /\ is_digit d2 /\ is_digit d3 /\ is_digit d4.

(** The number that a run of decimal digits stands for, after [acc]. *)
Fixpoint digits_value (acc : Z) (s : string) : Z :=
  match s with
  | EmptyString => acc
  | String c s' => digits_value (10 * acc + default 0 (Float.digit_val c)) s'
  end.

(** [s] is the number [n / 10 ^ 4] in decimal digits, with a minus sign when
    [sg] is set, at least one digit before the point, none of them a zero
    at the head of others, and exactly four digits after the point. *)
Definition decimals4 (sg : bool) (n : Z) (s : string) : Prop :=
  exists int d1 d2 d3 d4,
    s = (if sg then "-" else "") +:+ int +:+ "." +:+
        String d1 (String d2 (String d3 (String d4 ""))) /\
    int <> "" /\ Forall is_digit (String.list_ascii_of_string int) /\
    (int = "0" \/ Str.startswith int "0" = false) /\
    is_digit d1 /\ is_digit d2 /\ is_digit d3 /\ is_digit d4 /\
    digits_value 0 (int +:+ String d1 (String d2 (String d3 (String d4 "")))) = n.

(** [n] is the integer nearest to [m * 2 ^ e * 10 ^ 4], and the even one of
    the two when that number is halfway between two integers. *)
Definition nearest_even4 (m : positive) (e : Z) (n : Z) : Prop :=
  let p := Z.pos m * 2 ^ Z.max e 0 * 10000 in
  let q := 2 ^ Z.max (- e) 0 in
  2 * Z.abs (n * q - p) <= q /\
  (2 * Z.abs (n * q - p) = q -> Z.even n = true).

(** The text of a charge: four decimal places, rounded to the nearest, for
    a finite charge, the sign of a negative zero kept; [nan], [inf] and
    [-inf] for the others. *)
Definition charge_text (charge : float) (s : string) : Prop :=
  match Prim2SF charge with
  | S754_nan => s = "nan"
  | S754_infinity sg => s = (if sg then "-" else "") +:+ "inf"
  | S754_zero sg => decimals4 sg 0 s
  | S754_finite sg m e => exists n, nearest_even4 m e n /\ decimals4 sg n s
  end.

(** The template of an atom line: the nine fields in their widths, a space
    after the first and after the fifth, a space and a line break at the
    end. The widths are the least ones: a longer field is written in
    full. *)
Definition fixed_width (e0 e1 e2 e3 e4 e5 e6 resname : string) (charge : float)
    (text : string) : Prop :=
  exists f0 f1 f2 f3 f4 f5 f6 f7 f8 c,
    text = f0 +:+ " " +:+ f1 +:+ f2 +:+ f3 +:+ f4 +:+ " " +:+ f5 +:+ f6 +:+
           f7 +:+ f8 +:+ " " +:+ nl /\
    right_aligned 7 e0 f0 /\ left_aligned 3 e1 f1 /\
    right_aligned 15 e2 f2 /\ right_aligned 10 e3 f3 /\
    right_aligned 10 e4 f4 /\ left_aligned 3 e5 f5 /\
    right_aligned 8 e6 f6 /\ right_aligned 5 resname f7 /\
    right_aligned 14 c f8 /\ charge_text charge c.

(** One mixed charge and one scaled charge. *)
Definition mixed (delta g l : float) : float := (g * (1.0 - delta) + l * delta)%float.
Definition scaled (delta c : float) : float := (c * delta)%float.

(** The file system after [text] has been appended to the file [output]. *)
Definition appended (output text : string) (st : fs) : fs :=
  Fs (alter (fun t => t +:+ text) output (files st)) (dirs st).

(** The file system after [open(output, 'w')]. *)
Definition created (output : string) (st : fs) : fs :=
  Fs (<[output := ""]> (files st)) (dirs st).

(** The output path, when the run gets as far as opening it: the input
    files are found, [int(delta * 100)] is defined and the output file can
    be opened. [None] for a run that stops before, and for a type that is
    neither RESP1 nor RESP2. *)
Definition opened_output (name resname : string) (delta : float)
    (type : string) (st : fs) : option string :=
  match percent delta with
  | Ok pct =>
      let inputs :=
        if bool_decide (type = "RESP1") then
          bool_decide (is_Some (files st !! resp1_path name))
        else if bool_decide (type = "RESP2") then
          bool_decide (is_Some (files st !! gas_path name)) &&
          bool_decide (is_Some (files st !! liquid_path name))
        else false in
      let output_file := output_path name resname (tag type) pct in
      if inputs && can_create output_file st then Some output_file else None
  | Raise _ => None
  end.

(** The file whose lines are rewritten: the file of RESP1 charges, or the
    gas-phase file. *)
Definition source_path (name type : string) : string :=
  if bool_decide (type = "RESP1") then resp1_path name else gas_path name.

Definition source_lines (name type : string) (st : fs) : list string :=
  Str.readlines (default "" (files st !! source_path name type)).

(** The charges of a run whose files are open: read and scaled, or read
    and mixed. *)
Definition computed_charges (name : string) (delta : float) (type : string)
    (st : fs) : result (list float) :=
  if bool_decide (type = "RESP1") then
    try resp1charges <- read_charges HEADER [] (source_lines name type st);
    scale_charges resp1charges delta
  else
    try gpc <- read_charges HEADER [] (source_lines name type st);
    try isc <- read_charges HEADER []
                 (Str.readlines (default "" (files st !! liquid_path name)));
    mix_charges gpc isc delta.

(** What the writer makes of line [k] of the lines it scans. *)
Definition written_line (resname : string) (charges : list float)
    (lines : list string) (k : nat) (line : string) : result string :=
  if is_atom_line (mode_at HEADER lines k) line
  then atom_line (Str.split line) resname charges (rank HEADER lines k)
  else Ok line.

(** The writer raises [e] at a line of [lines], and [written] is made of
    the texts written for the lines before it, one after the other. *)
Definition written_before (resname : string) (charges : list float)
    (lines : list string) (e : exn) (written : string) : Prop :=
  exists j line texts,
    lines !! j = Some line /\
    written_line resname charges lines j line = Raise e /\
    length texts = j /\
    (forall k l, (k < j)%nat -> lines !! k = Some l ->
       exists t, texts !! k = Some t /\
         written_line resname charges lines k l = Ok t) /\
    written = Str.concat texts.

(** The last of [lines] that holds a marker. *)
Fixpoint last_marked (lines : list string) : option string :=
  match lines with
  | [] => None
  | line :: rest =>
      match last_marked rest with
      | Some m => Some m
      | None => if no_marker line then None else Some line
      end
  end.

(** Line [k] comes after a line with the atom marker, with no line that
    holds a marker in between. *)
Definition in_atom_section (lines : list string) (k : nat) : bool :=
  match last_marked (take k lines) with
  | Some m => Str.contains atom_marker m
  | None => false
  end.

(** The two files show the same markers, line by line. *)
Definition same_markers (lines out : list string) : Prop :=
  Forall2 (fun line written =>
             Str.contains atom_marker written = Str.contains atom_marker line /\
             Str.contains bond_marker written = Str.contains bond_marker line)
    lines out.

(** A text without line break, a line closed by its line break, and the
    lines of a text: all closed, but for the last one, which may be left
    open. *)
Fixpoint no_break (s : string) : bool :=
  match s with
  | EmptyString => true
  | String c s' => negb (Ascii.eqb c "010"%char) && no_break s'
  end.

Definition closed_line (s : string) : Prop :=
  exists body, s = body +:+ nl /\ no_break body = true.

Inductive text_lines : list string -> Prop :=
| text_lines_nil : text_lines []
| text_lines_open s : no_break s = true -> s <> "" -> text_lines [s]
| text_lines_cons s rest : closed_line s -> text_lines rest -> text_lines (s :: rest).

(** ** Sample files *)

Module Sample.

(** The lines of a text, each closed by a line break. *)
Definition text (lines : list string) : string :=
  Str.concat (map (fun l => l +:+ nl) lines).

(** A gas-phase file: two atoms with the charges 0.5 and -0.5, the
    first atom line with a tenth token. *)
Definition gas : string :=
  text [ "@<TRIPOS>MOLECULE"; "mol1_conf1"; " 2 1 1 0 0"; "SMALL";
         "@<TRIPOS>ATOM";
         "  1 C1  0.1234 -1.2345 3.0 C.3 1 UNK 0.5 ****";
         "  2 H1  1.0 2.0 3.0 H 1 UNK -0.5";
         "@<TRIPOS>BOND"; " 1 1 2 1" ].

(** The condensed-phase file of the same molecule: 0.7 and -0.7. *)
Definition liquid : string :=
  text [ "@<TRIPOS>MOLECULE"; "resp_liquid"; " 2 1 1 0 0"; "SMALL";
         "@<TRIPOS>ATOM";
         "  1 C1  9.0 9.0 9.0 C.3 1 LIG 0.7";
         "  2 H1  8.0 8.0 8.0 H 1 LIG -0.7";
         "@<TRIPOS>BOND"; " 1 2 1 2" ].

(** A file of [n] atoms, all with the charge 0.1. *)
Definition atoms (n : nat) : string :=
  text ([ "@<TRIPOS>MOLECULE"; "title"; "@<TRIPOS>ATOM" ] ++
        replicate n "  1 C1  0.0 0.0 0.0 C.3 1 UNK 0.1" ++
        [ "@<TRIPOS>BOND"; " 1 1 2 1" ]).

(** A file without the atom marker. *)
Definition unmarked : string :=
  text [ "@<TRIPOS>MOLECULE"; "title";
         "  1 C1  0.0 0.0 0.0 C.3 1 UNK 0.1";
         "@<TRIPOS>BOND"; " 1 1 2 1" ].

(** A file with a second atom section after the bond section. *)
Definition two_sections : string :=
  text [ "@<TRIPOS>MOLECULE"; "title"; "@<TRIPOS>ATOM";
         "  1 C1  0.0 0.0 0.0 C.3 1 UNK 0.1";
         "@<TRIPOS>BOND"; " 1 1 2 1";
         "@<TRIPOS>ATOM";
         "  2 C2  1.0 1.0 1.0 C.3 1 UNK 0.2" ].

(** A file whose second atom line stops before the charge. *)
Definition truncated : string :=
  text [ "@<TRIPOS>MOLECULE"; "title"; "@<TRIPOS>ATOM";
         "  1 C1  0.0 0.0 0.0 C.3 1 UNK 0.1";
         "  2 C2  1.0 1.0 1.0 C.3 1 UNK";
         "@<TRIPOS>BOND"; " 1 1 2 1" ].

(** A file of one atom with the charge -0.1234. *)
Definition one_atom : string :=
  text [ "@<TRIPOS>MOLECULE"; "***"; "@<TRIPOS>ATOM";
         "1 C1 0.1234 -1.2345 3.0 C.3 1 UNK -0.1234";
         "@<TRIPOS>BOND" ].

(** A file of two atoms with the charges [nan] and [1e15], the second
    with an atom id of eight digits. *)
Definition odd_charges : string :=
  text [ "@<TRIPOS>MOLECULE"; "title"; "@<TRIPOS>ATOM";
         "1 C1 0.0 0.0 0.0 C.3 1 UNK nan";
         "12345678 C2 0.0 0.0 0.0 C.3 1 UNK 1e15";
         "@<TRIPOS>BOND" ].

(** The files of the compound [m], given its three charge files. *)
Definition disk (resp1 gas liquid : string) : fs :=
  Fs (<[resp1_path "m" := resp1]>
      (<[gas_path "m" := gas]>
       (<[liquid_path "m" := liquid]> ∅)))
     {[ "m-liquid" ]}.

Definition st0 : fs := disk gas gas liquid.

End Sample.

(** ** The other writers of the file *)

(** [create_smifile_from_string] (lines 238-250) *)
Definition create_smifile_from_string (smiles filename : string) : M Z :=
  do f <- open_w filename;
  run write f smiles;
  run close f;
  ret 0.

(** The texts of [create_fb_input_header] (lines 97-102, 105, 108-113,
    115-120 and 126-145), with the arguments of [format] in their places. *)
Definition fb_options (port type forcefield : string) : string :=
  "$options" +:+ nl +:+
  nl +:+
  "wp_port " +:+ port +:+ nl +:+
  "asynchronous    " +:+ nl +:+
  "penalty_type L2" +:+ nl +:+
  "jobtype " +:+ type +:+ nl +:+
  "forcefield " +:+ forcefield +:+ " ".

Definition fb_steps : string :=
  nl +:+
  "maxstep 100" +:+ nl +:+
  "PENALTY_ADDITIVE 10" +:+ nl.

Definition fb_tight : string :=
  nl +:+
  "convergence_step 0.001" +:+ nl +:+
  "convergence_objective 30" +:+ nl +:+
  "convergence_gradient 30" +:+ nl +:+
  "criteria 2" +:+ nl.

Definition fb_loose : string :=
  nl +:+
  "convergence_step 0.005" +:+ nl +:+
  "convergence_objective 0.05" +:+ nl +:+
  "convergence_gradient 0.001" +:+ nl +:+
  "criteria 1" +:+ nl +:+
  "        ".

Definition fb_closing : string :=
  nl +:+
  "eig_lowerbound 0.01" +:+ nl +:+
  "finite_difference_h 0.001" +:+ nl +:+
  "penalty_additive 1.0" +:+ nl +:+
  "trust0 0.15" +:+ nl +:+
  "mintrust 0.05" +:+ nl +:+
  "error_tolerance 1.0" +:+ nl +:+
  "adaptive_factor 0.2" +:+ nl +:+
  "adaptive_damping 1.0" +:+ nl +:+
  "normalize_weights no" +:+ nl +:+
  "print_hessian" +:+ nl +:+
  "constrain_charge false" +:+ nl +:+
  "backup false" +:+ nl +:+
  nl +:+
  "priors" +:+ nl +:+
  "   NonbondedForce/Atom/epsilon          : 0.1" +:+ nl +:+
  "   NonbondedForce/Atom/rmin_half        : 1.0" +:+ nl +:+
  "/priors" +:+ nl +:+
  nl.

(** [for ele in mol2_files: output.write(ele + ' ')] *)
Fixpoint write_each (output : string) (mol2_files : list string) : M unit :=
  match mol2_files with
  | [] => ret tt
  | ele :: rest =>
      run write output (ele +:+ " ");
      write_each output rest
  end.

(** [create_fb_input_header] (lines 83-147); [output] is a file open for
    writing. *)
Definition create_fb_input_header (output port type forcefield : string)
    (mol2_files : list string) (convergence : string) : M Z :=
  run write output (fb_options port type forcefield);
  run write_each output mol2_files;
  run write output fb_steps;
  run (if bool_decide (convergence = "tight") then write output fb_tight
       else if bool_decide (convergence = "loose") then write output fb_loose
       else raise SystemExit);
  run write output fb_closing;
  ret 0.

(** The texts of [create_respyte_input_files] (lines 527-546 and 552-573);
    [number_of_conformers] is the text of the number. *)
Definition input_yml (number_of_conformers method basis pcm : string) : string :=
  "molecules:" +:+ nl +:+
  "    mol1 : " +:+ number_of_conformers +:+ nl +:+
  "charges :" +:+ nl +:+
  "    mol1 : 0" +:+ nl +:+
  "cheminformatics : openeye" +:+ nl +:+
  nl +:+
  "grid_setting :" +:+ nl +:+
  "    forcegen  : Y" +:+ nl +:+
  "    type      : msk # msk(default)/ extendedmsk/ fcc/ newfcc/ vdwfactors/ vdwconstants" +:+ nl +:+
  "    radii     : bondi # bondi(default)/ modbondi" +:+ nl +:+
  "    method    : " +:+ method +:+ nl +:+
  "    basis     : " +:+ basis +:+ nl +:+
  "    pcm       : " +:+ pcm +:+ nl +:+
  "    space     : 0.4" +:+ nl +:+
  "    innner    : 1.6" +:+ nl +:+
  "    outer     : 2.1" +:+ nl +:+
  nl +:+
  "    " +:+ nl +:+
  "    " +:+ nl +:+
  "    ".

Definition respyte_yml (number_of_conformers : string) : string :=
  nl +:+
  "    molecules :" +:+ nl +:+
  "        mol1 : " +:+ number_of_conformers +:+ nl +:+
  "    charges :" +:+ nl +:+
  "        mol1 : 0" +:+ nl +:+
  nl +:+
  "    cheminformatics : openeye" +:+ nl +:+
  nl +:+
  "    boundary_select:" +:+ nl +:+
  "        radii    : bondi" +:+ nl +:+
  "        inner    : 1.3" +:+ nl +:+
  "        outer    : 2.1" +:+ nl +:+
  nl +:+
  "    restraint :" +:+ nl +:+
  "        penalty : 2-stg-fit" +:+ nl +:+
  "        matrices :" +:+ nl +:+
  "            - esp" +:+ nl +:+
  "        a1      : 0.0005" +:+ nl +:+
  "        a2      : 0.001" +:+ nl +:+
  "        b       : 0.1" +:+ nl +:+
  nl +:+
  "        ".

(** Lines 508-523: method, basis and pcm for a type. *)
Definition respyte_settings (type : string) : result (string * string * string) :=
  if bool_decide (type = "RESP1") then Ok ("HF", "6-31G*", "N")
  else if bool_decide (type = "RESP2GAS") then
    Ok ("PW6B95", "aug-cc-pV(D+d)Z", "N")
  else if bool_decide (type = "RESP2LIQUID") then
    Ok ("PW6B95", "aug-cc-pV(D+d)Z", ("Y" +:+ nl +:+ "    solvent   : water"))
  else Raise SystemExit.

(** ['{}-{}/input/input.yml'.format(name, type)] and its like *)
Definition input_yml_path (name type : string) : string :=
  name +:+ "-" +:+ type +:+ "/input/input.yml".
Definition respyte_yml_path (name type : string) : string :=
  name +:+ "-" +:+ type +:+ "/input/respyte.yml".

(** [create_respyte_input_files] (lines 498-576) *)
Definition create_respyte_input_files (type name resname : string)
    (number_of_conformers : Z) : M Z :=
  do settings <- lift (respyte_settings type);
  let '(method, basis, pcm) := settings in
  do input_file <- open_w (input_yml_path name type);
  run write input_file
    (input_yml (Str.of_Z number_of_conformers) method basis pcm);
  run close input_file;
  do respyte_file <- open_w (respyte_yml_path name type);
  run write respyte_file (respyte_yml (Str.of_Z number_of_conformers));
  run close respyte_file;
  ret 0.

(** ** Notions used in the further statements *)

(** A string without white space, and a token: such a string, not empty. *)
Fixpoint no_space (s : string) : bool :=
  match s with
  | EmptyString => true
  | String c s' => negb (Str.isspace c) && no_space s'
  end.

Definition is_token (s : string) : bool :=
  negb (bool_decide (s = "")) && no_space s.

(** Fields in a row, each after a run of spaces, and what follows them. *)
Fixpoint join_fields (fields : list (nat * string)) (tail : string) : string :=
  match fields with
  | [] => tail
  | (n, tok) :: fields' => Str.spaces n +:+ tok +:+ join_fields fields' tail
  end.

(** * Properties *)

(** ** Strings *)

Lemma append_cons (c : ascii) (s t : string) :
  String c s +:+ t = String c (s +:+ t).
Proof. reflexivity. Qed.

Lemma append_nil_l (s : string) : "" +:+ s = s.
Proof. reflexivity. Qed.

Lemma append_nil_r (s : string) : s +:+ "" = s.
Proof.
  induction s as [|c s IH]; [reflexivity|]. now rewrite append_cons, IH.
Qed.

Lemma append_assoc (s t u : string) : (s +:+ t) +:+ u = s +:+ t +:+ u.
Proof.
  induction s as [|c s IH]; [reflexivity|]. now rewrite !append_cons, IH.
Qed.

Lemma length_append (s t : string) :
  String.length (s +:+ t) = (String.length s + String.length t)%nat.
Proof.
  induction s as [|c s IH]; [reflexivity|].
  rewrite append_cons. simpl. now rewrite IH.
Qed.

Lemma length_spaces (n : nat) : String.length (Str.spaces n) = n.
Proof. induction n as [|n IH]; simpl; [reflexivity | f_equal; exact IH]. Qed.

(** ** The monad *)

Lemma bind_ok {A B : Type} (m : M A) (k : A -> M B) st a st' :
  m st = (Ok a, st') -> bind m k st = k a st'.
Proof. intros H. unfold bind. now rewrite H. Qed.

Lemma bind_raise {A B : Type} (m : M A) (k : A -> M B) st e st' :
  m st = (Raise e, st') -> bind m k st = (Raise e, st').
Proof. intros H. unfold bind. now rewrite H. Qed.

Lemma appended_nil output st : appended output "" st = st.
Proof.
  destruct st as [fm ds]. unfold appended. simpl. f_equal.
  apply alter_id. intros x _. apply append_nil_r.
Qed.

Lemma appended_appended output s t st :
  appended output t (appended output s st) = appended output (s +:+ t) st.
Proof.
  unfold appended. simpl. f_equal.
  apply map_eq. intros k. destruct (decide (output = k)) as [->|Hne].
  - rewrite !lookup_alter_eq. destruct (files st !! k); simpl; [|reflexivity].
    now rewrite append_assoc.
  - now rewrite !lookup_alter_ne.
Qed.

Lemma write_appended output s st : write output s st = (Ok tt, appended output s st).
Proof. reflexivity. Qed.

(** ** The scanner *)

Lemma is_atom_line_mode v line : is_atom_line v line = true -> v = ATOM.
Proof.
  unfold is_atom_line. destruct v; rewrite ?andb_false_r; intros H;
    try discriminate; reflexivity.
Qed.

Lemma is_atom_line_next v line : is_atom_line v line = true -> next_mode v line = ATOM.
Proof.
  intros H. pose proof (is_atom_line_mode _ _ H) as ->.
  unfold is_atom_line in H. unfold next_mode.
  destruct (Str.contains atom_marker line); [reflexivity|].
  destruct (Str.contains bond_marker line); [discriminate | reflexivity].
Qed.

(** [write_loop] writes what [emitted] lists, and ends as it says. *)
Lemma write_loop_emitted output resname charges lines :
  forall v num st,
    write_loop output resname charges v num lines st =
    (snd (emitted resname charges v num lines),
     appended output (Str.concat (fst (emitted resname charges v num lines))) st).
Proof.
  induction lines as [|line rest IH]; intros v num st.
  - simpl. now rewrite appended_nil.
  - simpl. unfold is_atom_line, next_mode.
    destruct (Str.contains atom_marker line) eqn:Ha.
    + simpl. erewrite bind_ok by apply write_appended. rewrite IH.
      destruct (emitted resname charges ATOM num rest) as [out r]. simpl.
      now rewrite appended_appended.
    + destruct (Str.contains bond_marker line) eqn:Hb.
      * simpl. erewrite bind_ok by apply write_appended. rewrite IH.
        destruct (emitted resname charges TRAILER num rest) as [out r]. simpl.
        now rewrite appended_appended.
      * destruct v; simpl.
        -- erewrite bind_ok by apply write_appended. rewrite IH.
           destruct (emitted resname charges HEADER num rest) as [out r]. simpl.
           now rewrite appended_appended.
        -- destruct (atom_line (Str.split line) resname charges num) as [text|e] eqn:Hl.
           ++ erewrite bind_ok by (unfold lift; reflexivity).
              erewrite bind_ok by apply write_appended. rewrite IH.
              destruct (emitted resname charges ATOM (S num) rest) as [out r]. simpl.
              now rewrite appended_appended.
           ++ erewrite bind_raise by (unfold lift; reflexivity).
              simpl. now rewrite appended_nil.
        -- erewrite bind_ok by apply write_appended. rewrite IH.
           destruct (emitted resname charges TRAILER num rest) as [out r]. simpl.
           now rewrite appended_appended.
Qed.

(** ** Reading the charges *)

Lemma getitem_Some {A : Type} (l : list A) i a : l !! i = Some a -> getitem l i = Ok a.
Proof. intros H. unfold getitem. now rewrite H. Qed.

Lemma getitem_None {A : Type} (l : list A) i :
  (length l <= i)%nat -> getitem l i = Raise IndexError.
Proof. intros H. unfold getitem. now rewrite (lookup_ge_None_2 l i H). Qed.

Lemma getitem_Ok {A : Type} (l : list A) i a : getitem l i = Ok a -> l !! i = Some a.
Proof. unfold getitem. destruct (l !! i); intros H; now inversion H. Qed.

Lemma getitem_raise {A : Type} (l : list A) i e : getitem l i = Raise e -> e = IndexError.
Proof. unfold getitem. destruct (l !! i); intros H; now inversion H. Qed.

Lemma read_charges_step v acc line rest :
  read_charges v acc (line :: rest) =
  if is_atom_line v line then
    try c <- charge_of_line line; read_charges ATOM (acc ++ [c]) rest
  else read_charges (next_mode v line) acc rest.
Proof.
  simpl. unfold is_atom_line, next_mode, charge_of_line.
  destruct (Str.contains atom_marker line); [reflexivity|].
  destruct (Str.contains bond_marker line); [reflexivity|].
  destruct v; simpl; try reflexivity.
  destruct (getitem (Str.split line) 8); reflexivity.
Qed.

(** The loop follows the scanner: reading [l1 ++ l2] is reading [l1] and
    then [l2] from the mode the scanner has after [l1]. *)
Lemma read_charges_app l1 : forall v acc l2,
  read_charges v acc (l1 ++ l2) =
  try acc' <- read_charges v acc l1;
  read_charges (foldl next_mode v l1) acc' l2.
Proof.
  induction l1 as [|line l1 IH]; intros v acc l2; [reflexivity|].
  rewrite <- app_comm_cons, !read_charges_step. simpl foldl.
  destruct (is_atom_line v line) eqn:Hat.
  - rewrite (is_atom_line_next _ _ Hat).
    destruct (charge_of_line line) as [c|e]; simpl; [apply IH | reflexivity].
  - apply IH.
Qed.

Lemma read_charges_rows lines : forall v acc cs,
  Forall2 (fun row c => charge_of_line row = Ok c) (atom_rows v lines) cs ->
  read_charges v acc lines = Ok (acc ++ cs).
Proof.
  induction lines as [|line rest IH]; intros v acc cs H.
  - simpl in *. inversion H. now rewrite app_nil_r.
  - rewrite read_charges_step. simpl in H.
    destruct (is_atom_line v line).
    + inversion H as [|row c rows cs' Hc Hrest]; subst.
      rewrite Hc. simpl. rewrite (IH ATOM (acc ++ [c]) cs' Hrest).
      now rewrite <- app_assoc.
    + now apply IH.
Qed.

Lemma read_charges_inv lines : forall v acc r,
  read_charges v acc lines = Ok r ->
  exists cs, r = acc ++ cs /\
    Forall2 (fun row c => charge_of_line row = Ok c) (atom_rows v lines) cs.
Proof.
  induction lines as [|line rest IH]; intros v acc r H.
  - simpl in *. inversion H. exists []. split; [now rewrite app_nil_r | constructor].
  - rewrite read_charges_step in H. simpl.
    destruct (is_atom_line v line).
    + destruct (charge_of_line line) as [c|e] eqn:Hc; simpl in H; [|discriminate].
      destruct (IH _ _ _ H) as (cs & -> & Hcs).
      exists (c :: cs). split; [now rewrite <- app_assoc | now constructor].
    + now apply IH.
Qed.

(** A file without the atom marker has no atom line. *)
Lemma atom_rows_no_marker lines :
  Forall (fun line => Str.contains atom_marker line = false) lines ->
  atom_rows HEADER lines = [] /\ atom_rows TRAILER lines = [].
Proof.
  induction 1 as [|line rest Hl _ [IH1 IH2]]; [split; reflexivity|].
  simpl. unfold is_atom_line, next_mode. rewrite Hl. simpl.
  rewrite andb_false_r.
  destruct (Str.contains bond_marker line); split; assumption.
Qed.

(** ** Mixing *)

Lemma scale_loop_spec resp1charges delta n : forall i charges,
  (i + n = length resp1charges)%nat ->
  scale_loop resp1charges delta (seq i n) charges =
  Ok (charges ++ map (scaled delta) (drop i resp1charges)).
Proof.
  induction n as [|n IH]; intros i charges Hlen.
  - simpl. rewrite drop_ge by lia. now rewrite app_nil_r.
  - simpl. destruct (lookup_lt_is_Some_2 resp1charges i) as [c Hc]; [lia|].
    rewrite (getitem_Some _ _ _ Hc). simpl.
    rewrite IH by lia. rewrite (drop_S _ _ _ Hc). simpl.
    now rewrite <- app_assoc.
Qed.

Lemma scale_charges_spec resp1charges delta :
  scale_charges resp1charges delta = Ok (map (scaled delta) resp1charges).
Proof. unfold scale_charges. now rewrite scale_loop_spec. Qed.

Lemma mix_loop_spec gpc isc delta n : forall i charges,
  (i + n = length isc)%nat -> (length isc <= length gpc)%nat ->
  mix_loop gpc isc delta (seq i n) charges =
  Ok (charges ++ zip_with (mixed delta) (drop i gpc) (drop i isc)).
Proof.
  induction n as [|n IH]; intros i charges Hlen Hle.
  - simpl. rewrite (drop_ge isc) by lia.
    rewrite zip_with_nil_r. now rewrite app_nil_r.
  - simpl. destruct (lookup_lt_is_Some_2 gpc i) as [g Hg]; [lia|].
    destruct (lookup_lt_is_Some_2 isc i) as [l Hl]; [lia|].
    rewrite (getitem_Some _ _ _ Hg), (getitem_Some _ _ _ Hl). simpl.
    rewrite IH by lia. rewrite (drop_S _ _ _ Hg), (drop_S _ _ _ Hl). simpl.
    now rewrite <- app_assoc.
Qed.

Lemma mix_loop_short gpc isc delta n : forall i charges,
  (i + n = length isc)%nat -> (i <= length gpc)%nat ->
  (length gpc < length isc)%nat ->
  mix_loop gpc isc delta (seq i n) charges = Raise IndexError.
Proof.
  induction n as [|n IH]; intros i charges Hlen Hi Hlt; [lia|].
  simpl. destruct (decide (i < length gpc)%nat) as [Hin|Hout].
  - destruct (lookup_lt_is_Some_2 gpc i) as [g Hg]; [lia|].
    destruct (lookup_lt_is_Some_2 isc i) as [l Hl]; [lia|].
    rewrite (getitem_Some _ _ _ Hg), (getitem_Some _ _ _ Hl). simpl.
    apply IH; lia.
  - rewrite getitem_None by lia. reflexivity.
Qed.

Lemma mix_charges_spec gpc isc delta :
  mix_charges gpc isc delta =
  if decide (length isc <= length gpc)%nat
  then Ok (zip_with (mixed delta) gpc isc)
  else Raise IndexError.
Proof.
  unfold mix_charges. case_decide.
  - now rewrite mix_loop_spec by (simpl; lia).
  - apply mix_loop_short; simpl; lia.
Qed.

(** ** The output path is not an input path

    An input path ends in [mol1_conf1.mol2]; the output path ends in
    [_R1_] or [_R2_], a decimal number and [.mol2]. *)

Lemma chars_append (s t : string) :
  String.list_ascii_of_string (s +:+ t) = String.list_ascii_of_string s ++ String.list_ascii_of_string t.
Proof.
  induction s as [|c s IH]; [reflexivity|].
  rewrite append_cons. simpl. now rewrite IH.
Qed.

Lemma chars_of_uint (d : Decimal.uint) :
  Forall (fun c => c <> "f"%char) (String.list_ascii_of_string (NilEmpty.string_of_uint d)).
Proof. induction d; simpl; constructor; (discriminate || assumption). Qed.

Lemma chars_of_Z (n : Z) :
  Forall (fun c => c <> "f"%char) (String.list_ascii_of_string (Str.of_Z n)).
Proof.
  unfold Str.of_Z, NilZero.string_of_int, NilZero.string_of_uint.
  destruct (Z.to_int n) as [d|d].
  - destruct d; try apply chars_of_uint. simpl. constructor; [discriminate|constructor].
  - simpl. constructor; [discriminate|].
    destruct d; try apply chars_of_uint. simpl. constructor; [discriminate|constructor].
Qed.

Lemma numbered_not_conf (a b tag : string) (n : Z) :
  tag = "_R1_" \/ tag = "_R2_" ->
  a +:+ tag +:+ Str.of_Z n +:+ ".mol2" <> b +:+ "mol1_conf1.mol2".
Proof.
  intros Htag Heq.
  apply (f_equal String.list_ascii_of_string) in Heq.
  rewrite !chars_append in Heq.
  apply (f_equal (@rev ascii)) in Heq.
  rewrite !rev_app_distr in Heq.
  pose proof (chars_of_Z n) as Hn. apply Forall_rev in Hn.
  destruct (rev (String.list_ascii_of_string (Str.of_Z n))) as [|c1 [|c2 cs]].
  - destruct Htag as [-> | ->]; simpl in Heq; discriminate.
  - destruct Htag as [-> | ->]; simpl in Heq; discriminate.
  - simpl in Heq. inversion Heq; subst.
    inversion Hn as [|? ? _ Hn']; subst. inversion Hn' as [|? ? Hf _]; subst.
    now apply Hf.
Qed.

Lemma output_path_fresh (name resname tag b : string) (n : Z) :
  tag = "_R1_" \/ tag = "_R2_" ->
  output_path name resname tag (Str.of_Z n) <> b +:+ "mol1_conf1.mol2".
Proof.
  intros Htag. unfold output_path, Path.join.
  destruct (Str.startswith _ "/").
  - now apply numbered_not_conf.
  - destruct (bool_decide (name +:+ "-liquid" = "") || Path.endswith_slash (name +:+ "-liquid")).
    + rewrite <- (append_assoc (name +:+ "-liquid") resname).
      now apply numbered_not_conf.
    + rewrite <- (append_assoc "/" resname).
      rewrite <- (append_assoc (name +:+ "-liquid")).
      now apply numbered_not_conf.
Qed.

(** ** The function, step by step *)

Lemma percent_inv delta pct : percent delta = Ok pct -> exists n, pct = Str.of_Z n.
Proof.
  unfold percent. destruct (Float.to_int _) as [n|e]; simpl; intros H; inversion H.
  now exists n.
Qed.

Lemma write_charge_file_spec f output resname lines charges st :
  write_charge_file f output resname lines charges st =
  match lines !! 1%nat with
  | None => (Raise IndexError, st)
  | Some _ =>
      let em := emitted resname charges HEADER 0 (retitle resname lines) in
      (match snd em with Ok _ => Ok 0 | Raise e => Raise e end,
       appended output (Str.concat (fst em)) st)
  end.
Proof.
  unfold write_charge_file, retitle, getitem.
  destruct (lines !! 1%nat) as [title|] eqn:Ht.
  - erewrite bind_ok by (unfold lift; reflexivity).
    unfold bind. rewrite write_loop_emitted. simpl.
    destruct (snd (emitted _ _ _ _ _)); reflexivity.
  - erewrite bind_raise by (unfold lift; reflexivity). reflexivity.
Qed.

Lemma open_w_spec path st :
  open_w path st =
  if can_create path st then (Ok path, created path st)
  else (Raise (open_w_error path st), st).
Proof. reflexivity. Qed.

Lemma create_RESP1 name resname delta st :
  create_charge_file name resname delta "RESP1" st =
  match files st !! resp1_path name with
  | None => (Raise (open_r_error (resp1_path name) st), st)
  | Some text =>
      match percent delta with
      | Raise e => (Raise e, st)
      | Ok pct =>
          let out := output_path name resname "_R1_" pct in
          if can_create out st then
            let lines := Str.readlines text in
            match read_charges HEADER [] lines with
            | Raise e => (Raise e, created out st)
            | Ok cs =>
                write_charge_file (resp1_path name) out resname lines
                  (map (scaled delta) cs) (created out st)
            end
          else (Raise (open_w_error out st), st)
      end
  end.
Proof.
  unfold create_charge_file. rewrite bool_decide_eq_true_2 by reflexivity.
  unfold open_r at 1.
  destruct (files st !! resp1_path name) as [text|] eqn:Hf;
    [|now erewrite bind_raise by (rewrite Hf; reflexivity)].
  erewrite bind_ok by (rewrite Hf; reflexivity).
  destruct (percent delta) as [pct|e] eqn:Hp;
    [|now erewrite bind_raise by (unfold lift; reflexivity)].
  erewrite bind_ok by (unfold lift; reflexivity).
  cbv zeta. unfold bind at 1. rewrite open_w_spec.
  destruct (can_create _ st) eqn:Hc; [|reflexivity].
  destruct (percent_inv _ _ Hp) as [n ->].
  assert (Hne : output_path name resname "_R1_" (Str.of_Z n) <> resp1_path name).
  { unfold resp1_path.
    change (name +:+ "-RESP1/resp_output/mol1_conf1.mol2")
      with (name +:+ "-RESP1/resp_output/" +:+ "mol1_conf1.mol2").
    rewrite <- append_assoc. apply output_path_fresh. now left. }
  unfold bind, readlines, created, lift, close, ret. simpl.
  rewrite lookup_insert_ne by exact Hne. rewrite Hf. simpl.
  destruct (read_charges HEADER [] (Str.readlines text)) as [cs|e]; [|reflexivity].
  rewrite scale_charges_spec. reflexivity.
Qed.

Lemma create_RESP2 name resname delta st :
  create_charge_file name resname delta "RESP2" st =
  match percent delta with
  | Raise e => (Raise e, st)
  | Ok pct =>
      match files st !! gas_path name with
      | None => (Raise (open_r_error (gas_path name) st), st)
      | Some gas =>
          match files st !! liquid_path name with
          | None => (Raise (open_r_error (liquid_path name) st), st)
          | Some liquid =>
              let out := output_path name resname "_R2_" pct in
              if can_create out st then
                let lines := Str.readlines gas in
                match read_charges HEADER [] lines with
                | Raise e => (Raise e, created out st)
                | Ok gpc =>
                    match read_charges HEADER [] (Str.readlines liquid) with
                    | Raise e => (Raise e, created out st)
                    | Ok isc =>
                        match mix_charges gpc isc delta with
                        | Raise e => (Raise e, created out st)
                        | Ok charges =>
                            write_charge_file (gas_path name) out resname lines
                              charges (created out st)
                        end
                    end
                end
              else (Raise (open_w_error out st), st)
          end
      end
  end.
Proof.
  unfold create_charge_file.
  rewrite bool_decide_eq_false_2 by discriminate.
  rewrite bool_decide_eq_true_2 by reflexivity.
  destruct (percent delta) as [pct|e] eqn:Hp;
    [|now erewrite bind_raise by (unfold lift; reflexivity)].
  erewrite bind_ok by (unfold lift; reflexivity).
  cbv zeta. unfold open_r at 1.
  destruct (files st !! gas_path name) as [gas|] eqn:Hg;
    [|now erewrite bind_raise by (rewrite Hg; reflexivity)].
  erewrite bind_ok by (rewrite Hg; reflexivity).
  unfold open_r at 1.
  destruct (files st !! liquid_path name) as [liquid|] eqn:Hl;
    [|now erewrite bind_raise by (rewrite Hl; reflexivity)].
  erewrite bind_ok by (rewrite Hl; reflexivity).
  unfold bind at 1. rewrite open_w_spec.
  destruct (can_create _ st) eqn:Hc; [|reflexivity].
  destruct (percent_inv _ _ Hp) as [n ->].
  assert (Hne : forall b,
    output_path name resname "_R2_" (Str.of_Z n) <> (name +:+ b) +:+ "mol1_conf1.mol2").
  { intros b. apply output_path_fresh. now right. }
  unfold bind, readlines, created, lift, close, ret. simpl.
  rewrite lookup_insert_ne.
  2:{ unfold gas_path.
      change (name +:+ "-RESP2GAS/resp_output/mol1_conf1.mol2")
        with (name +:+ "-RESP2GAS/resp_output/" +:+ "mol1_conf1.mol2").
      rewrite <- append_assoc. apply Hne. }
  rewrite Hg. simpl.
  destruct (read_charges HEADER [] (Str.readlines gas)) as [gpc|e]; [|reflexivity].
  rewrite lookup_insert_ne.
  2:{ unfold liquid_path.
      change (name +:+ "-RESP2LIQUID/resp_output/mol1_conf1.mol2")
        with (name +:+ "-RESP2LIQUID/resp_output/" +:+ "mol1_conf1.mol2").
      rewrite <- append_assoc. apply Hne. }
  rewrite Hl. simpl.
  destruct (read_charges HEADER [] (Str.readlines liquid)) as [isc|e]; [|reflexivity].
  destruct (mix_charges gpc isc delta); reflexivity.
Qed.

Lemma create_other name resname delta type st :
  type <> "RESP1" -> type <> "RESP2" ->
  create_charge_file name resname delta type st = (Raise SystemExit, st).
Proof.
  intros H1 H2. unfold create_charge_file.
  now rewrite !bool_decide_eq_false_2 by assumption.
Qed.

(** ** Writing *)

Lemma atom_line_inv entry resname charges num text :
  atom_line entry resname charges num = Ok text ->
  exists e0 e1 e2 e3 e4 e5 e6 rest charge,
    entry = e0 :: e1 :: e2 :: e3 :: e4 :: e5 :: e6 :: rest /\
    charges !! num = Some charge /\
    text = format_atom e0 e1 e2 e3 e4 e5 e6 resname charge.
Proof.
  unfold atom_line, getitem.
  destruct entry as [|e0 [|e1 [|e2 [|e3 [|e4 [|e5 [|e6 rest]]]]]]];
    simpl; try discriminate.
  destruct (charges !! num) as [charge|]; simpl; [|discriminate].
  intros H. inversion H. now exists e0, e1, e2, e3, e4, e5, e6, rest, charge.
Qed.

Lemma atom_line_ok e0 e1 e2 e3 e4 e5 e6 rest resname charges num charge :
  charges !! num = Some charge ->
  atom_line (e0 :: e1 :: e2 :: e3 :: e4 :: e5 :: e6 :: rest) resname charges num =
  Ok (format_atom e0 e1 e2 e3 e4 e5 e6 resname charge).
Proof. intros H. unfold atom_line, getitem. simpl. now rewrite H. Qed.

Lemma atom_line_raise entry resname charges num e :
  atom_line entry resname charges num = Raise e -> e = IndexError.
Proof.
  unfold atom_line, getitem.
  destruct entry as [|e0 [|e1 [|e2 [|e3 [|e4 [|e5 [|e6 rest]]]]]]];
    simpl; try (intros H; now inversion H).
  destruct (charges !! num); simpl; intros H; now inversion H.
Qed.

Lemma emitted_step resname charges v num line rest :
  emitted resname charges v num (line :: rest) =
  if is_atom_line v line then
    match atom_line (Str.split line) resname charges num with
    | Ok text =>
        (text :: fst (emitted resname charges ATOM (S num) rest),
         snd (emitted resname charges ATOM (S num) rest))
    | Raise e => ([], Raise e)
    end
  else
    (line :: fst (emitted resname charges (next_mode v line) num rest),
     snd (emitted resname charges (next_mode v line) num rest)).
Proof.
  simpl. destruct (is_atom_line v line).
  - destruct (atom_line _ _ _ _); [|reflexivity].
    now destruct (emitted resname charges ATOM (S num) rest).
  - now destruct (emitted resname charges (next_mode v line) num rest).
Qed.

(** The writer fails with [IndexError] only. *)
Lemma emitted_raise resname charges lines : forall v num e,
  snd (emitted resname charges v num lines) = Raise e -> e = IndexError.
Proof.
  induction lines as [|line rest IH]; intros v num e; [discriminate|].
  rewrite emitted_step. destruct (is_atom_line v line).
  - destruct (atom_line _ _ _ _) eqn:Hl; simpl.
    + apply IH.
    + intros H. inversion H; subst. eapply atom_line_raise, Hl.
  - apply IH.
Qed.

(** A writer that ends well has found a charge for every atom line. *)
Lemma emitted_ok_charges resname charges lines : forall v num u,
  snd (emitted resname charges v num lines) = Ok u ->
  (length (atom_rows v lines) <= length charges - num)%nat.
Proof.
  induction lines as [|line rest IH]; intros v num u.
  - simpl. lia.
  - rewrite emitted_step. simpl atom_rows. destruct (is_atom_line v line).
    + destruct (atom_line _ _ _ _) eqn:Hl; simpl; [|discriminate].
      apply atom_line_inv in Hl as (? & ? & ? & ? & ? & ? & ? & ? & c & _ & Hc & _).
      apply lookup_lt_Some in Hc.
      intros H. apply IH in H. lia.
    + apply IH.
Qed.

(** It ends well when every atom line has seven fields and its charge. *)
Lemma emitted_ok resname charges lines : forall v num,
  Forall (fun row => (7 <= length (Str.split row))%nat) (atom_rows v lines) ->
  (num + length (atom_rows v lines) <= length charges)%nat ->
  snd (emitted resname charges v num lines) = Ok tt.
Proof.
  induction lines as [|line rest IH]; intros v num Hrows Hlen; [reflexivity|].
  rewrite emitted_step. simpl in Hrows, Hlen. destruct (is_atom_line v line).
  - inversion Hrows as [|? ? H7 Hrest]; subst. simpl in Hlen.
    destruct (lookup_lt_is_Some_2 charges num) as [c Hc]; [lia|].
    destruct (Str.split line) as [|e0 [|e1 [|e2 [|e3 [|e4 [|e5 [|e6 more]]]]]]];
      simpl in H7; try lia.
    rewrite (atom_line_ok _ _ _ _ _ _ _ _ _ _ _ _ Hc). simpl.
    apply IH; [assumption | lia].
  - now apply IH.
Qed.

Lemma mode_at_cons v line rest k :
  mode_at v (line :: rest) (S k) = mode_at (next_mode v line) rest k.
Proof. reflexivity. Qed.

Lemma rank_cons v line rest k :
  rank v (line :: rest) (S k) =
  if is_atom_line v line then S (rank ATOM rest k)
  else rank (next_mode v line) rest k.
Proof. unfold rank. simpl. now destruct (is_atom_line v line). Qed.

(** Line by line: what a writer that ends well has written. *)
Lemma emitted_lookup resname charges lines : forall v num u,
  snd (emitted resname charges v num lines) = Ok u ->
  length (fst (emitted resname charges v num lines)) = length lines /\
  forall k line, lines !! k = Some line ->
    exists text,
      fst (emitted resname charges v num lines) !! k = Some text /\
      if is_atom_line (mode_at v lines k) line
      then atom_line (Str.split line) resname charges (num + rank v lines k) = Ok text
      else text = line.
Proof.
  induction lines as [|line rest IH]; intros v num u H.
  - split; [reflexivity|]. intros k line Hk. now rewrite lookup_nil in Hk.
  - rewrite emitted_step in *. destruct (is_atom_line v line) eqn:Hat.
    + destruct (atom_line _ _ _ _) as [text|] eqn:Hl; simpl in H; [|discriminate].
      destruct (IH _ _ _ H) as [Hlen Hk]. simpl. split; [now rewrite Hlen|].
      intros [|k] l Hl'; simpl in Hl'.
      * inversion Hl'; subst. exists text. split; [reflexivity|].
        unfold mode_at, rank. simpl. rewrite Hat. now rewrite Nat.add_0_r.
      * destruct (Hk _ _ Hl') as (t & Ht & Hd). exists t. split; [exact Ht|].
        rewrite mode_at_cons, rank_cons, Hat, (is_atom_line_next _ _ Hat).
        now rewrite Nat.add_succ_r.
    + simpl in H. destruct (IH _ _ _ H) as [Hlen Hk]. simpl.
      split; [now rewrite Hlen|].
      intros [|k] l Hl'; simpl in Hl'.
      * inversion Hl'; subst. exists l. split; [reflexivity|].
        unfold mode_at. simpl. now rewrite Hat.
      * destruct (Hk _ _ Hl') as (t & Ht & Hd). exists t. split; [exact Ht|].
        now rewrite mode_at_cons, rank_cons, Hat.
Qed.

(** ** The title line *)

Lemma no_marker_next v line : no_marker line = true -> next_mode v line = v.
Proof.
  unfold no_marker, next_mode.
  destruct (Str.contains atom_marker line); [discriminate|].
  destruct (Str.contains bond_marker line); [discriminate | reflexivity].
Qed.

Lemma not_atom_mode v line : v <> ATOM -> is_atom_line v line = false.
Proof.
  intros H. unfold is_atom_line. destruct v; try congruence;
    now rewrite andb_false_r.
Qed.

Lemma header_ok_inv resname lines :
  header_ok resname lines = true ->
  exists l0 l1 rest,
    lines = l0 :: l1 :: rest /\
    next_mode HEADER l0 <> ATOM /\
    no_marker l1 = true /\ no_marker (resname +:+ nl) = true.
Proof.
  destruct lines as [|l0 [|l1 rest]]; simpl; try discriminate.
  intros H. apply andb_prop in H as [H H3]. apply andb_prop in H as [H1 H2].
  exists l0, l1, rest. repeat split; try assumption.
  unfold next_mode. destruct (Str.contains atom_marker l0); [discriminate|].
  destruct (Str.contains bond_marker l0); discriminate.
Qed.

(** Under [header_ok], the writer meets the atom lines the reader met. *)
Lemma atom_rows_header resname l0 l1 rest :
  header_ok resname (l0 :: l1 :: rest) = true ->
  atom_rows HEADER (l0 :: l1 :: rest) = atom_rows (next_mode HEADER l0) rest.
Proof.
  intros H. apply header_ok_inv in H as (? & ? & ? & Heq & Hv & H1 & _).
  injection Heq as <- <- <-.
  change (atom_rows HEADER (l0 :: l1 :: rest)) with
    (if is_atom_line HEADER l0 then l0 :: atom_rows ATOM (l1 :: rest)
     else if is_atom_line (next_mode HEADER l0) l1 then l1 :: atom_rows ATOM rest
          else atom_rows (next_mode (next_mode HEADER l0) l1) rest).
  rewrite (not_atom_mode HEADER l0) by discriminate.
  rewrite (not_atom_mode _ _ Hv). now rewrite (no_marker_next _ _ H1).
Qed.

Lemma emitted_retitle resname charges l0 l1 rest :
  header_ok resname (l0 :: l1 :: rest) = true ->
  emitted resname charges HEADER 0 (retitle resname (l0 :: l1 :: rest)) =
  (l0 :: (if is_placeholder l1 then resname +:+ nl else l1)
      :: fst (emitted resname charges (next_mode HEADER l0) 0 rest),
   snd (emitted resname charges (next_mode HEADER l0) 0 rest)).
Proof.
  intros H. apply header_ok_inv in H as (? & ? & ? & Heq & Hv & H1 & Hr).
  injection Heq as <- <- <-.
  assert (Hl1' : no_marker (if is_placeholder l1 then resname +:+ nl else l1) = true)
    by (destruct (is_placeholder l1); assumption).
  assert (retitle resname (l0 :: l1 :: rest) =
          l0 :: (if is_placeholder l1 then resname +:+ nl else l1) :: rest) as ->.
  { unfold retitle. simpl. destruct (is_placeholder l1); reflexivity. }
  rewrite emitted_step. rewrite (not_atom_mode HEADER l0) by discriminate.
  rewrite emitted_step, (not_atom_mode _ _ Hv), (no_marker_next _ _ Hl1').
  reflexivity.
Qed.

(** Line by line: what [write_charge_file] writes when it ends well. *)
Lemma rewritten_lines resname charges lines u :
  header_ok resname lines = true ->
  snd (emitted resname charges HEADER 0 (retitle resname lines)) = Ok u ->
  length (fst (emitted resname charges HEADER 0 (retitle resname lines))) =
    length lines /\
  forall k line, lines !! k = Some line ->
    exists text,
      fst (emitted resname charges HEADER 0 (retitle resname lines)) !! k =
        Some text /\
      line_rewritten resname charges lines k line text.
Proof.
  intros Hh. pose proof Hh as Hh'.
  apply header_ok_inv in Hh' as (l0 & l1 & rest & -> & Hv & H1 & Hr).
  rewrite (emitted_retitle _ _ _ _ _ Hh).
  pose proof (emitted_lookup resname charges rest (next_mode HEADER l0) 0 u) as Hem.
  set (em := emitted resname charges (next_mode HEADER l0) 0 rest) in *.
  simpl. intros Hok. destruct (Hem Hok) as [Hlen Hk]. clear Hem.
  split; [now rewrite Hlen|].
  intros [|[|k]] line Hl; simpl in Hl; unfold line_rewritten.
  - injection Hl as <-. exists l0. split; [reflexivity|].
    change (mode_at HEADER (l0 :: l1 :: rest) 0) with HEADER.
    rewrite (not_atom_mode HEADER) by discriminate.
    now rewrite bool_decide_eq_false_2 by discriminate.
  - injection Hl as <-. eexists. split; [reflexivity|].
    change (mode_at HEADER (l0 :: l1 :: rest) 1) with (next_mode HEADER l0).
    rewrite (not_atom_mode _ _ Hv).
    rewrite bool_decide_eq_true_2 by reflexivity.
    now destruct (is_placeholder l1).
  - destruct (Hk _ _ Hl) as (text & Ht & Hd). exists text. split; [exact Ht|].
    rewrite !mode_at_cons, !rank_cons.
    rewrite (not_atom_mode HEADER l0) by discriminate.
    rewrite (not_atom_mode _ l1 Hv), (no_marker_next _ _ H1).
    rewrite bool_decide_eq_false_2 by discriminate.
    exact Hd.
Qed.

(** ** The whole run *)

Lemma appended_created output text st :
  appended output text (created output st) =
  Fs (<[output := text]> (files st)) (dirs st).
Proof.
  unfold appended, created. simpl. f_equal.
  now rewrite alter_insert_eq.
Qed.

Lemma written_file output text st :
  files (appended output text (created output st)) !! output = Some text.
Proof.
  unfold appended, created. simpl.
  now rewrite lookup_alter_eq, lookup_insert_eq.
Qed.

Lemma charge_of_line_fields row c :
  charge_of_line row = Ok c -> (7 <= length (Str.split row))%nat.
Proof.
  unfold charge_of_line.
  destruct (getitem (Str.split row) 8) as [tok|] eqn:Ht; [|discriminate].
  intros _. apply getitem_Ok, lookup_lt_Some in Ht. lia.
Qed.

Lemma parsed_rows lines cs :
  read_charges HEADER [] lines = Ok cs ->
  length (atom_rows HEADER lines) = length cs /\
  Forall (fun row => (7 <= length (Str.split row))%nat) (atom_rows HEADER lines).
Proof.
  intros H. apply read_charges_inv in H as (cs' & -> & HF). simpl. split.
  - eapply Forall2_length, HF.
  - induction HF; constructor; eauto using charge_of_line_fields.
Qed.

Lemma retitled_rows resname lines :
  header_ok resname lines = true ->
  exists l0 l1 rest, lines = l0 :: l1 :: rest /\
    atom_rows HEADER lines = atom_rows (next_mode HEADER l0) rest.
Proof.
  intros H. pose proof H as H'.
  apply header_ok_inv in H' as (l0 & l1 & rest & -> & _).
  exists l0, l1, rest. split; [reflexivity|]. now apply (atom_rows_header resname).
Qed.

(** The writer ends well when there is a charge for every line read. *)
Lemma writer_succeeds resname charges lines cs :
  header_ok resname lines = true ->
  read_charges HEADER [] lines = Ok cs ->
  (length cs <= length charges)%nat ->
  snd (emitted resname charges HEADER 0 (retitle resname lines)) = Ok tt.
Proof.
  intros Hh Hp Hlen. destruct (parsed_rows _ _ Hp) as [Hn H7].
  destruct (retitled_rows _ _ Hh) as (l0 & l1 & rest & -> & Hrows).
  rewrite (emitted_retitle _ _ _ _ _ Hh). simpl.
  rewrite Hrows in Hn, H7. apply emitted_ok; [exact H7 | lia].
Qed.

(** It fails with [IndexError] when a line read has no charge. *)
Lemma writer_fails resname charges lines cs :
  header_ok resname lines = true ->
  read_charges HEADER [] lines = Ok cs ->
  (length charges < length cs)%nat ->
  snd (emitted resname charges HEADER 0 (retitle resname lines)) = Raise IndexError.
Proof.
  intros Hh Hp Hlen. destruct (parsed_rows _ _ Hp) as [Hn _].
  destruct (retitled_rows _ _ Hh) as (l0 & l1 & rest & -> & Hrows).
  rewrite (emitted_retitle _ _ _ _ _ Hh). simpl. rewrite Hrows in Hn.
  destruct (snd (emitted resname charges (next_mode HEADER l0) 0 rest)) as [u|e] eqn:He.
  - apply emitted_ok_charges in He. lia.
  - now rewrite (emitted_raise _ _ _ _ _ _ He).
Qed.

(** The text of an atom line: seven fields of the line, the residue name
    and the charge of its rank. *)
Lemma atom_text resname charges lines k line text :
  line_rewritten resname charges lines k line text ->
  is_atom_line (mode_at HEADER lines k) line = true ->
  exists e0 e1 e2 e3 e4 e5 e6 rest charge,
    Str.split line = e0 :: e1 :: e2 :: e3 :: e4 :: e5 :: e6 :: rest /\
    charges !! rank HEADER lines k = Some charge /\
    text = format_atom e0 e1 e2 e3 e4 e5 e6 resname charge.
Proof.
  unfold line_rewritten. intros H Hat. rewrite Hat in H.
  now apply atom_line_inv.
Qed.

(** Every atom line has a position, and its rank is its index. *)
Lemma atom_row_position lines : forall v i row,
  atom_rows v lines !! i = Some row ->
  exists k, lines !! k = Some row /\
    is_atom_line (mode_at v lines k) row = true /\ rank v lines k = i.
Proof.
  induction lines as [|line rest IH]; intros v i row H;
    [simpl in H; now rewrite lookup_nil in H|].
  simpl in H. destruct (is_atom_line v line) eqn:Hat.
  - destruct i as [|i]; simpl in H.
    + injection H as <-. exists 0%nat. repeat split. exact Hat.
    + destruct (IH _ _ _ H) as (k & Hk & Hm & Hr). exists (S k).
      rewrite mode_at_cons, rank_cons, Hat, (is_atom_line_next _ _ Hat).
      repeat split; [exact Hk | exact Hm | now rewrite Hr].
  - destruct (IH _ _ _ H) as (k & Hk & Hm & Hr). exists (S k).
    rewrite mode_at_cons, rank_cons, Hat. now repeat split.
Qed.

Lemma header_ok_title resname lines :
  header_ok resname lines = true -> exists title, lines !! 1%nat = Some title.
Proof.
  intros H. apply header_ok_inv in H as (l0 & l1 & rest & -> & _). now exists l1.
Qed.

(** What [write_charge_file] leaves when it ends well. *)
Lemma write_charge_file_inv f output resname lines charges st n :
  header_ok resname lines = true ->
  fst (write_charge_file f output resname lines charges st) = Ok n ->
  exists out,
    write_charge_file f output resname lines charges st =
      (Ok 0, appended output (Str.concat out) st) /\
    length out = length lines /\
    forall k line, lines !! k = Some line ->
      exists text, out !! k = Some text /\
        line_rewritten resname charges lines k line text.
Proof.
  intros Hh. rewrite write_charge_file_spec.
  destruct (header_ok_title _ _ Hh) as [title ->]. cbv zeta.
  destruct (snd (emitted resname charges HEADER 0 (retitle resname lines)))
    as [u|e] eqn:He; simpl; [|discriminate].
  intros _. destruct (rewritten_lines _ _ _ _ Hh He) as [Hlen Hk].
  eexists. split; [reflexivity|]. split; assumption.
Qed.

(** It ends well when there is a charge for every line read. *)
Lemma write_charge_file_ok f output resname lines charges cs st :
  header_ok resname lines = true ->
  read_charges HEADER [] lines = Ok cs ->
  (length cs <= length charges)%nat ->
  fst (write_charge_file f output resname lines charges st) = Ok 0.
Proof.
  intros Hh Hp Hlen. rewrite write_charge_file_spec.
  destruct (header_ok_title _ _ Hh) as [title ->]. cbv zeta.
  now rewrite (writer_succeeds _ _ _ _ Hh Hp Hlen).
Qed.

(** A run that ends well, in either mode: the steps it has taken. *)
Lemma RESP1_inv name resname delta st n :
  fst (create_charge_file name resname delta "RESP1" st) = Ok n ->
  exists text pct cs,
    files st !! resp1_path name = Some text /\
    percent delta = Ok pct /\
    can_create (output_path name resname "_R1_" pct) st = true /\
    read_charges HEADER [] (Str.readlines text) = Ok cs /\
    create_charge_file name resname delta "RESP1" st =
      write_charge_file (resp1_path name) (output_path name resname "_R1_" pct)
        resname (Str.readlines text) (map (scaled delta) cs)
        (created (output_path name resname "_R1_" pct) st).
Proof.
  rewrite create_RESP1.
  destruct (files st !! resp1_path name) as [text|]; [|discriminate].
  destruct (percent delta) as [pct|]; [|discriminate]. cbv zeta.
  destruct (can_create _ st) eqn:Hc; [|discriminate].
  destruct (read_charges HEADER [] (Str.readlines text)) as [cs|] eqn:Hcs;
    [|discriminate].
  intros _. now exists text, pct, cs.
Qed.

Lemma RESP2_inv name resname delta st n :
  fst (create_charge_file name resname delta "RESP2" st) = Ok n ->
  exists gas liquid pct gpc isc charges,
    files st !! gas_path name = Some gas /\
    files st !! liquid_path name = Some liquid /\
    percent delta = Ok pct /\
    can_create (output_path name resname "_R2_" pct) st = true /\
    read_charges HEADER [] (Str.readlines gas) = Ok gpc /\
    read_charges HEADER [] (Str.readlines liquid) = Ok isc /\
    mix_charges gpc isc delta = Ok charges /\
    create_charge_file name resname delta "RESP2" st =
      write_charge_file (gas_path name) (output_path name resname "_R2_" pct)
        resname (Str.readlines gas) charges
        (created (output_path name resname "_R2_" pct) st).
Proof.
  rewrite create_RESP2.
  destruct (percent delta) as [pct|]; [|discriminate].
  destruct (files st !! gas_path name) as [gas|]; [|discriminate].
  destruct (files st !! liquid_path name) as [liquid|]; [|discriminate].
  cbv zeta. destruct (can_create _ st) eqn:Hc; [|discriminate].
  destruct (read_charges HEADER [] (Str.readlines gas)) as [gpc|] eqn:Hg;
    [|discriminate].
  destruct (read_charges HEADER [] (Str.readlines liquid)) as [isc|] eqn:Hl;
    [|discriminate].
  destruct (mix_charges gpc isc delta) as [charges|] eqn:Hm; [|discriminate].
  intros _. now exists gas, liquid, pct, gpc, isc, charges.
Qed.

(** A run that ends well, in either mode, has written one text for each
    line of its input. *)
Lemma run_written name resname delta type st src text n :
  (type = "RESP1" /\ src = resp1_path name) \/
  (type = "RESP2" /\ src = gas_path name) ->
  files st !! src = Some text ->
  header_ok resname (Str.readlines text) = true ->
  fst (create_charge_file name resname delta type st) = Ok n ->
  exists out pct charges,
    percent delta = Ok pct /\
    files (snd (create_charge_file name resname delta type st))
      !! output_path name resname (tag type) pct = Some (Str.concat out) /\
    length out = length (Str.readlines text) /\
    forall k line, Str.readlines text !! k = Some line ->
      exists written, out !! k = Some written /\
        line_rewritten resname charges (Str.readlines text) k line written.
Proof.
  intros Hmode Hf Hh Hrun.
  assert (exists pct charges,
    percent delta = Ok pct /\
    create_charge_file name resname delta type st =
      write_charge_file src (output_path name resname (tag type) pct) resname
        (Str.readlines text) charges
        (created (output_path name resname (tag type) pct) st))
    as (pct & charges & Hp & Heq).
  { destruct Hmode as [[-> ->] | [-> ->]].
    - apply RESP1_inv in Hrun as (text' & pct & cs & Hf' & Hp & _ & _ & Heq).
      rewrite Hf in Hf'. injection Hf' as <-. eauto.
    - apply RESP2_inv in Hrun
        as (gas & liquid & pct & gpc & isc & charges & Hf' & _ & Hp & _ & _ & _ & _ & Heq).
      rewrite Hf in Hf'. injection Hf' as <-. eauto. }
  rewrite Heq in Hrun |- *.
  destruct (write_charge_file_inv _ _ _ _ _ _ _ Hh Hrun) as (out & -> & Hlen & Hk).
  exists out, pct, charges. simpl snd.
  split; [exact Hp|]. split; [apply written_file|]. split; assumption.
Qed.

(** ** The format of an atom line *)

Lemma rjust_aligned w tok : right_aligned w tok (Str.rjust w tok).
Proof.
  exists (w - String.length tok)%nat. split; [reflexivity|].
  unfold Str.rjust. rewrite length_append, length_spaces. lia.
Qed.

Lemma ljust_aligned w tok : left_aligned w tok (Str.ljust w tok).
Proof.
  exists (w - String.length tok)%nat. split; [reflexivity|].
  unfold Str.ljust. rewrite length_append, length_spaces. lia.
Qed.

Lemma digit_char_is_digit d : 0 <= d < 10 -> is_digit (Float.digit_char d).
Proof.
  intros H.
  assert (d = 0 \/ d = 1 \/ d = 2 \/ d = 3 \/ d = 4 \/ d = 5 \/ d = 6 \/
          d = 7 \/ d = 8 \/ d = 9) as Hd by lia.
  repeat (destruct Hd as [-> | Hd]; [eexists; reflexivity|]).
  subst. eexists; reflexivity.
Qed.

Lemma uint_digits (d : Decimal.uint) :
  Forall is_digit (String.list_ascii_of_string (NilEmpty.string_of_uint d)).
Proof.
  induction d; simpl; constructor;
    solve [assumption | eexists; reflexivity].
Qed.

Lemma of_Z_digits n :
  0 <= n ->
  Str.of_Z n <> "" /\ Forall is_digit (String.list_ascii_of_string (Str.of_Z n)).
Proof.
  intros Hn. unfold Str.of_Z. destruct n as [|p|p]; [| |lia].
  - split; [discriminate|]. simpl. constructor; [eexists; reflexivity|constructor].
  - change (Z.to_int (Z.pos p)) with (Decimal.Pos (Pos.to_uint p)).
    unfold NilZero.string_of_int, NilZero.string_of_uint.
    destruct (Pos.to_uint p) eqn:Hd;
      try (split; [discriminate | rewrite <- Hd; apply uint_digits]).
    split; [discriminate|]. simpl. constructor; [eexists; reflexivity|constructor].
Qed.

Lemma div_nearest_even_nonneg p q :
  0 <= p -> 0 < q -> 0 <= Float.div_nearest_even p q.
Proof.
  intros Hp Hq. unfold Float.div_nearest_even.
  destruct (Z.div_eucl p q) as [n r] eqn:E.
  assert (n = p / q) as -> by (unfold Z.div; now rewrite E).
  pose proof (Z.div_pos p q Hp Hq).
  destruct (2 * r ?= q); [destruct (Z.even (p / q))| |]; lia.
Qed.

Lemma fixed4_decimals sign n :
  sign = "" \/ sign = "-" -> 0 <= n -> four_decimals (sign +:+ Float.fixed4 n).
Proof.
  intros Hs Hn. unfold Float.fixed4.
  destruct (of_Z_digits (n / 10000)) as [Hne Hd]; [apply Z.div_pos; lia|].
  exists sign, (Str.of_Z (n / 10000)),
    (Float.digit_char (n / 1000 mod 10)), (Float.digit_char (n / 100 mod 10)),
    (Float.digit_char (n / 10 mod 10)), (Float.digit_char (n mod 10)).
  split; [reflexivity|]. split; [exact Hs|]. split; [exact Hne|].
  split; [exact Hd|].
  repeat split; apply digit_char_is_digit; apply Z.mod_pos_bound; lia.
Qed.

(** A finite charge is written with exactly four decimal places. *)
Lemma format_4f_decimals x :
  Float.is_finite x = true -> four_decimals (Float.format_4f x).
Proof.
  unfold Float.is_finite, Float.format_4f.
  destruct (Prim2SF x) as [sg|sg| |sg m e]; try discriminate; intros _.
  - apply fixed4_decimals; [destruct sg; auto | lia].
  - apply fixed4_decimals; [destruct sg; auto|].
    destruct (0 <=? e) eqn:He.
    + apply Z.leb_le in He. pose proof (Z.pow_nonneg 2 e). nia.
    + apply div_nearest_even_nonneg; [lia|].
      apply Z.pow_pos_nonneg; lia.
Qed.

(** *** The digits of a charge *)

Lemma digits_value_app s : forall acc t,
  digits_value acc (s +:+ t) = digits_value (digits_value acc s) t.
Proof.
  induction s as [|c s IH]; intros acc t; [reflexivity|].
  rewrite append_cons. simpl. apply IH.
Qed.

Lemma digits_value_acc d : forall acc,
  digits_value (Z.pos acc) (NilEmpty.string_of_uint d) =
  Z.pos (Pos.of_uint_acc d acc).
Proof.
  induction d as [|d IH|d IH|d IH|d IH|d IH|d IH|d IH|d IH|d IH|d IH];
    intros acc; [reflexivity| | | | | | | | | |];
    cbn [NilEmpty.string_of_uint digits_value Pos.of_uint_acc];
    rewrite <- IH; f_equal; vm_compute (default 0 (Float.digit_val _)); lia.
Qed.

Lemma digits_value_uint d :
  digits_value 0 (NilEmpty.string_of_uint d) = Z.of_N (Pos.of_uint d).
Proof.
  induction d as [|d IH|d IH|d IH|d IH|d IH|d IH|d IH|d IH|d IH|d IH];
    [reflexivity|exact IH| | | | | | | | |];
    cbn [NilEmpty.string_of_uint digits_value Pos.of_uint];
    vm_compute (10 * 0 + default 0 (Float.digit_val _));
    apply digits_value_acc.
Qed.

(** The digits of [str(n)] stand for [n]. *)
Lemma digits_value_of_Z n : 0 <= n -> digits_value 0 (Str.of_Z n) = n.
Proof.
  intros Hn. unfold Str.of_Z. destruct n as [|p|p]; [reflexivity| |lia].
  change (Z.to_int (Z.pos p)) with (Decimal.Pos (Pos.to_uint p)).
  unfold NilZero.string_of_int.
  assert (H : forall d,
    digits_value 0 (NilZero.string_of_uint d) = Z.of_N (Pos.of_uint d)).
  { intros d. unfold NilZero.string_of_uint.
    destruct d; try apply digits_value_uint. reflexivity. }
  now rewrite H, DecimalPos.Unsigned.of_to.
Qed.

Lemma to_uint_head p d : Pos.to_uint p <> Decimal.D0 d.
Proof.
  intros H.
  pose proof (DecimalPos.Unsigned.to_of (Pos.to_uint p)) as Hn.
  rewrite DecimalPos.Unsigned.of_to in Hn.
  change (N.to_uint (N.pos p)) with (Pos.to_uint p) in Hn.
  rewrite H in Hn. unfold Decimal.unorm in Hn. rewrite nzhead_D0 in Hn.
  destruct (Decimal.nzhead d) eqn:E; try discriminate.
  - injection Hn as ->. now apply (DecimalPos.Unsigned.to_uint_nonzero p).
  - now apply nzhead_nonzero in E.
Qed.

(** [str(n)] does not begin with a zero, unless it is [0]. *)
Lemma of_Z_head n :
  0 <= n -> Str.of_Z n = "0" \/ Str.startswith (Str.of_Z n) "0" = false.
Proof.
  intros Hn. unfold Str.of_Z. destruct n as [|p|p]; [now left| |lia]. right.
  change (Z.to_int (Z.pos p)) with (Decimal.Pos (Pos.to_uint p)).
  unfold NilZero.string_of_int, NilZero.string_of_uint.
  pose proof (to_uint_head p) as H0.
  pose proof (DecimalPos.Unsigned.to_uint_nonnil p) as Hnil.
  destruct (Pos.to_uint p) as [|d|d|d|d|d|d|d|d|d|d];
    try reflexivity; [contradiction | now destruct (H0 d)].
Qed.

Lemma digit_val_char d : 0 <= d < 10 -> Float.digit_val (Float.digit_char d) = Some d.
Proof.
  intros H.
  assert (d = 0 \/ d = 1 \/ d = 2 \/ d = 3 \/ d = 4 \/ d = 5 \/ d = 6 \/
          d = 7 \/ d = 8 \/ d = 9) as Hd by lia.
  repeat (destruct Hd as [-> | Hd]; [reflexivity|]).
  now subst.
Qed.

Lemma fixed4_decimals4 sg n :
  0 <= n -> decimals4 sg n ((if sg then "-" else "") +:+ Float.fixed4 n).
Proof.
  intros Hn. unfold Float.fixed4.
  destruct (of_Z_digits (n / 10000)) as [Hne Hd]; [apply Z.div_pos; lia|].
  exists (Str.of_Z (n / 10000)),
    (Float.digit_char (n / 1000 mod 10)), (Float.digit_char (n / 100 mod 10)),
    (Float.digit_char (n / 10 mod 10)), (Float.digit_char (n mod 10)).
  split; [reflexivity|]. split; [exact Hne|]. split; [exact Hd|].
  split; [apply of_Z_head, Z.div_pos; lia|].
  assert (H10 : forall a, 0 <= a mod 10 < 10) by (intros a; apply Z.mod_pos_bound; lia).
  repeat (split; [apply digit_char_is_digit, H10|]).
  rewrite digits_value_app, digits_value_of_Z by (apply Z.div_pos; lia).
  cbn [digits_value]. rewrite !digit_val_char by apply H10.
  cbn [default]. unfold id. clear. Z.div_mod_to_equations. lia.
Qed.

Lemma div_nearest_even_spec p q :
  0 <= p -> 0 < q ->
  2 * Z.abs (Float.div_nearest_even p q * q - p) <= q /\
  (2 * Z.abs (Float.div_nearest_even p q * q - p) = q ->
   Z.even (Float.div_nearest_even p q) = true).
Proof.
  intros Hp Hq. unfold Float.div_nearest_even.
  pose proof (Z_div_mod p q ltac:(lia)) as H.
  destruct (Z.div_eucl p q) as [n r]. destruct H as [Heq Hr].
  destruct (Z.compare_spec (2 * r) q) as [Hc|Hc|Hc].
  - destruct (Z.even n) eqn:He.
    + split; [lia | intros _; exact He].
    + split; [lia|]. intros _. rewrite Z.even_add, He. reflexivity.
  - split; lia.
  - split; lia.
Qed.

(** The text of a charge is [charge_text] of it. *)
Lemma format_4f_text x : charge_text x (Float.format_4f x).
Proof.
  unfold charge_text, Float.format_4f.
  destruct (Prim2SF x) as [sg|sg| |sg m e].
  - apply fixed4_decimals4. lia.
  - now destruct sg.
  - reflexivity.
  - destruct (0 <=? e) eqn:He.
    + apply Z.leb_le in He. exists (Z.pos m * 2 ^ e * 10000). split.
      * unfold nearest_even4. cbv zeta.
        rewrite (Z.max_l e 0), (Z.max_r (- e) 0) by lia.
        change (2 ^ 0) with 1. rewrite Z.mul_1_r, Z.sub_diag.
        change (Z.abs 0) with 0. split; lia.
      * apply fixed4_decimals4. pose proof (Z.pow_nonneg 2 e). nia.
    + apply Z.leb_gt in He.
      assert (Hq : 0 < 2 ^ (- e)) by (apply Z.pow_pos_nonneg; lia).
      exists (Float.div_nearest_even (Z.pos m * 10000) (2 ^ (- e))). split.
      * unfold nearest_even4. cbv zeta.
        rewrite (Z.max_r e 0), (Z.max_l (- e) 0) by lia.
        change (2 ^ 0) with 1. rewrite Z.mul_1_r.
        apply div_nearest_even_spec; lia.
      * apply fixed4_decimals4. apply div_nearest_even_nonneg; lia.
Qed.

Lemma format_atom_fixed_width e0 e1 e2 e3 e4 e5 e6 resname charge :
  fixed_width e0 e1 e2 e3 e4 e5 e6 resname charge
    (format_atom e0 e1 e2 e3 e4 e5 e6 resname charge).
Proof.
  exists (Str.rjust 7 e0), (Str.ljust 3 e1), (Str.rjust 15 e2), (Str.rjust 10 e3),
    (Str.rjust 10 e4), (Str.ljust 3 e5), (Str.rjust 8 e6), (Str.rjust 5 resname),
    (Str.rjust 14 (Float.format_4f charge)), (Float.format_4f charge).
  split; [reflexivity|].
  repeat split; try apply rjust_aligned; try apply ljust_aligned.
  apply format_4f_text.
Qed.

(** ** Modes, line by line *)

Lemma mode_at_S v lines k line :
  lines !! k = Some line ->
  mode_at v lines (S k) = next_mode (mode_at v lines k) line.
Proof.
  intros H. unfold mode_at. rewrite (take_S_r _ _ _ H).
  now rewrite foldl_app.
Qed.

Lemma next_mode_not_header v line : v <> HEADER -> next_mode v line <> HEADER.
Proof.
  intros H. unfold next_mode.
  destruct (Str.contains atom_marker line); [discriminate|].
  destruct (Str.contains bond_marker line); [discriminate | exact H].
Qed.

Lemma mode_at_not_header lines : forall v k, v <> HEADER -> mode_at v lines k <> HEADER.
Proof.
  induction lines as [|line rest IH]; intros v [|k] H; try exact H.
  rewrite mode_at_cons. apply IH. now apply next_mode_not_header.
Qed.

Lemma no_marker_atom_line line : no_marker line = true -> is_atom_line ATOM line = true.
Proof. unfold no_marker, is_atom_line. intros ->. reflexivity. Qed.

Lemma unmarked_rows lines :
  forallb (fun line => negb (Str.contains atom_marker line)) lines = true ->
  atom_rows HEADER lines = [].
Proof.
  intros H. apply atom_rows_no_marker.
  induction lines as [|line rest IH]; constructor; simpl in H;
    apply andb_prop in H as [H1 H2].
  - now apply negb_true_iff.
  - now apply IH.
Qed.

Lemma write_charge_file_state f output resname lines charges st :
  exists written,
    snd (write_charge_file f output resname lines charges st) =
    appended output written st.
Proof.
  rewrite write_charge_file_spec. destruct (lines !! 1%nat).
  - eexists. reflexivity.
  - exists "". now rewrite appended_nil.
Qed.

Lemma gas_not_liquid name : gas_path name <> liquid_path name.
Proof.
  unfold gas_path, liquid_path. intros H.
  apply (inj (String.append name)) in H. discriminate.
Qed.

Lemma write_loop_atom_step output resname charges num line rest :
  no_marker line = true ->
  write_loop output resname charges ATOM num (line :: rest) =
  (do text <- lift (atom_line (Str.split line) resname charges num);
   run write output text;
   write_loop output resname charges ATOM (S num) rest).
Proof.
  unfold no_marker. intros H. simpl.
  destruct (Str.contains atom_marker line); [discriminate|].
  destruct (Str.contains bond_marker line); [discriminate|]. reflexivity.
Qed.

(** ** Tokens *)

Lemma no_space_app (s t : string) :
  no_space (s +:+ t) = no_space s && no_space t.
Proof.
  induction s as [|c s IH]; [reflexivity|].
  rewrite append_cons. simpl. now rewrite IH, andb_assoc.
Qed.

Lemma append_empty (s t : string) : s +:+ t = "" -> s = "" /\ t = "".
Proof.
  destruct s; [intros H; split; [reflexivity | exact H]|].
  rewrite append_cons. discriminate.
Qed.

Lemma is_token_no_space s : is_token s = true -> no_space s = true.
Proof. unfold is_token. intros H. now apply andb_prop in H as [_ H]. Qed.

Lemma is_token_not_empty s : is_token s = true -> s <> "".
Proof.
  unfold is_token. intros H Hs. apply andb_prop in H as [H _].
  now rewrite bool_decide_eq_true_2 in H.
Qed.

Lemma token_after (s t : string) :
  no_space s = true -> is_token t = true -> is_token (s +:+ t) = true.
Proof.
  intros Hs Ht. unfold is_token. rewrite no_space_app, Hs.
  rewrite (is_token_no_space _ Ht). rewrite bool_decide_eq_false_2; [reflexivity|].
  intros H. apply append_empty in H as [_ H].
  now apply (is_token_not_empty t).
Qed.

Lemma spaces_add (a b : nat) :
  Str.spaces (a + b) = Str.spaces a +:+ Str.spaces b.
Proof.
  induction a as [|a IH]; [reflexivity|]. simpl. now rewrite IH.
Qed.

Lemma split_from_token tok : forall cur s,
  no_space tok = true ->
  Str.split_from cur (tok +:+ s) = Str.split_from (cur +:+ tok) s.
Proof.
  induction tok as [|c tok IH]; intros cur s H.
  - now rewrite append_nil_r.
  - simpl in H. apply andb_prop in H as [Hc Ht]. apply negb_true_iff in Hc.
    rewrite append_cons. simpl. rewrite Hc. rewrite IH by exact Ht.
    now rewrite append_assoc.
Qed.

Lemma split_from_spaces n s :
  Str.split_from "" (Str.spaces n +:+ s) = Str.split_from "" s.
Proof. induction n as [|n IH]; [reflexivity|]. simpl. exact IH. Qed.

Lemma split_from_gap cur n s :
  cur <> "" ->
  Str.split_from cur (Str.spaces (S n) +:+ s) = cur :: Str.split_from "" s.
Proof.
  intros H. simpl. rewrite decide_False by exact H.
  now rewrite split_from_spaces.
Qed.

(** The tokens of a row of fields closed by a space and a line break. *)
Lemma split_join_fields fields : forall n tok,
  is_token tok = true ->
  Forall (fun f => (1 <= fst f)%nat /\ is_token (snd f) = true) fields ->
  Str.split (Str.spaces n +:+ tok +:+ join_fields fields (" " +:+ nl)) =
  tok :: map snd fields.
Proof.
  unfold Str.split.
  induction fields as [|[m tok'] fields IH]; intros n tok Ht Hf.
  - rewrite split_from_spaces.
    rewrite split_from_token by now apply is_token_no_space.
    simpl. rewrite decide_False by now apply is_token_not_empty.
    reflexivity.
  - inversion Hf as [|? ? [Hm Ht'] Hf']; subst. simpl in Hm, Ht'.
    rewrite split_from_spaces.
    rewrite split_from_token by now apply is_token_no_space.
    simpl join_fields. destruct m as [|m]; [lia|].
    rewrite split_from_gap by now apply is_token_not_empty.
    simpl map.
    rewrite <- (IH 0%nat tok' Ht' Hf'). reflexivity.
Qed.

Lemma split_from_tokens s : forall cur,
  no_space cur = true ->
  Forall (fun t => is_token t = true) (Str.split_from cur s).
Proof.
  induction s as [|c s IH]; intros cur Hcur; simpl.
  - destruct (decide (cur = "")); [constructor|].
    constructor; [|constructor]. unfold is_token.
    now rewrite bool_decide_eq_false_2, Hcur.
  - destruct (Str.isspace c) eqn:Hc.
    + destruct (decide (cur = "")); [now apply IH|].
      constructor; [|now apply IH]. unfold is_token.
      now rewrite bool_decide_eq_false_2, Hcur.
    + apply IH. rewrite no_space_app, Hcur. simpl. now rewrite Hc.
Qed.

(** The tokens of a line are tokens. *)
Lemma split_tokens s : Forall (fun t => is_token t = true) (Str.split s).
Proof. now apply split_from_tokens. Qed.

Lemma digit_not_space c : is_digit c -> Str.isspace c = false.
Proof.
  unfold is_digit, Float.digit_val, Str.isspace. intros [d H].
  destruct ((48 <=? nat_of_ascii c)%nat && (nat_of_ascii c <=? 57)%nat) eqn:Hb;
    [|discriminate].
  apply andb_prop in Hb as [H1 H2].
  apply Nat.leb_le in H1. apply Nat.leb_le in H2.
  rewrite !orb_false_iff, !andb_false_iff.
  repeat split;
    rewrite ?Nat.leb_gt, ?Nat.eqb_neq; lia.
Qed.

Lemma digits_no_space s :
  Forall is_digit (String.list_ascii_of_string s) -> no_space s = true.
Proof.
  induction s as [|c s IH]; intros H; [reflexivity|].
  simpl in H. inversion H as [|? ? Hc Hs]; subst. simpl.
  now rewrite (digit_not_space _ Hc), IH.
Qed.

Lemma fixed4_token sign n :
  sign = "" \/ sign = "-" -> 0 <= n -> is_token (sign +:+ Float.fixed4 n) = true.
Proof.
  intros Hs Hn. destruct (fixed4_decimals sign n Hs Hn)
    as (sg & int & d1 & d2 & d3 & d4 & -> & Hsg & _ & Hint & H1 & H2 & H3 & H4).
  apply token_after; [destruct Hsg as [-> | ->]; reflexivity|].
  apply token_after; [now apply digits_no_space|].
  unfold is_token. simpl.
  now rewrite (digit_not_space _ H1), (digit_not_space _ H2),
    (digit_not_space _ H3), (digit_not_space _ H4).
Qed.

(** The text of a charge is one token. *)
Lemma format_4f_token x : is_token (Float.format_4f x) = true.
Proof.
  unfold Float.format_4f.
  destruct (Prim2SF x) as [sg|sg| |sg m e].
  - apply fixed4_token; [destruct sg; auto | lia].
  - now destruct sg.
  - reflexivity.
  - apply fixed4_token; [destruct sg; auto|].
    destruct (0 <=? e) eqn:He.
    + apply Z.leb_le in He. pose proof (Z.pow_nonneg 2 e). nia.
    + apply div_nearest_even_nonneg; [lia|].
      apply Z.pow_pos_nonneg; lia.
Qed.

(** ** Sections *)

Lemma last_marked_mode lines : forall v,
  foldl next_mode v lines =
  match last_marked lines with
  | Some m => if Str.contains atom_marker m then ATOM else TRAILER
  | None => v
  end.
Proof.
  induction lines as [|line rest IH]; intros v; [reflexivity|].
  simpl. rewrite IH. destruct (last_marked rest); [reflexivity|].
  unfold no_marker, next_mode.
  destruct (Str.contains atom_marker line) eqn:Ha; simpl; [now rewrite Ha|].
  destruct (Str.contains bond_marker line); simpl; [now rewrite Ha | reflexivity].
Qed.

(** An atom line is a line without marker in a section of atoms. *)
Lemma atom_line_section lines k line :
  is_atom_line (mode_at HEADER lines k) line =
  in_atom_section lines k && no_marker line.
Proof.
  unfold mode_at, in_atom_section. rewrite last_marked_mode.
  unfold is_atom_line, no_marker.
  destruct (last_marked (take k lines)) as [m|];
    [destruct (Str.contains atom_marker m)|];
    destruct (Str.contains atom_marker line), (Str.contains bond_marker line);
    reflexivity.
Qed.

(** ** The lines of a text *)

Lemma no_break_app (s t : string) :
  no_break (s +:+ t) = no_break s && no_break t.
Proof.
  induction s as [|c s IH]; [reflexivity|].
  rewrite append_cons. simpl. now rewrite IH, andb_assoc.
Qed.

Lemma no_break_spaces n : no_break (Str.spaces n) = true.
Proof. induction n as [|n IH]; [reflexivity | exact IH]. Qed.

Lemma no_space_no_break s : no_space s = true -> no_break s = true.
Proof.
  induction s as [|c s IH]; [reflexivity|]. simpl.
  intros H. apply andb_prop in H as [Hc Hs]. rewrite (IH Hs), andb_true_r.
  destruct (Ascii.eqb_spec c "010"%char) as [->|]; [discriminate | reflexivity].
Qed.

Lemma no_break_rjust w s : no_break s = true -> no_break (Str.rjust w s) = true.
Proof. intros H. unfold Str.rjust. now rewrite no_break_app, no_break_spaces. Qed.

Lemma no_break_ljust w s : no_break s = true -> no_break (Str.ljust w s) = true.
Proof. intros H. unfold Str.ljust. now rewrite no_break_app, no_break_spaces, H. Qed.

Lemma lines_from_body body : forall cur s,
  no_break body = true ->
  Str.lines_from cur (body +:+ s) = Str.lines_from (cur +:+ body) s.
Proof.
  induction body as [|c body IH]; intros cur s H.
  - now rewrite append_nil_r.
  - simpl in H. apply andb_prop in H as [Hc Hb]. apply negb_true_iff in Hc.
    rewrite append_cons. simpl. rewrite Hc, IH by exact Hb.
    now rewrite append_assoc.
Qed.

Lemma lines_from_closed cur line s :
  closed_line line ->
  Str.lines_from cur (line +:+ s) = (cur +:+ line) :: Str.lines_from "" s.
Proof.
  intros (body & -> & Hb). rewrite append_assoc, lines_from_body by exact Hb.
  unfold nl. rewrite append_cons. simpl. now rewrite append_assoc.
Qed.

(** Lines put together and read again are the same lines. *)
Lemma readlines_concat ls : text_lines ls -> Str.readlines (Str.concat ls) = ls.
Proof.
  unfold Str.readlines. induction 1 as [|s Hs Hne|s rest Hs _ IH].
  - reflexivity.
  - simpl. rewrite lines_from_body by exact Hs. simpl.
    now rewrite decide_False by exact Hne.
  - simpl. rewrite lines_from_closed by exact Hs. now rewrite IH.
Qed.

Lemma lines_from_text_lines s : forall cur,
  no_break cur = true -> text_lines (Str.lines_from cur s).
Proof.
  induction s as [|c s IH]; intros cur Hc; simpl.
  - destruct (decide (cur = "")); [constructor | now constructor].
  - destruct (Ascii.eqb_spec c "010"%char) as [->|Hne].
    + apply text_lines_cons; [now exists cur | now apply IH].
    + apply IH. rewrite no_break_app, Hc. simpl.
      destruct (Ascii.eqb_spec c "010"%char); [contradiction | reflexivity].
Qed.

(** What [readlines] gives are the lines of a text. *)
Lemma readlines_text_lines text : text_lines (Str.readlines text).
Proof. now apply lines_from_text_lines. Qed.

(** They stay so when lines are replaced by closed lines. *)
Lemma text_lines_rewritten lines :
  text_lines lines ->
  forall out,
    Forall2 (fun line w => closed_line w \/ w = line) lines out ->
    text_lines out.
Proof.
  induction 1 as [|s Hs Hne|s rest Hs _ IH]; intros out HF.
  - inversion HF. constructor.
  - inversion HF as [|? w ? out' Hw HF']; subst. inversion HF'; subst.
    destruct Hw as [Hw | ->]; [|now constructor].
    apply text_lines_cons; [exact Hw | constructor].
  - inversion HF as [|? w ? out' Hw HF']; subst.
    apply text_lines_cons; [|now apply IH].
    destruct Hw as [Hw | ->]; assumption.
Qed.

Lemma title_closed resname : no_break resname = true -> closed_line (resname +:+ nl).
Proof. intros H. now exists resname. Qed.

(** An atom line written from the tokens of a line is a closed line. *)
Lemma format_atom_closed line e0 e1 e2 e3 e4 e5 e6 rest resname charge :
  Str.split line = e0 :: e1 :: e2 :: e3 :: e4 :: e5 :: e6 :: rest ->
  no_break resname = true ->
  closed_line (format_atom e0 e1 e2 e3 e4 e5 e6 resname charge).
Proof.
  intros Hs Hr. pose proof (split_tokens line) as Ht. rewrite Hs in Ht.
  inversion Ht as [|? ? T0 Ht1]; subst. inversion Ht1 as [|? ? T1 Ht2]; subst.
  inversion Ht2 as [|? ? T2 Ht3]; subst. inversion Ht3 as [|? ? T3 Ht4]; subst.
  inversion Ht4 as [|? ? T4 Ht5]; subst. inversion Ht5 as [|? ? T5 Ht6]; subst.
  inversion Ht6 as [|? ? T6 _]; subst.
  assert (Hb : forall t, is_token t = true -> no_break t = true)
    by (intros t H; now apply no_space_no_break, is_token_no_space).
  exists (Str.rjust 7 e0 +:+ " " +:+ Str.ljust 3 e1 +:+ Str.rjust 15 e2 +:+
          Str.rjust 10 e3 +:+ Str.rjust 10 e4 +:+ " " +:+ Str.ljust 3 e5 +:+
          Str.rjust 8 e6 +:+ Str.rjust 5 resname +:+
          Str.rjust 14 (Float.format_4f charge) +:+ " ").
  split; [unfold format_atom; now rewrite !append_assoc|].
  pose proof (Hb _ T0). pose proof (Hb _ T1). pose proof (Hb _ T2).
  pose proof (Hb _ T3). pose proof (Hb _ T4). pose proof (Hb _ T5).
  pose proof (Hb _ T6). pose proof (Hb _ (format_4f_token charge)).
  rewrite !no_break_app.
  rewrite !no_break_rjust, !no_break_ljust by assumption.
  reflexivity.
Qed.

(** A run that ends well, in either mode, has written one line for each
    line of its input. *)
Lemma run_lines name resname delta type st src text n :
  (type = "RESP1" /\ src = resp1_path name) \/
  (type = "RESP2" /\ src = gas_path name) ->
  files st !! src = Some text ->
  header_ok resname (Str.readlines text) = true ->
  no_break resname = true ->
  fst (create_charge_file name resname delta type st) = Ok n ->
  exists pct content charges,
    percent delta = Ok pct /\
    files (snd (create_charge_file name resname delta type st))
      !! output_path name resname (tag type) pct = Some content /\
    length (Str.readlines content) = length (Str.readlines text) /\
    forall k line, Str.readlines text !! k = Some line ->
      exists written, Str.readlines content !! k = Some written /\
        line_rewritten resname charges (Str.readlines text) k line written.
Proof.
  intros Hmode Hf Hh Hr Hrun.
  destruct (run_written _ _ _ _ _ _ _ _ Hmode Hf Hh Hrun)
    as (out & pct & charges & Hp & Hfile & Hlen & Hk).
  assert (Hout : Str.readlines (Str.concat out) = out).
  { apply readlines_concat.
    apply (text_lines_rewritten _ (readlines_text_lines text)).
    apply Forall2_same_length_lookup_2; [now rewrite Hlen|].
    intros k line w Hline Hw. destruct (Hk _ _ Hline) as (w' & Hw' & Hd).
    rewrite Hw in Hw'. injection Hw' as <-. unfold line_rewritten in Hd.
    destruct (is_atom_line (mode_at HEADER (Str.readlines text) k) line).
    - apply atom_line_inv in Hd
        as (e0 & e1 & e2 & e3 & e4 & e5 & e6 & rest & c & Hs & _ & ->).
      left. now apply (format_atom_closed line _ _ _ _ _ _ _ rest).
    - destruct (bool_decide (k = 1%nat) && is_placeholder line); subst w;
        [left; now apply title_closed | now right]. }
  exists pct, (Str.concat out), charges. rewrite Hout. now repeat split.
Qed.

(** ** Markers in the lines written *)

Lemma contains_char c sub s :
  Str.contains (String c sub) s = true -> In c (String.list_ascii_of_string s).
Proof.
  induction s as [|a s IH]; [discriminate|].
  cbn [Str.contains String.prefix]. intros H. apply orb_prop in H as [H|H].
  - destruct (ascii_dec c a) as [->|]; [now left | discriminate].
  - right. now apply IH.
Qed.

Lemma no_at_chars s :
  Str.contains "@" s = false ->
  Forall (fun c => c <> "@"%char) (String.list_ascii_of_string s).
Proof.
  induction s as [|a s IH]; [constructor|].
  cbn [Str.contains String.prefix]. intros H.
  apply orb_false_iff in H as [H1 H2]. constructor; [|now apply IH].
  intros ->. destruct (ascii_dec "@" "@"); [|contradiction].
  destruct s; discriminate.
Qed.

Lemma no_at_no_marker s :
  Forall (fun c => c <> "@"%char) (String.list_ascii_of_string s) ->
  no_marker s = true.
Proof.
  intros H. rewrite Forall_forall in H. unfold no_marker.
  destruct (Str.contains atom_marker s) eqn:Ha;
    [apply contains_char, list_elem_of_In, H in Ha; contradiction|].
  destruct (Str.contains bond_marker s) eqn:Hb;
    [apply contains_char, list_elem_of_In, H in Hb; contradiction|].
  reflexivity.
Qed.

Lemma split_from_chars (P : ascii -> Prop) s : forall cur,
  Forall P (String.list_ascii_of_string cur) ->
  Forall P (String.list_ascii_of_string s) ->
  Forall (fun t => Forall P (String.list_ascii_of_string t)) (Str.split_from cur s).
Proof.
  induction s as [|c s IH]; intros cur Hc Hs; simpl.
  - destruct (decide (cur = "")); repeat constructor. exact Hc.
  - inversion Hs as [|? ? Hp Hs']; subst.
    destruct (Str.isspace c).
    + destruct (decide (cur = "")); [|constructor; [exact Hc|]];
        apply IH; (constructor || assumption).
    + apply IH; [|exact Hs']. rewrite chars_append. apply Forall_app.
      split; [exact Hc | now repeat constructor].
Qed.

Lemma spaces_chars (P : ascii -> Prop) n :
  P " "%char -> Forall P (String.list_ascii_of_string (Str.spaces n)).
Proof. intros H. induction n; simpl; now constructor. Qed.

Lemma digit_no_at c : is_digit c -> c <> "@"%char.
Proof. intros [d H] ->. discriminate. Qed.

Lemma format_4f_chars x :
  Forall (fun c => c <> "@"%char) (String.list_ascii_of_string (Float.format_4f x)).
Proof.
  assert (H : forall sign n, sign = "" \/ sign = "-" -> 0 <= n ->
    Forall (fun c => c <> "@"%char)
      (String.list_ascii_of_string (sign +:+ Float.fixed4 n))).
  { intros sign n Hs Hn.
    destruct (fixed4_decimals sign n Hs Hn)
      as (sg & int & d1 & d2 & d3 & d4 & -> & Hsg & _ & Hint & H1 & H2 & H3 & H4).
    rewrite !chars_append, !Forall_app. split; [|split].
    - destruct Hsg as [-> | ->]; repeat constructor. discriminate.
    - eapply Forall_impl; [exact Hint | apply digit_no_at].
    - repeat constructor; (discriminate || now apply digit_no_at). }
  unfold Float.format_4f.
  destruct (Prim2SF x) as [sg|sg| |sg m e].
  - apply H; [destruct sg; auto | lia].
  - destruct sg; repeat constructor; discriminate.
  - repeat constructor; discriminate.
  - apply H; [destruct sg; auto|].
    destruct (0 <=? e) eqn:He.
    + apply Z.leb_le in He. pose proof (Z.pow_nonneg 2 e). nia.
    + apply div_nearest_even_nonneg; [lia|].
      apply Z.pow_pos_nonneg; lia.
Qed.

(** An atom line written from a line and a residue name without [@] holds
    no marker. *)
Lemma format_atom_no_marker line e0 e1 e2 e3 e4 e5 e6 rest resname charge :
  Str.split line = e0 :: e1 :: e2 :: e3 :: e4 :: e5 :: e6 :: rest ->
  Str.contains "@" line = false ->
  Str.contains "@" resname = false ->
  no_marker (format_atom e0 e1 e2 e3 e4 e5 e6 resname charge) = true.
Proof.
  intros Hs Hl Hr. apply no_at_no_marker.
  pose proof (split_from_chars (fun c => c <> "@"%char) line ""
                ltac:(constructor) (no_at_chars _ Hl)) as Ht.
  fold (Str.split line) in Ht. rewrite Hs in Ht.
  inversion Ht as [|? ? T0 Ht1]; subst. inversion Ht1 as [|? ? T1 Ht2]; subst.
  inversion Ht2 as [|? ? T2 Ht3]; subst. inversion Ht3 as [|? ? T3 Ht4]; subst.
  inversion Ht4 as [|? ? T4 Ht5]; subst. inversion Ht5 as [|? ? T5 Ht6]; subst.
  inversion Ht6 as [|? ? T6 _]; subst.
  pose proof (no_at_chars _ Hr) as T7. pose proof (format_4f_chars charge) as T8.
  assert (Hsp : forall n,
    Forall (fun c => c <> "@"%char) (String.list_ascii_of_string (Str.spaces n)))
    by (intros n; now apply spaces_chars).
  unfold format_atom, Str.rjust, Str.ljust.
  rewrite !chars_append, !Forall_app.
  repeat split; try assumption; try apply Hsp; repeat constructor; discriminate.
Qed.

(** Files with the same markers have their atom lines at the same places. *)
Lemma same_markers_sections lines out :
  same_markers lines out ->
  forall v,
    length (atom_rows v out) = length (atom_rows v lines) /\
    forall k, mode_at v out k = mode_at v lines k.
Proof.
  induction 1 as [|line w lines out [Ha Hb] _ IH]; intros v.
  - split; [reflexivity | now intros [|k]].
  - assert (Hn : next_mode v w = next_mode v line)
      by (unfold next_mode; now rewrite Ha, Hb).
    assert (Hi : is_atom_line v w = is_atom_line v line)
      by (unfold is_atom_line; now rewrite Ha, Hb).
    split.
    + simpl. rewrite Hi, Hn. destruct (is_atom_line v line); simpl;
        [f_equal|]; apply IH.
    + intros [|k]; [reflexivity|]. rewrite !mode_at_cons, Hn. apply IH.
Qed.

Lemma no_marker_inv s :
  no_marker s = true ->
  Str.contains atom_marker s = false /\ Str.contains bond_marker s = false.
Proof.
  unfold no_marker. destruct (Str.contains atom_marker s); [discriminate|].
  destruct (Str.contains bond_marker s); [discriminate | now split].
Qed.

Lemma in_atom_section_mode lines k :
  in_atom_section lines k =
  match mode_at HEADER lines k with ATOM => true | _ => false end.
Proof.
  unfold in_atom_section, mode_at. rewrite last_marked_mode.
  destruct (last_marked (take k lines)) as [m|]; [|reflexivity].
  now destruct (Str.contains atom_marker m).
Qed.

(** The lines written show the markers of the input when neither its atom
    lines nor the residue name hold the character [@]. *)
Lemma rewritten_same_markers resname charges lines out :
  header_ok resname lines = true ->
  Str.contains "@" resname = false ->
  (forall k line, lines !! k = Some line ->
     is_atom_line (mode_at HEADER lines k) line = true ->
     Str.contains "@" line = false) ->
  length out = length lines ->
  (forall k line, lines !! k = Some line ->
     exists written, out !! k = Some written /\
       line_rewritten resname charges lines k line written) ->
  same_markers lines out.
Proof.
  intros Hh Hr Hat Hlen Hk.
  apply Forall2_same_length_lookup_2; [now rewrite Hlen|].
  intros k line w Hline Hw. destruct (Hk _ _ Hline) as (w' & Hw' & Hd).
  rewrite Hw in Hw'. injection Hw' as <-. unfold line_rewritten in Hd.
  destruct (is_atom_line (mode_at HEADER lines k) line) eqn:Ha.
  - apply atom_line_inv in Hd
      as (e0 & e1 & e2 & e3 & e4 & e5 & e6 & rest & c & Hs & _ & ->).
    pose proof (format_atom_no_marker line _ _ _ _ _ _ _ rest resname c Hs
                  (Hat _ _ Hline Ha) Hr) as Hn.
    apply no_marker_inv in Hn as [-> ->].
    unfold is_atom_line in Ha.
    destruct (Str.contains atom_marker line); [discriminate|].
    destruct (Str.contains bond_marker line); [discriminate | now split].
  - destruct (bool_decide (k = 1%nat) && is_placeholder line) eqn:Ht;
      [|now subst].
    subst w. apply andb_prop in Ht as [Hk1 _]. apply bool_decide_eq_true in Hk1.
    subst k. apply header_ok_inv in Hh as (l0 & l1 & rest & -> & _ & H1 & H2).
    simpl in Hline. injection Hline as <-.
    apply no_marker_inv in H1 as [-> ->].
    now apply no_marker_inv in H2 as [-> ->].
Qed.

(** ** A writer that fails *)

Lemma emitted_prefix resname charges lines : forall v num,
  (forall k line,
     (k < length (fst (emitted resname charges v num lines)))%nat ->
     lines !! k = Some line ->
     exists text,
       fst (emitted resname charges v num lines) !! k = Some text /\
       if is_atom_line (mode_at v lines k) line
       then atom_line (Str.split line) resname charges (num + rank v lines k) = Ok text
       else text = line) /\
  match snd (emitted resname charges v num lines) with
  | Ok _ => length (fst (emitted resname charges v num lines)) = length lines
  | Raise e =>
      exists line,
        lines !! length (fst (emitted resname charges v num lines)) = Some line /\
        is_atom_line
          (mode_at v lines (length (fst (emitted resname charges v num lines))))
          line = true /\
        atom_line (Str.split line) resname charges
          (num + rank v lines (length (fst (emitted resname charges v num lines))))
          = Raise e
  end.
Proof.
  induction lines as [|line rest IH]; intros v num.
  - split; [intros k line Hk; simpl in Hk; lia | reflexivity].
  - rewrite emitted_step. destruct (is_atom_line v line) eqn:Hat.
    + destruct (atom_line (Str.split line) resname charges num) as [text|e] eqn:Hl.
      * destruct (IH ATOM (S num)) as [Hk Hend]. simpl fst. simpl snd. split.
        -- intros [|k] l Hlt Hl'; simpl in Hl'.
           ++ injection Hl' as <-. exists text. split; [reflexivity|].
              unfold mode_at, rank. simpl. rewrite Hat. now rewrite Nat.add_0_r.
           ++ simpl in Hlt. destruct (Hk k l ltac:(lia) Hl') as (t & Ht & Hd).
              exists t. split; [exact Ht|].
              rewrite mode_at_cons, rank_cons, Hat, (is_atom_line_next _ _ Hat).
              now rewrite Nat.add_succ_r.
        -- destruct (snd (emitted resname charges ATOM (S num) rest)) as [u|e].
           ++ simpl. now rewrite Hend.
           ++ destruct Hend as (l & Hl' & Hat' & Hr). exists l. simpl length.
              rewrite mode_at_cons, rank_cons, Hat, (is_atom_line_next _ _ Hat).
              rewrite Nat.add_succ_r. now repeat split.
      * simpl. split; [intros k l Hlt; lia|].
        exists line. split; [reflexivity|]. split; [exact Hat|].
        unfold rank. simpl. now rewrite Nat.add_0_r.
    + destruct (IH (next_mode v line) num) as [Hk Hend]. simpl fst. simpl snd.
      split.
      * intros [|k] l Hlt Hl'; simpl in Hl'.
        -- injection Hl' as <-. exists line. split; [reflexivity|].
           unfold mode_at. simpl. now rewrite Hat.
        -- simpl in Hlt. destruct (Hk k l ltac:(lia) Hl') as (t & Ht & Hd).
           exists t. split; [exact Ht|].
           now rewrite mode_at_cons, rank_cons, Hat.
      * destruct (snd (emitted resname charges (next_mode v line) num rest)) as [u|e].
        -- simpl. now rewrite Hend.
        -- destruct Hend as (l & Hl' & Hat' & Hr). exists l. simpl length.
           rewrite mode_at_cons, rank_cons, Hat. now repeat split.
Qed.

(** What a writer that fails leaves in the output file it was given
    empty. *)
Lemma write_charge_file_fails f output resname lines charges st e :
  fst (write_charge_file f output resname lines charges (created output st))
    = Raise e ->
  exists written,
    snd (write_charge_file f output resname lines charges (created output st)) =
      Fs (<[output := written]> (files st)) (dirs st) /\
    if decide (length lines < 2)%nat then e = IndexError /\ written = ""
    else written_before resname charges (retitle resname lines) e written.
Proof.
  rewrite write_charge_file_spec.
  destruct (lines !! 1%nat) as [title|] eqn:Ht.
  - apply lookup_lt_Some in Ht.
    destruct (decide (length lines < 2)%nat) as [?|_]; [lia|]. cbv zeta.
    pose proof (emitted_prefix resname charges (retitle resname lines) HEADER 0)
      as [Hk Hend].
    destruct (snd (emitted resname charges HEADER 0 (retitle resname lines)))
      as [u|e']; simpl; [discriminate|].
    intros He. injection He as ->.
    eexists. split; [apply appended_created|].
    destruct Hend as (line & Hline & Hat & Hr).
    exists (length (fst (emitted resname charges HEADER 0 (retitle resname lines)))),
      line, (fst (emitted resname charges HEADER 0 (retitle resname lines))).
    split; [exact Hline|]. split; [unfold written_line; now rewrite Hat|].
    split; [reflexivity|]. split; [|reflexivity].
    intros k l Hlt Hl. destruct (Hk k l Hlt Hl) as (t & Hti & Hd).
    exists t. split; [exact Hti|]. unfold written_line.
    destruct (is_atom_line (mode_at HEADER (retitle resname lines) k) l);
      [exact Hd | now subst].
  - apply lookup_ge_None_1 in Ht.
    destruct (decide (length lines < 2)%nat) as [_|?]; [|lia]. simpl.
    intros He. injection He as <-. exists "". now split.
Qed.

(** * The claims *)

(** C1: in RESP2 mode, when the two files yield charge sequences of equal
    length, [create_charge_file] ends well and, for every atom index [i],
    the atom line of rank [i] is written with the charge
    [gpc[i] * (1 - delta) + isc[i] * delta]. *)
Theorem resp2_charges_mixed name resname delta st gas liquid pct gpc isc :
  files st !! gas_path name = Some gas ->
  files st !! liquid_path name = Some liquid ->
  percent delta = Ok pct ->
  can_create (output_path name resname "_R2_" pct) st = true ->
  header_ok resname (Str.readlines gas) = true ->
  read_charges HEADER [] (Str.readlines gas) = Ok gpc ->
  read_charges HEADER [] (Str.readlines liquid) = Ok isc ->
  length gpc = length isc ->
  exists out,
    mix_charges gpc isc delta =
      Ok (zip_with (fun g l => (g * (1.0 - delta) + l * delta)%float) gpc isc) /\
    fst (create_charge_file name resname delta "RESP2" st) = Ok 0 /\
    files (snd (create_charge_file name resname delta "RESP2" st))
      !! output_path name resname "_R2_" pct = Some (Str.concat out) /\
    length out = length (Str.readlines gas) /\
    forall i g l, gpc !! i = Some g -> isc !! i = Some l ->
      exists k line e0 e1 e2 e3 e4 e5 e6 rest,
        Str.readlines gas !! k = Some line /\
        is_atom_line (mode_at HEADER (Str.readlines gas) k) line = true /\
        rank HEADER (Str.readlines gas) k = i /\
        Str.split line = e0 :: e1 :: e2 :: e3 :: e4 :: e5 :: e6 :: rest /\
        out !! k = Some (format_atom e0 e1 e2 e3 e4 e5 e6 resname
                           (g * (1.0 - delta) + l * delta)%float).
Proof.
  intros Hg Hl Hp Hc Hh Hgpc Hisc Hlen.
  rewrite create_RESP2, Hp, Hg, Hl. cbv zeta. rewrite Hc, Hgpc, Hisc.
  rewrite mix_charges_spec, decide_True by lia.
  set (charges := zip_with (mixed delta) gpc isc).
  assert (Hch : length charges = length gpc).
  { unfold charges. rewrite length_zip_with. lia. }
  pose proof (write_charge_file_ok (gas_path name)
    (output_path name resname "_R2_" pct) resname _ charges gpc
    (created (output_path name resname "_R2_" pct) st) Hh Hgpc) as Hok.
  destruct (write_charge_file_inv _ _ _ _ _ _ _ Hh (Hok ltac:(lia)))
    as (out & Hrun & Hout & Hk).
  exists out. rewrite Hrun. simpl fst. simpl snd.
  split; [reflexivity|].
  split; [reflexivity|]. split; [apply written_file|]. split; [exact Hout|].
  intros i g l Hi Hi'.
  apply read_charges_inv in Hgpc as (cs & Heq & HF). simpl in Heq. subst cs.
  destruct (Forall2_lookup_r _ _ _ _ _ HF Hi) as (row & Hrow & _).
  destruct (atom_row_position _ _ _ _ Hrow) as (k & Hline & Hat & Hr).
  destruct (Hk _ _ Hline) as (text & Ht & Hd).
  destruct (atom_text _ _ _ _ _ _ Hd Hat)
    as (e0 & e1 & e2 & e3 & e4 & e5 & e6 & rest & c & Hs & Hcq & ->).
  exists k, row, e0, e1, e2, e3, e4, e5, e6, rest.
  repeat split; try assumption.
  rewrite Hr in Hcq. unfold charges in Hcq.
  rewrite lookup_zip_with, Hi in Hcq. simpl in Hcq. rewrite Hi' in Hcq.
  simpl in Hcq. injection Hcq as <-. exact Ht.
Qed.

(** C1, on the sample files. *)
Lemma resp2_charges_mixed_witness :
  exists out,
    mix_charges [0.5; -0.5]%float [0.7; -0.7]%float 0.5 =
      Ok (zip_with (fun g l => (g * (1.0 - 0.5) + l * 0.5)%float)
            [0.5; -0.5]%float [0.7; -0.7]%float) /\
    fst (create_charge_file "m" "MOL" 0.5 "RESP2" Sample.st0) = Ok 0 /\
    files (snd (create_charge_file "m" "MOL" 0.5 "RESP2" Sample.st0))
      !! output_path "m" "MOL" "_R2_" "50" = Some (Str.concat out) /\
    length out = length (Str.readlines Sample.gas) /\
    forall i g l,
      [0.5; -0.5]%float !! i = Some g -> [0.7; -0.7]%float !! i = Some l ->
      exists k line e0 e1 e2 e3 e4 e5 e6 rest,
        Str.readlines Sample.gas !! k = Some line /\
        is_atom_line (mode_at HEADER (Str.readlines Sample.gas) k) line = true /\
        rank HEADER (Str.readlines Sample.gas) k = i /\
        Str.split line = e0 :: e1 :: e2 :: e3 :: e4 :: e5 :: e6 :: rest /\
        out !! k = Some (format_atom e0 e1 e2 e3 e4 e5 e6 "MOL"
                           (g * (1.0 - 0.5) + l * 0.5)%float).
Proof.
  apply (resp2_charges_mixed "m" "MOL" 0.5%float Sample.st0
           Sample.gas Sample.liquid "50" [0.5; -0.5]%float [0.7; -0.7]%float);
    vm_compute; reflexivity.
Defined.

(** The sample run of C1: the charges 0.5, -0.5 and 0.7, -0.7 mixed with
    [delta = 0.5] are 0.6 and -0.6, written as [0.6000] and [-0.6000]. *)
Example sample_mix :
  mix_charges [0.5; -0.5]%float [0.7; -0.7]%float 0.5%float = Ok [0.6; -0.6]%float.
Proof. reflexivity. Qed.

Example sample_run :
  files (snd (create_charge_file "m" "MOL" 0.5 "RESP2" Sample.st0))
    !! "m-liquid/MOL_R2_50.mol2" =
  Some (Sample.text
    [ "@<TRIPOS>MOLECULE"; "MOL"; " 2 1 1 0 0"; "SMALL"; "@<TRIPOS>ATOM";
      "      1 C1          0.1234   -1.2345       3.0 C.3       1  MOL        0.6000 ";
      "      2 H1             1.0       2.0       3.0 H         1  MOL       -0.6000 ";
      "@<TRIPOS>BOND"; " 1 1 2 1" ]).
Proof. vm_compute. reflexivity. Qed.

(** C4: in RESP1 mode the charges read are each multiplied by [delta],
    whatever its value (nothing confines it to the interval from 0 to 1),
    and the atom line of rank [i] is written with [cs[i] * delta]. *)
Theorem resp1_charges_scaled name resname delta st text pct cs :
  files st !! resp1_path name = Some text ->
  percent delta = Ok pct ->
  can_create (output_path name resname "_R1_" pct) st = true ->
  header_ok resname (Str.readlines text) = true ->
  read_charges HEADER [] (Str.readlines text) = Ok cs ->
  exists out,
    scale_charges cs delta = Ok (map (fun c => (c * delta)%float) cs) /\
    fst (create_charge_file name resname delta "RESP1" st) = Ok 0 /\
    files (snd (create_charge_file name resname delta "RESP1" st))
      !! output_path name resname "_R1_" pct = Some (Str.concat out) /\
    length out = length (Str.readlines text) /\
    forall i c, cs !! i = Some c ->
      exists k line e0 e1 e2 e3 e4 e5 e6 rest,
        Str.readlines text !! k = Some line /\
        is_atom_line (mode_at HEADER (Str.readlines text) k) line = true /\
        rank HEADER (Str.readlines text) k = i /\
        Str.split line = e0 :: e1 :: e2 :: e3 :: e4 :: e5 :: e6 :: rest /\
        out !! k = Some (format_atom e0 e1 e2 e3 e4 e5 e6 resname (c * delta)%float).
Proof.
  intros Hf Hp Hc Hh Hcs.
  rewrite create_RESP1, Hf, Hp. cbv zeta. rewrite Hc, Hcs.
  set (charges := map (scaled delta) cs).
  assert (Hch : length charges = length cs) by apply length_map.
  pose proof (write_charge_file_ok (resp1_path name)
    (output_path name resname "_R1_" pct) resname _ charges cs
    (created (output_path name resname "_R1_" pct) st) Hh Hcs) as Hok.
  destruct (write_charge_file_inv _ _ _ _ _ _ _ Hh (Hok ltac:(lia)))
    as (out & Hrun & Hout & Hk).
  exists out. rewrite Hrun. simpl fst. simpl snd.
  split; [apply scale_charges_spec|].
  split; [reflexivity|]. split; [apply written_file|]. split; [exact Hout|].
  intros i c Hi.
  apply read_charges_inv in Hcs as (cs' & Heq & HF). simpl in Heq. subst cs'.
  destruct (Forall2_lookup_r _ _ _ _ _ HF Hi) as (row & Hrow & _).
  destruct (atom_row_position _ _ _ _ Hrow) as (k & Hline & Hat & Hr).
  destruct (Hk _ _ Hline) as (t & Ht & Hd).
  destruct (atom_text _ _ _ _ _ _ Hd Hat)
    as (e0 & e1 & e2 & e3 & e4 & e5 & e6 & rest & c' & Hs & Hcq & ->).
  exists k, row, e0, e1, e2, e3, e4, e5, e6, rest.
  repeat split; try assumption.
  rewrite Hr in Hcq. unfold charges in Hcq.
  rewrite list_lookup_fmap, Hi in Hcq. simpl in Hcq. injection Hcq as <-.
  exact Ht.
Qed.

(** C4, on the sample file with [delta = 1.5]. *)
Lemma resp1_charges_scaled_witness :
  exists out,
    scale_charges [0.5; -0.5]%float 1.5 =
      Ok (map (fun c => (c * 1.5)%float) [0.5; -0.5]%float) /\
    fst (create_charge_file "m" "MOL" 1.5 "RESP1" Sample.st0) = Ok 0 /\
    files (snd (create_charge_file "m" "MOL" 1.5 "RESP1" Sample.st0))
      !! output_path "m" "MOL" "_R1_" "150" = Some (Str.concat out) /\
    length out = length (Str.readlines Sample.gas) /\
    forall i c, [0.5; -0.5]%float !! i = Some c ->
      exists k line e0 e1 e2 e3 e4 e5 e6 rest,
        Str.readlines Sample.gas !! k = Some line /\
        is_atom_line (mode_at HEADER (Str.readlines Sample.gas) k) line = true /\
        rank HEADER (Str.readlines Sample.gas) k = i /\
        Str.split line = e0 :: e1 :: e2 :: e3 :: e4 :: e5 :: e6 :: rest /\
        out !! k = Some (format_atom e0 e1 e2 e3 e4 e5 e6 "MOL" (c * 1.5)%float).
Proof.
  apply (resp1_charges_scaled "m" "MOL" 1.5%float Sample.st0
           Sample.gas "150" [0.5; -0.5]%float);
    vm_compute; reflexivity.
Defined.

(** A [delta] below 0 and one above 1 scale as any other. *)
Example sample_scale :
  scale_charges [0.5; -0.5]%float (-2)%float = Ok [-1; 1]%float /\
  files (snd (create_charge_file "m" "MOL" 1.5 "RESP1" Sample.st0))
    !! "m-liquid/MOL_R1_150.mol2" =
  Some (Sample.text
    [ "@<TRIPOS>MOLECULE"; "MOL"; " 2 1 1 0 0"; "SMALL"; "@<TRIPOS>ATOM";
      "      1 C1          0.1234   -1.2345       3.0 C.3       1  MOL        0.7500 ";
      "      2 H1             1.0       2.0       3.0 H         1  MOL       -0.7500 ";
      "@<TRIPOS>BOND"; " 1 1 2 1" ]).
Proof. split; vm_compute; reflexivity. Qed.

(** C2, as the code has it: mixing makes no length check. With more
    condensed-phase charges than gas-phase charges it raises [IndexError];
    with fewer it returns one charge for each condensed-phase charge, and the
    run raises [IndexError] at the first gas-phase atom line left without a
    charge. *)
Theorem length_mismatch_index_error name resname delta st gas liquid pct gpc isc :
  files st !! gas_path name = Some gas ->
  files st !! liquid_path name = Some liquid ->
  percent delta = Ok pct ->
  can_create (output_path name resname "_R2_" pct) st = true ->
  header_ok resname (Str.readlines gas) = true ->
  read_charges HEADER [] (Str.readlines gas) = Ok gpc ->
  read_charges HEADER [] (Str.readlines liquid) = Ok isc ->
  length gpc <> length isc ->
  fst (create_charge_file name resname delta "RESP2" st) = Raise IndexError /\
  ((length gpc < length isc)%nat ->
     mix_charges gpc isc delta = Raise IndexError) /\
  ((length isc < length gpc)%nat ->
     exists charges,
       mix_charges gpc isc delta = Ok charges /\ length charges = length isc).
Proof.
  intros Hg Hl Hp Hc Hh Hgpc Hisc Hlen.
  rewrite create_RESP2, Hp, Hg, Hl. cbv zeta. rewrite Hc, Hgpc, Hisc.
  rewrite mix_charges_spec.
  destruct (decide (length isc <= length gpc)%nat) as [Hle|Hgt].
  - split; [|split; [lia|]].
    + rewrite write_charge_file_spec.
      destruct (header_ok_title _ _ Hh) as [title ->]. cbv zeta.
      rewrite (writer_fails _ _ _ _ Hh Hgpc); [reflexivity|].
      rewrite length_zip_with. lia.
    + intros _. eexists. split; [reflexivity|]. rewrite length_zip_with. lia.
  - split; [reflexivity|]. split; [reflexivity|lia].
Qed.

(** C2, on files of five and of six atoms. *)
Lemma length_mismatch_index_error_witness :
  fst (create_charge_file "m" "MOL" 0.5 "RESP2"
         (Sample.disk Sample.gas (Sample.atoms 5) (Sample.atoms 6))) =
    Raise IndexError /\
  ((length (replicate 5 0.1%float) < length (replicate 6 0.1%float))%nat ->
     mix_charges (replicate 5 0.1%float) (replicate 6 0.1%float) 0.5 =
       Raise IndexError) /\
  ((length (replicate 6 0.1%float) < length (replicate 5 0.1%float))%nat ->
     exists charges,
       mix_charges (replicate 5 0.1%float) (replicate 6 0.1%float) 0.5 =
         Ok charges /\
       length charges = length (replicate 6 0.1%float)).
Proof.
  apply (length_mismatch_index_error "m" "MOL" 0.5%float
           (Sample.disk Sample.gas (Sample.atoms 5) (Sample.atoms 6))
           (Sample.atoms 5) (Sample.atoms 6) "50");
    vm_compute; (reflexivity || discriminate).
Defined.

(** C2 fails as stated: six gas-phase and five condensed-phase charges are
    mixed without any failure, and files of five and of six atoms end in an
    [IndexError], in either order. *)
Lemma length_mismatch_counterexample :
  length (replicate 6 0.1%float) <> length (replicate 5 0.1%float) /\
  is_ok (mix_charges (replicate 6 0.1%float) (replicate 5 0.1%float) 0.5) = true /\
  fst (create_charge_file "m" "MOL" 0.5 "RESP2"
         (Sample.disk Sample.gas (Sample.atoms 5) (Sample.atoms 6))) =
    Raise IndexError /\
  fst (create_charge_file "m" "MOL" 0.5 "RESP2"
         (Sample.disk Sample.gas (Sample.atoms 6) (Sample.atoms 5))) =
    Raise IndexError /\
  exn_name IndexError <> "LengthMismatchError".
Proof. repeat split; vm_compute; (reflexivity || discriminate). Qed.

(** C3, as the code has it: when [create_charge_file] ends well on a file
    that begins as a MOL2 file does, under a residue name without line
    break, the output file has one line for each line of the input (the file
    of RESP1 charges, or the gas-phase file in RESP2 mode). Where the input
    has an atom line, which is a line without marker that follows a line with
    the atom marker with no line holding a marker in between, the output has
    an atom line written from its fields: the atom lines are as many as in
    the input and stand at the same places, those after a second atom marker
    behind the bond section among them. Every other line is the line of the
    input, as decoded text, but for the title line when it is a placeholder.
    When neither the atom lines of the input nor the residue name hold the
    character [@], the output shows the markers of the input line by line, so
    that the scanner finds the same sections and as many atom lines in the
    output as in the input. *)
Theorem structure_preserved name resname delta type st src text n :
  (type = "RESP1" /\ src = resp1_path name) \/
  (type = "RESP2" /\ src = gas_path name) ->
  files st !! src = Some text ->
  header_ok resname (Str.readlines text) = true ->
  no_break resname = true ->
  fst (create_charge_file name resname delta type st) = Ok n ->
  exists pct content,
    percent delta = Ok pct /\
    files (snd (create_charge_file name resname delta type st))
      !! output_path name resname (tag type) pct = Some content /\
    length (Str.readlines content) = length (Str.readlines text) /\
    (forall k line, Str.readlines text !! k = Some line ->
       exists written, Str.readlines content !! k = Some written /\
         if in_atom_section (Str.readlines text) k && no_marker line then
           exists e0 e1 e2 e3 e4 e5 e6 rest charge,
             Str.split line = e0 :: e1 :: e2 :: e3 :: e4 :: e5 :: e6 :: rest /\
             written = format_atom e0 e1 e2 e3 e4 e5 e6 resname charge
         else if bool_decide (k = 1%nat) && is_placeholder line then
           written = resname +:+ nl
         else written = line) /\
    (Str.contains "@" resname = false ->
     (forall k line, Str.readlines text !! k = Some line ->
        in_atom_section (Str.readlines text) k && no_marker line = true ->
        Str.contains "@" line = false) ->
     same_markers (Str.readlines text) (Str.readlines content) /\
     length (atom_rows HEADER (Str.readlines content)) =
       length (atom_rows HEADER (Str.readlines text)) /\
     forall k, in_atom_section (Str.readlines content) k =
               in_atom_section (Str.readlines text) k).
Proof.
  intros Hmode Hf Hh Hr Hrun.
  destruct (run_lines _ _ _ _ _ _ _ _ Hmode Hf Hh Hr Hrun)
    as (pct & content & charges & Hp & Hfile & Hlen & Hk).
  exists pct, content. repeat (split; [assumption|]). split.
  - intros k line Hline. destruct (Hk _ _ Hline) as (written & Hw & Hd).
    exists written. split; [exact Hw|].
    rewrite <- atom_line_section.
    destruct (is_atom_line (mode_at HEADER (Str.readlines text) k) line) eqn:Hat.
    + destruct (atom_text _ _ _ _ _ _ Hd Hat)
        as (e0 & e1 & e2 & e3 & e4 & e5 & e6 & rest & c & Hs & _ & ->).
      now exists e0, e1, e2, e3, e4, e5, e6, rest, c.
    + unfold line_rewritten in Hd. now rewrite Hat in Hd.
  - intros Hres Hat.
    assert (Hm : same_markers (Str.readlines text) (Str.readlines content)).
    { apply (rewritten_same_markers resname charges); try assumption.
      intros k line Hline Ha. apply (Hat k line Hline).
      now rewrite <- atom_line_section. }
    destruct (same_markers_sections _ _ Hm HEADER) as [Hrows Hmodes].
    split; [exact Hm|]. split; [exact Hrows|].
    intros k. now rewrite !in_atom_section_mode, Hmodes.
Qed.

(** C3, on the sample files in RESP2 mode. *)
Lemma structure_preserved_witness :
  exists pct content,
    percent 0.5 = Ok pct /\
    files (snd (create_charge_file "m" "MOL" 0.5 "RESP2" Sample.st0))
      !! output_path "m" "MOL" (tag "RESP2") pct = Some content /\
    length (Str.readlines content) = length (Str.readlines Sample.gas) /\
    (forall k line, Str.readlines Sample.gas !! k = Some line ->
       exists written, Str.readlines content !! k = Some written /\
         if in_atom_section (Str.readlines Sample.gas) k && no_marker line then
           exists e0 e1 e2 e3 e4 e5 e6 rest charge,
             Str.split line = e0 :: e1 :: e2 :: e3 :: e4 :: e5 :: e6 :: rest /\
             written = format_atom e0 e1 e2 e3 e4 e5 e6 "MOL" charge
         else if bool_decide (k = 1%nat) && is_placeholder line then
           written = "MOL" +:+ nl
         else written = line) /\
    (Str.contains "@" "MOL" = false ->
     (forall k line, Str.readlines Sample.gas !! k = Some line ->
        in_atom_section (Str.readlines Sample.gas) k && no_marker line = true ->
        Str.contains "@" line = false) ->
     same_markers (Str.readlines Sample.gas) (Str.readlines content) /\
     length (atom_rows HEADER (Str.readlines content)) =
       length (atom_rows HEADER (Str.readlines Sample.gas)) /\
     forall k, in_atom_section (Str.readlines content) k =
               in_atom_section (Str.readlines Sample.gas) k).
Proof.
  apply (structure_preserved "m" "MOL" 0.5%float "RESP2" Sample.st0
           (gas_path "m") Sample.gas 0).
  - right. split; reflexivity.
  - vm_compute. reflexivity.
  - vm_compute. reflexivity.
  - vm_compute. reflexivity.
  - vm_compute. reflexivity.
Defined.

(** C3 fails as stated: in the sample file with two atom sections the
    bond section starts at the fifth line, the last line comes after it, and
    a run that ends well writes another line in its place. *)
Lemma rewritten_after_bonds_counterexample :
  header_ok "MOL" (Str.readlines Sample.two_sections) = true /\
  fst (create_charge_file "m" "MOL" 0.5 "RESP1"
         (Sample.disk Sample.two_sections Sample.gas Sample.liquid)) = Ok 0 /\
  Str.readlines Sample.two_sections !! 4%nat = Some (bond_marker +:+ nl) /\
  Str.readlines Sample.two_sections !! 7%nat =
    Some ("  2 C2  1.0 1.0 1.0 C.3 1 UNK 0.2" +:+ nl) /\
  (Str.readlines <$>
     files (snd (create_charge_file "m" "MOL" 0.5 "RESP1"
                   (Sample.disk Sample.two_sections Sample.gas Sample.liquid)))
       !! "m-liquid/MOL_R1_50.mol2") ≫= (fun out => out !! 7%nat) =
    Some ("      2 C2             1.0       1.0       1.0 C.3       1  MOL        0.1000 "
          +:+ nl) /\
  "      2 C2             1.0       1.0       1.0 C.3       1  MOL        0.1000 "
    +:+ nl <> "  2 C2  1.0 1.0 1.0 C.3 1 UNK 0.2" +:+ nl.
Proof. repeat split; vm_compute; (reflexivity || discriminate). Qed.




(** The sample line of C5 as [create_charge_file] writes it. *)
Example sample_atom_line :
  files (snd (create_charge_file "m" "MOL" 1 "RESP1"
                (Sample.disk Sample.one_atom Sample.gas Sample.liquid)))
    !! "m-liquid/MOL_R1_100.mol2" =
  Some (Sample.text
    [ "@<TRIPOS>MOLECULE"; "MOL"; "@<TRIPOS>ATOM";
      "      1 C1          0.1234   -1.2345       3.0 C.3       1  MOL       -0.1234 ";
      "@<TRIPOS>BOND" ]).
Proof. vm_compute. reflexivity. Qed.

(** C6, as the code has it: reading a file without the atom marker yields
    no charge and does not fail; the scaling of RESP1 then yields no charge,
    and so does the mixing of RESP2 when the condensed-phase file yields
    none; but the mixing raises [IndexError] when it is the gas-phase file
    that has no marker and the condensed-phase file yields a charge. *)
Theorem unmarked_file_no_charges lines :
  forallb (fun line => negb (Str.contains atom_marker line)) lines = true ->
  read_charges HEADER [] lines = Ok [] /\
  (forall delta, scale_charges [] delta = Ok []) /\
  (forall gpc delta, mix_charges gpc [] delta = Ok []) /\
  (forall isc delta, isc <> [] -> mix_charges [] isc delta = Raise IndexError).
Proof.
  intros H. split; [|split; [|split]].
  - apply (read_charges_rows lines HEADER [] []).
    rewrite (unmarked_rows _ H). constructor.
  - reflexivity.
  - reflexivity.
  - intros [|c isc] delta Hne; [congruence | reflexivity].
Qed.

(** C6, on the sample file without the atom marker. *)
Lemma unmarked_file_no_charges_witness :
  read_charges HEADER [] (Str.readlines Sample.unmarked) = Ok [] /\
  (forall delta, scale_charges [] delta = Ok []) /\
  (forall gpc delta, mix_charges gpc [] delta = Ok []) /\
  (forall isc delta, isc <> [] -> mix_charges [] isc delta = Raise IndexError).
Proof.
  apply (unmarked_file_no_charges (Str.readlines Sample.unmarked)).
  vm_compute. reflexivity.
Defined.

(** C6 fails as stated: with a gas-phase file without the atom marker and
    a condensed-phase file of two atoms, the mixing raises. *)
Lemma unmarked_gas_counterexample :
  forallb (fun line => negb (Str.contains atom_marker line))
    (Str.readlines Sample.unmarked) = true /\
  read_charges HEADER [] (Str.readlines Sample.unmarked) = Ok [] /\
  read_charges HEADER [] (Str.readlines Sample.liquid) = Ok [0.7; -0.7]%float /\
  mix_charges [] [0.7; -0.7]%float 0.5 = Raise IndexError /\
  fst (create_charge_file "m" "MOL" 0.5 "RESP2"
         (Sample.disk Sample.gas Sample.unmarked Sample.liquid)) = Raise IndexError.
Proof. repeat split; vm_compute; reflexivity. Qed.

(** C7, as the code has it: a line with the atom marker puts the scanner
    in the mode ATOM whatever its mode, TRAILER included; a line with the
    bond marker and without the atom marker puts it in TRAILER; any other
    line leaves the mode as it is; once left, HEADER is never entered again;
    and a line without marker met in the mode ATOM is read as an atom line
    by the reader and formatted as one by the writer. *)
Theorem scanner_modes v lines k line :
  lines !! k = Some line ->
  (Str.contains atom_marker line = true -> mode_at v lines (S k) = ATOM) /\
  (Str.contains atom_marker line = false ->
   Str.contains bond_marker line = true -> mode_at v lines (S k) = TRAILER) /\
  (no_marker line = true -> mode_at v lines (S k) = mode_at v lines k) /\
  (v <> HEADER -> mode_at v lines k <> HEADER) /\
  (mode_at v lines k = ATOM -> no_marker line = true ->
   (forall acc,
      read_charges v acc lines =
      try acc' <- read_charges v acc (take k lines);
      try c <- charge_of_line line;
      read_charges ATOM (acc' ++ [c]) (drop (S k) lines)) /\
   (forall output resname charges num st u,
      fst (write_loop output resname charges v num lines st) = Ok u ->
      exists out text,
        snd (write_loop output resname charges v num lines st) =
          appended output (Str.concat out) st /\
        out !! k = Some text /\
        atom_line (Str.split line) resname charges (num + rank v lines k) =
          Ok text)).
Proof.
  intros Hk. rewrite (mode_at_S _ _ _ _ Hk). unfold next_mode at 1 2.
  split; [now intros ->|]. split; [now intros -> ->|].
  split; [intros H; now apply no_marker_next|].
  split; [apply mode_at_not_header|].
  intros Hm Hn. split.
  - intros acc. rewrite <- (take_drop k lines) at 1.
    rewrite read_charges_app. fold (mode_at v lines k). rewrite Hm.
    rewrite (drop_S _ _ _ Hk).
    destruct (read_charges v acc (take k lines)) as [acc'|e]; [|reflexivity].
    match goal with
    | |- rbind (Ok ?a) ?f = rbind (Ok ?a) ?g => change (f a = g a)
    end.
    cbv beta. rewrite read_charges_step.
    now rewrite (no_marker_atom_line _ Hn).
  - intros output resname charges num st u. rewrite write_loop_emitted.
    simpl fst. simpl snd. intros Hu.
    destruct (emitted_lookup _ _ _ _ _ _ Hu) as [_ Hl].
    destruct (Hl _ _ Hk) as (text & Ht & Hd).
    rewrite Hm, (no_marker_atom_line _ Hn) in Hd.
    exists (fst (emitted resname charges v num lines)), text. now repeat split.
Qed.

(** C7, on the sample file with two atom sections, at its last line. *)
Lemma scanner_modes_witness :
  (Str.contains atom_marker ("  2 C2  1.0 1.0 1.0 C.3 1 UNK 0.2" +:+ nl) = true ->
   mode_at HEADER (Str.readlines Sample.two_sections) 8 = ATOM) /\
  (Str.contains atom_marker ("  2 C2  1.0 1.0 1.0 C.3 1 UNK 0.2" +:+ nl) = false ->
   Str.contains bond_marker ("  2 C2  1.0 1.0 1.0 C.3 1 UNK 0.2" +:+ nl) = true ->
   mode_at HEADER (Str.readlines Sample.two_sections) 8 = TRAILER) /\
  (no_marker ("  2 C2  1.0 1.0 1.0 C.3 1 UNK 0.2" +:+ nl) = true ->
   mode_at HEADER (Str.readlines Sample.two_sections) 8 =
   mode_at HEADER (Str.readlines Sample.two_sections) 7) /\
  (HEADER <> HEADER -> mode_at HEADER (Str.readlines Sample.two_sections) 7 <> HEADER) /\
  (mode_at HEADER (Str.readlines Sample.two_sections) 7 = ATOM ->
   no_marker ("  2 C2  1.0 1.0 1.0 C.3 1 UNK 0.2" +:+ nl) = true ->
   (forall acc,
      read_charges HEADER acc (Str.readlines Sample.two_sections) =
      try acc' <- read_charges HEADER acc (take 7 (Str.readlines Sample.two_sections));
      try c <- charge_of_line ("  2 C2  1.0 1.0 1.0 C.3 1 UNK 0.2" +:+ nl);
      read_charges ATOM (acc' ++ [c]) (drop 8 (Str.readlines Sample.two_sections))) /\
   (forall output resname charges num st u,
      fst (write_loop output resname charges HEADER num
             (Str.readlines Sample.two_sections) st) = Ok u ->
      exists out text,
        snd (write_loop output resname charges HEADER num
               (Str.readlines Sample.two_sections) st) =
          appended output (Str.concat out) st /\
        out !! 7%nat = Some text /\
        atom_line (Str.split ("  2 C2  1.0 1.0 1.0 C.3 1 UNK 0.2" +:+ nl))
          resname charges
          (num + rank HEADER (Str.readlines Sample.two_sections) 7) = Ok text)).
Proof.
  apply (scanner_modes HEADER (Str.readlines Sample.two_sections) 7
           ("  2 C2  1.0 1.0 1.0 C.3 1 UNK 0.2" +:+ nl)).
  vm_compute. reflexivity.
Defined.

(** C7 fails as stated: in the sample file with two atom sections the
    scanner is in TRAILER after the bond marker and back in ATOM after the
    second atom marker, and the atom line that follows is read. *)
Lemma back_to_atom_counterexample :
  mode_at HEADER (Str.readlines Sample.two_sections) 6 = TRAILER /\
  Str.readlines Sample.two_sections !! 6%nat = Some (atom_marker +:+ nl) /\
  mode_at HEADER (Str.readlines Sample.two_sections) 7 = ATOM /\
  read_charges HEADER [] (Str.readlines Sample.two_sections) = Ok [0.1; 0.2]%float.
Proof. repeat split; vm_compute; reflexivity. Qed.

(** C8, as the code has it: the output file is opened under its final name
    and written in place. A run that fails before that (an input file that
    is not found, a [delta] whose hundredfold is no integer, an unknown type,
    an output file that cannot be opened) leaves the file system as it was.
    A run that fails later leaves the output file under its final name,
    without what it held before, and holding what was written before the
    failure, nothing else being changed: the empty text when the charges
    cannot be read or mixed, or when the input has fewer than two lines;
    otherwise the texts written for the lines before the atom line at which
    the writer fails. *)
Theorem failure_leaves_output name resname delta type st e :
  fst (create_charge_file name resname delta type st) = Raise e ->
  match opened_output name resname delta type st with
  | None => snd (create_charge_file name resname delta type st) = st
  | Some output_file =>
      exists written,
        snd (create_charge_file name resname delta type st) =
          Fs (<[output_file := written]> (files st)) (dirs st) /\
        match computed_charges name delta type st with
        | Raise e' => e' = e /\ written = ""
        | Ok charges =>
            if decide (length (source_lines name type st) < 2)%nat
            then e = IndexError /\ written = ""
            else written_before resname charges
                   (retitle resname (source_lines name type st)) e written
        end
  end.
Proof.
  unfold opened_output, computed_charges, source_lines, source_path.
  destruct (decide (type = "RESP1")) as [->|H1];
    [|destruct (decide (type = "RESP2")) as [->|H2]].
  - change (tag "RESP1") with "_R1_". rewrite create_RESP1.
    rewrite !bool_decide_eq_true_2 by reflexivity.
    destruct (percent delta) as [pct|e'] eqn:Hp;
      [|now destruct (files st !! resp1_path name)].
    cbv zeta.
    destruct (files st !! resp1_path name) as [text|];
      [rewrite bool_decide_eq_true_2 by eauto
      |now rewrite bool_decide_eq_false_2 by (intros [? ?]; discriminate)].
    simpl andb. destruct (can_create _ st) eqn:Hc; [|reflexivity].
    simpl default.
    destruct (read_charges HEADER [] (Str.readlines text)) as [cs|e'].
    + simpl rbind. rewrite scale_charges_spec. apply write_charge_file_fails.
    + simpl. intros He. injection He as ->. exists "". now split.
  - change (tag "RESP2") with "_R2_". rewrite create_RESP2.
    rewrite !bool_decide_eq_false_2 by discriminate.
    rewrite bool_decide_eq_true_2 by reflexivity.
    destruct (percent delta) as [pct|e'] eqn:Hp; [|reflexivity].
    destruct (files st !! gas_path name) as [gas|];
      [rewrite bool_decide_eq_true_2 by eauto
      |now rewrite bool_decide_eq_false_2 by (intros [? ?]; discriminate)].
    destruct (files st !! liquid_path name) as [liquid|];
      [rewrite bool_decide_eq_true_2 by eauto
      |now rewrite bool_decide_eq_false_2 by (intros [? ?]; discriminate)].
    cbv zeta. simpl andb. destruct (can_create _ st) eqn:Hc; [|reflexivity].
    simpl default.
    destruct (read_charges HEADER [] (Str.readlines gas)) as [gpc|e'];
      [|simpl; intros He; injection He as ->; exists ""; now split].
    destruct (read_charges HEADER [] (Str.readlines liquid)) as [isc|e'];
      [|simpl; intros He; injection He as ->; exists ""; now split].
    simpl rbind.
    destruct (mix_charges gpc isc delta) as [charges|e'];
      [|simpl; intros He; injection He as ->; exists ""; now split].
    apply write_charge_file_fails.
  - rewrite (create_other _ _ _ _ _ H1 H2).
    rewrite !bool_decide_eq_false_2 by assumption.
    now destruct (percent delta).
Qed.

(** C8, on six gas-phase and five condensed-phase atoms: the writer fails
    at the sixth atom line. *)
Lemma failure_leaves_output_witness :
  match opened_output "m" "MOL" 0.5 "RESP2"
          (Sample.disk Sample.gas (Sample.atoms 6) (Sample.atoms 5)) with
  | None =>
      snd (create_charge_file "m" "MOL" 0.5 "RESP2"
             (Sample.disk Sample.gas (Sample.atoms 6) (Sample.atoms 5))) =
      Sample.disk Sample.gas (Sample.atoms 6) (Sample.atoms 5)
  | Some output_file =>
      exists written,
        snd (create_charge_file "m" "MOL" 0.5 "RESP2"
               (Sample.disk Sample.gas (Sample.atoms 6) (Sample.atoms 5))) =
          Fs (<[output_file := written]>
                (files (Sample.disk Sample.gas (Sample.atoms 6) (Sample.atoms 5))))
             (dirs (Sample.disk Sample.gas (Sample.atoms 6) (Sample.atoms 5))) /\
        match computed_charges "m" 0.5 "RESP2"
                (Sample.disk Sample.gas (Sample.atoms 6) (Sample.atoms 5)) with
        | Raise e' => e' = IndexError /\ written = ""
        | Ok charges =>
            if decide (length (source_lines "m" "RESP2"
                         (Sample.disk Sample.gas (Sample.atoms 6) (Sample.atoms 5)))
                       < 2)%nat
            then IndexError = IndexError /\ written = ""
            else written_before "MOL" charges
                   (retitle "MOL"
                      (source_lines "m" "RESP2"
                         (Sample.disk Sample.gas (Sample.atoms 6) (Sample.atoms 5))))
                   IndexError written
        end
  end.
Proof.
  apply (failure_leaves_output "m" "MOL" 0.5%float "RESP2"
           (Sample.disk Sample.gas (Sample.atoms 6) (Sample.atoms 5)) IndexError).
  vm_compute. reflexivity.
Defined.

(** C8 fails as stated. A RESP1 run on a file whose second atom line has
    no charge fails on reading and leaves an empty output file where there
    was none; a RESP2 run on six gas-phase and five condensed-phase atoms
    fails on writing and leaves the output file cut after the fifth atom
    line. *)
Lemma partial_output_counterexample :
  files (Sample.disk Sample.truncated Sample.gas Sample.liquid)
    !! "m-liquid/MOL_R1_50.mol2" = None /\
  fst (create_charge_file "m" "MOL" 0.5 "RESP1"
         (Sample.disk Sample.truncated Sample.gas Sample.liquid)) =
    Raise IndexError /\
  files (snd (create_charge_file "m" "MOL" 0.5 "RESP1"
                (Sample.disk Sample.truncated Sample.gas Sample.liquid)))
    !! "m-liquid/MOL_R1_50.mol2" = Some "" /\
  files (Sample.disk Sample.gas (Sample.atoms 6) (Sample.atoms 5))
    !! "m-liquid/MOL_R2_50.mol2" = None /\
  fst (create_charge_file "m" "MOL" 0.5 "RESP2"
         (Sample.disk Sample.gas (Sample.atoms 6) (Sample.atoms 5))) =
    Raise IndexError /\
  files (snd (create_charge_file "m" "MOL" 0.5 "RESP2"
                (Sample.disk Sample.gas (Sample.atoms 6) (Sample.atoms 5))))
    !! "m-liquid/MOL_R2_50.mol2" =
  Some (Sample.text
    ([ "@<TRIPOS>MOLECULE"; "title"; "@<TRIPOS>ATOM" ] ++
     replicate 5
       "      1 C1             0.0       0.0       0.0 C.3       1  MOL        0.1000 ")).
Proof. repeat split; vm_compute; reflexivity. Qed.

(** C9, as the code has it: in a RESP2 run that ends well, every line
    written is the line of the gas-phase file at the same place, but for the
    atom lines, which keep the first seven fields of the gas-phase line and
    take the residue name and the mixed charge, and for the title line,
    replaced by the residue name when it is a placeholder; the
    condensed-phase file counts through its charges alone: another one with
    the same charges gives the same output. *)
Theorem resp2_output_from_gas name resname delta st gas n :
  files st !! gas_path name = Some gas ->
  header_ok resname (Str.readlines gas) = true ->
  fst (create_charge_file name resname delta "RESP2" st) = Ok n ->
  exists out pct liquid gpc isc charges,
    files st !! liquid_path name = Some liquid /\
    read_charges HEADER [] (Str.readlines gas) = Ok gpc /\
    read_charges HEADER [] (Str.readlines liquid) = Ok isc /\
    mix_charges gpc isc delta = Ok charges /\
    files (snd (create_charge_file name resname delta "RESP2" st))
      !! output_path name resname "_R2_" pct = Some (Str.concat out) /\
    length out = length (Str.readlines gas) /\
    (forall k line, Str.readlines gas !! k = Some line ->
       exists written, out !! k = Some written /\
         if is_atom_line (mode_at HEADER (Str.readlines gas) k) line then
           exists e0 e1 e2 e3 e4 e5 e6 rest charge,
             Str.split line = e0 :: e1 :: e2 :: e3 :: e4 :: e5 :: e6 :: rest /\
             charges !! rank HEADER (Str.readlines gas) k = Some charge /\
             written = format_atom e0 e1 e2 e3 e4 e5 e6 resname charge
         else if bool_decide (k = 1%nat) && is_placeholder line then
           written = resname +:+ nl
         else written = line) /\
    (forall liquid',
       read_charges HEADER [] (Str.readlines liquid') = Ok isc ->
       fst (create_charge_file name resname delta "RESP2"
              (Fs (<[liquid_path name := liquid']> (files st)) (dirs st))) = Ok n /\
       files (snd (create_charge_file name resname delta "RESP2"
                     (Fs (<[liquid_path name := liquid']> (files st)) (dirs st))))
         !! output_path name resname "_R2_" pct = Some (Str.concat out)).
Proof.
  intros Hf Hh Hrun. pose proof Hrun as Hinv.
  apply RESP2_inv in Hinv
    as (gas' & liquid & pct & gpc & isc & charges &
        Hg & Hl & Hp & Hc & Hgpc & Hisc & Hmix & Heq).
  rewrite Hf in Hg. injection Hg as <-.
  rewrite Heq in Hrun |- *. rewrite write_charge_file_spec in Hrun |- *.
  destruct (header_ok_title _ _ Hh) as [title Ht]. rewrite Ht in Hrun |- *.
  cbv zeta in Hrun |- *.
  set (em := emitted resname charges HEADER 0 (retitle resname (Str.readlines gas))) in *.
  destruct (snd em) as [u|e] eqn:He; [|discriminate].
  simpl in Hrun. injection Hrun as <-.
  destruct (rewritten_lines _ _ _ _ Hh He) as [Hlen Hk]. fold em in Hlen, Hk.
  exists (fst em), pct, liquid, gpc, isc, charges. simpl snd.
  repeat (split; [assumption|]).
  split; [apply written_file|]. split; [exact Hlen|]. split.
  - intros k line Hline. destruct (Hk _ _ Hline) as (written & Hw & Hd).
    exists written. split; [exact Hw|].
    destruct (is_atom_line (mode_at HEADER (Str.readlines gas) k) line) eqn:Hat.
    + destruct (atom_text _ _ _ _ _ _ Hd Hat)
        as (e0 & e1 & e2 & e3 & e4 & e5 & e6 & rest & c & Hs & Hcq & ->).
      now exists e0, e1, e2, e3, e4, e5, e6, rest, c.
    + unfold line_rewritten in Hd. now rewrite Hat in Hd.
  - intros liquid' Hisc'. rewrite create_RESP2, Hp. simpl files.
    rewrite lookup_insert_ne by (intros H; now apply (gas_not_liquid name)).
    rewrite Hf, lookup_insert_eq. cbv zeta.
    change (can_create (output_path name resname "_R2_" pct)
              (Fs (<[liquid_path name:=liquid']> (files st)) (dirs st)))
      with (can_create (output_path name resname "_R2_" pct) st).
    rewrite Hc, Hgpc, Hisc', Hmix, write_charge_file_spec, Ht. cbv zeta.
    fold em. rewrite He. simpl. split; [reflexivity|].
    now rewrite lookup_alter_eq, lookup_insert_eq.
Qed.

(** C9, on the sample files. *)
Lemma resp2_output_from_gas_witness :
  exists out pct liquid gpc isc charges,
    files Sample.st0 !! liquid_path "m" = Some liquid /\
    read_charges HEADER [] (Str.readlines Sample.gas) = Ok gpc /\
    read_charges HEADER [] (Str.readlines liquid) = Ok isc /\
    mix_charges gpc isc 0.5 = Ok charges /\
    files (snd (create_charge_file "m" "MOL" 0.5 "RESP2" Sample.st0))
      !! output_path "m" "MOL" "_R2_" pct = Some (Str.concat out) /\
    length out = length (Str.readlines Sample.gas) /\
    (forall k line, Str.readlines Sample.gas !! k = Some line ->
       exists written, out !! k = Some written /\
         if is_atom_line (mode_at HEADER (Str.readlines Sample.gas) k) line then
           exists e0 e1 e2 e3 e4 e5 e6 rest charge,
             Str.split line = e0 :: e1 :: e2 :: e3 :: e4 :: e5 :: e6 :: rest /\
             charges !! rank HEADER (Str.readlines Sample.gas) k = Some charge /\
             written = format_atom e0 e1 e2 e3 e4 e5 e6 "MOL" charge
         else if bool_decide (k = 1%nat) && is_placeholder line then
           written = "MOL" +:+ nl
         else written = line) /\
    (forall liquid',
       read_charges HEADER [] (Str.readlines liquid') = Ok isc ->
       fst (create_charge_file "m" "MOL" 0.5 "RESP2"
              (Fs (<[liquid_path "m" := liquid']> (files Sample.st0))
                 (dirs Sample.st0))) = Ok 0 /\
       files (snd (create_charge_file "m" "MOL" 0.5 "RESP2"
                     (Fs (<[liquid_path "m" := liquid']> (files Sample.st0))
                        (dirs Sample.st0))))
         !! output_path "m" "MOL" "_R2_" pct = Some (Str.concat out)).
Proof.
  apply (resp2_output_from_gas "m" "MOL" 0.5%float Sample.st0 Sample.gas 0);
    vm_compute; reflexivity.
Defined.

(** C9 fails as stated: the title line of the sample gas-phase file is a
    header line, and the line written in its place is the residue name, a
    text that occurs in neither input file. *)
Lemma title_not_from_gas_counterexample :
  Str.readlines Sample.gas !! 1%nat = Some ("mol1_conf1" +:+ nl) /\
  is_atom_line (mode_at HEADER (Str.readlines Sample.gas) 1) ("mol1_conf1" +:+ nl)
    = false /\
  fst (create_charge_file "m" "XYZ" 0.5 "RESP2" Sample.st0) = Ok 0 /\
  (Str.readlines <$>
     files (snd (create_charge_file "m" "XYZ" 0.5 "RESP2" Sample.st0))
       !! "m-liquid/XYZ_R2_50.mol2") ≫= (fun out => out !! 1%nat) =
    Some ("XYZ" +:+ nl) /\
  Str.contains "XYZ" Sample.gas = false /\
  Str.contains "XYZ" Sample.liquid = false.
Proof. repeat split; vm_compute; reflexivity. Qed.

(** C10: the text written for an atom line with more than nine tokens is
    the text written for the same line cut after its ninth token; it is made
    of the first seven tokens, the residue name and the charge of the line's
    rank, so that no later token reaches the output. *)
Theorem trailing_tokens_dropped output resname charges num line line' rest st :
  no_marker line = true ->
  no_marker line' = true ->
  (9 < length (Str.split line))%nat ->
  Str.split line' = take 9 (Str.split line) ->
  write_loop output resname charges ATOM num (line :: rest) st =
    write_loop output resname charges ATOM num (line' :: rest) st /\
  exists e0 e1 e2 e3 e4 e5 e6 more,
    Str.split line = e0 :: e1 :: e2 :: e3 :: e4 :: e5 :: e6 :: more /\
    write_loop output resname charges ATOM num (line :: rest) st =
    (do charge <- lift (getitem charges num);
     run write output (format_atom e0 e1 e2 e3 e4 e5 e6 resname charge);
     write_loop output resname charges ATOM (S num) rest) st.
Proof.
  intros Hn Hn' Hlen Hcut.
  rewrite !write_loop_atom_step by assumption. rewrite Hcut.
  destruct (Str.split line)
    as [|e0 [|e1 [|e2 [|e3 [|e4 [|e5 [|e6 [|e7 [|e8 [|e9 more]]]]]]]]]];
    simpl in Hlen; try lia.
  split.
  - reflexivity.
  - exists e0, e1, e2, e3, e4, e5, e6, (e7 :: e8 :: e9 :: more).
    split; [reflexivity|].
    unfold bind, lift, atom_line. simpl.
    destruct (getitem charges num); reflexivity.
Qed.

(** C10, on the first atom line of the sample gas-phase file. *)
Lemma trailing_tokens_dropped_witness :
  write_loop "out" "MOL" [0.6%float] ATOM 0
    [ "  1 C1  0.1234 -1.2345 3.0 C.3 1 UNK 0.5 ****" +:+ nl ] Sample.st0 =
  write_loop "out" "MOL" [0.6%float] ATOM 0
    [ "  1 C1  0.1234 -1.2345 3.0 C.3 1 UNK 0.5" +:+ nl ] Sample.st0 /\
  exists e0 e1 e2 e3 e4 e5 e6 more,
    Str.split ("  1 C1  0.1234 -1.2345 3.0 C.3 1 UNK 0.5 ****" +:+ nl) =
      e0 :: e1 :: e2 :: e3 :: e4 :: e5 :: e6 :: more /\
    write_loop "out" "MOL" [0.6%float] ATOM 0
      [ "  1 C1  0.1234 -1.2345 3.0 C.3 1 UNK 0.5 ****" +:+ nl ] Sample.st0 =
    (do charge <- lift (getitem [0.6%float] 0);
     run write "out" (format_atom e0 e1 e2 e3 e4 e5 e6 "MOL" charge);
     write_loop "out" "MOL" [0.6%float] ATOM 1 []) Sample.st0.
Proof.
  apply (trailing_tokens_dropped "out" "MOL" [0.6%float] 0%nat
           ("  1 C1  0.1234 -1.2345 3.0 C.3 1 UNK 0.5 ****" +:+ nl)
           ("  1 C1  0.1234 -1.2345 3.0 C.3 1 UNK 0.5" +:+ nl) [] Sample.st0).
  - vm_compute. reflexivity.
  - vm_compute. reflexivity.
  - vm_compute. lia.
  - vm_compute. reflexivity.
Defined.

(** * Further properties *)

(** ** The reader *)

Lemma of_string_raise tok e : Float.of_string tok = Raise e -> e = ValueError.
Proof.
  unfold Float.of_string. destruct (Float.read_sign tok) as [sg body].
  destruct (decide _); [discriminate|].
  destruct (decide _); [discriminate|].
  destruct (Float.decimal body) as [[m x]|]; [discriminate|].
  intros Hr. now inversion Hr.
Qed.

Lemma charge_of_line_raise row e :
  charge_of_line row = Raise e ->
  (e = IndexError /\ (length (Str.split row) <= 8)%nat) \/
  (e = ValueError /\
   exists tok, Str.split row !! 8%nat = Some tok /\
     Float.of_string tok = Raise ValueError).
Proof.
  unfold charge_of_line, getitem.
  destruct (Str.split row !! 8%nat) as [tok|] eqn:Ht; simpl.
  - intros H. pose proof (of_string_raise _ _ H) as ->. right.
    split; [reflexivity|]. now exists tok.
  - intros H. inversion H. left. split; [reflexivity|].
    now apply lookup_ge_None_1.
Qed.

Lemma charge_of_line_ok row c :
  charge_of_line row = Ok c ->
  exists tok, Str.split row !! 8%nat = Some tok /\ Float.of_string tok = Ok c.
Proof.
  unfold charge_of_line, getitem.
  destruct (Str.split row !! 8%nat) as [tok|]; simpl; [|discriminate].
  intros H. now exists tok.
Qed.

(** X1: when the reader fails, it fails at the first atom line whose ninth
    token is missing, with [IndexError], or is no float literal, with
    [ValueError]; the atom lines before it were read, and the lines outside
    the atom section play no part. *)
Theorem reader_first_error v acc lines e :
  read_charges v acc lines = Raise e ->
  exists pre row post cs,
    atom_rows v lines = pre ++ row :: post /\
    Forall2 (fun r c => charge_of_line r = Ok c) pre cs /\
    charge_of_line row = Raise e /\
    ((e = IndexError /\ (length (Str.split row) <= 8)%nat) \/
     (e = ValueError /\
      exists tok, Str.split row !! 8%nat = Some tok /\
        Float.of_string tok = Raise ValueError)).
Proof.
  revert v acc. induction lines as [|line rest IH]; intros v acc H;
    [discriminate|].
  rewrite read_charges_step in H. simpl atom_rows.
  destruct (is_atom_line v line).
  - destruct (charge_of_line line) as [c|e'] eqn:Hc; simpl in H.
    + destruct (IH _ _ H) as (pre & row & post & cs & Hrows & Hpre & Hrow & He).
      exists (line :: pre), row, post, (c :: cs). rewrite Hrows.
      repeat split; try assumption. now constructor.
    + injection H as ->. exists [], line, (atom_rows ATOM rest), [].
      repeat split; try assumption; [constructor|].
      now apply charge_of_line_raise.
  - exact (IH _ _ H).
Qed.

(** X1, on the sample file whose second atom line stops before the charge. *)
Lemma reader_first_error_witness :
  exists pre row post cs,
    atom_rows HEADER (Str.readlines Sample.truncated) = pre ++ row :: post /\
    Forall2 (fun r c => charge_of_line r = Ok c) pre cs /\
    charge_of_line row = Raise IndexError /\
    ((IndexError = IndexError /\ (length (Str.split row) <= 8)%nat) \/
     (IndexError = ValueError /\
      exists tok, Str.split row !! 8%nat = Some tok /\
        Float.of_string tok = Raise ValueError)).
Proof.
  apply (reader_first_error HEADER [] (Str.readlines Sample.truncated) IndexError).
  vm_compute. reflexivity.
Defined.

(** X2: when the reader ends well, it has appended one charge for each atom
    line, in the order of the file: the float of the ninth token of the
    line. *)
Theorem reader_one_charge_per_atom_line v acc lines r :
  read_charges v acc lines = Ok r ->
  exists cs,
    r = acc ++ cs /\
    length cs = length (atom_rows v lines) /\
    forall i row, atom_rows v lines !! i = Some row ->
      exists tok c,
        Str.split row !! 8%nat = Some tok /\
        Float.of_string tok = Ok c /\ cs !! i = Some c.
Proof.
  intros H. apply read_charges_inv in H as (cs & -> & HF).
  exists cs. split; [reflexivity|]. split; [symmetry; eapply Forall2_length, HF|].
  intros i row Hrow.
  destruct (Forall2_lookup_l _ _ _ _ _ HF Hrow) as (c & Hc & Hok).
  apply charge_of_line_ok in Hok as (tok & Ht & Hf). now exists tok, c.
Qed.

(** X2, on the sample gas-phase file. *)
Lemma reader_one_charge_per_atom_line_witness :
  exists cs,
    [0.5; -0.5]%float = [] ++ cs /\
    length cs = length (atom_rows HEADER (Str.readlines Sample.gas)) /\
    forall i row, atom_rows HEADER (Str.readlines Sample.gas) !! i = Some row ->
      exists tok c,
        Str.split row !! 8%nat = Some tok /\
        Float.of_string tok = Ok c /\ cs !! i = Some c.
Proof.
  apply (reader_one_charge_per_atom_line HEADER [] (Str.readlines Sample.gas)).
  vm_compute. reflexivity.
Defined.

(** ** Short files *)

Lemma read_charges_short lines :
  (length lines < 2)%nat -> read_charges HEADER [] lines = Ok [].
Proof.
  destruct lines as [|l0 [|l1 rest]]; simpl length; intros H; try lia.
  - reflexivity.
  - rewrite read_charges_step, (not_atom_mode HEADER) by discriminate.
    reflexivity.
Qed.

(** X3: in RESP1 mode, an input of fewer than two lines (an empty file
    among them) makes the run raise [IndexError] at the test of the title
    line, after the output file has been created: it is left empty. *)
Theorem short_file_index_error name resname delta st text pct :
  files st !! resp1_path name = Some text ->
  percent delta = Ok pct ->
  can_create (output_path name resname "_R1_" pct) st = true ->
  (length (Str.readlines text) < 2)%nat ->
  create_charge_file name resname delta "RESP1" st =
    (Raise IndexError, created (output_path name resname "_R1_" pct) st) /\
  files (created (output_path name resname "_R1_" pct) st)
    !! output_path name resname "_R1_" pct = Some "".
Proof.
  intros Hf Hp Hc Hlen. split; [|apply lookup_insert_eq].
  rewrite create_RESP1, Hf, Hp. cbv zeta. rewrite Hc.
  rewrite (read_charges_short _ Hlen), write_charge_file_spec.
  now rewrite (lookup_ge_None_2 (Str.readlines text) 1) by lia.
Qed.

(** X3, on an empty file of RESP1 charges. *)
Lemma short_file_index_error_witness :
  create_charge_file "m" "MOL" 0.5 "RESP1"
    (Sample.disk "" Sample.gas Sample.liquid) =
    (Raise IndexError,
     created (output_path "m" "MOL" "_R1_" "50")
       (Sample.disk "" Sample.gas Sample.liquid)) /\
  files (created (output_path "m" "MOL" "_R1_" "50")
           (Sample.disk "" Sample.gas Sample.liquid))
    !! output_path "m" "MOL" "_R1_" "50" = Some "".
Proof.
  apply (short_file_index_error "m" "MOL" 0.5%float
           (Sample.disk "" Sample.gas Sample.liquid) "" "50");
    vm_compute; (reflexivity || lia).
Defined.

(** ** The file system after a run *)

Lemma created_again output written st :
  created output (appended output written (created output st)) =
  created output st.
Proof.
  unfold created, appended. simpl. f_equal.
  apply map_eq. intros k. destruct (decide (output = k)) as [->|Hne].
  - now rewrite !lookup_insert_eq.
  - now rewrite !lookup_insert_ne, lookup_alter_ne, lookup_insert_ne by assumption.
Qed.

Lemma lookup_written output written st p :
  p <> output ->
  files (appended output written (created output st)) !! p = files st !! p.
Proof.
  intros Hne. unfold appended, created. simpl.
  now rewrite lookup_alter_ne, lookup_insert_ne by congruence.
Qed.

Lemma input_not_output name resname type b n :
  type = "RESP1" \/ type = "RESP2" ->
  (name +:+ b) +:+ "mol1_conf1.mol2" <>
  output_path name resname (tag type) (Str.of_Z n).
Proof.
  intros Ht Heq. symmetry in Heq. revert Heq.
  apply output_path_fresh. destruct Ht as [-> | ->]; [now left | now right].
Qed.

Lemma inputs_not_output name resname type n :
  type = "RESP1" \/ type = "RESP2" ->
  resp1_path name <> output_path name resname (tag type) (Str.of_Z n) /\
  gas_path name <> output_path name resname (tag type) (Str.of_Z n) /\
  liquid_path name <> output_path name resname (tag type) (Str.of_Z n).
Proof.
  intros Ht. unfold resp1_path, gas_path, liquid_path.
  change (name +:+ "-RESP1/resp_output/mol1_conf1.mol2")
    with (name +:+ "-RESP1/resp_output/" +:+ "mol1_conf1.mol2").
  change (name +:+ "-RESP2GAS/resp_output/mol1_conf1.mol2")
    with (name +:+ "-RESP2GAS/resp_output/" +:+ "mol1_conf1.mol2").
  change (name +:+ "-RESP2LIQUID/resp_output/mol1_conf1.mol2")
    with (name +:+ "-RESP2LIQUID/resp_output/" +:+ "mol1_conf1.mol2").
  rewrite <- !append_assoc.
  repeat split; now apply input_not_output.
Qed.

(** Whatever its outcome, a run leaves the file system as it was, or as
    it was but for the output file. *)
Lemma run_state name resname delta type st :
  snd (create_charge_file name resname delta type st) = st \/
  exists n written,
    (type = "RESP1" \/ type = "RESP2") /\
    percent delta = Ok (Str.of_Z n) /\
    snd (create_charge_file name resname delta type st) =
      appended (output_path name resname (tag type) (Str.of_Z n)) written
        (created (output_path name resname (tag type) (Str.of_Z n)) st).
Proof.
  destruct (decide (type = "RESP1")) as [->|H1];
    [|destruct (decide (type = "RESP2")) as [->|H2]].
  - change (tag "RESP1") with "_R1_". rewrite create_RESP1.
    destruct (files st !! resp1_path name) as [text|]; [|now left].
    destruct (percent delta) as [pct|e'] eqn:Hp; [|now left].
    cbv zeta. destruct (can_create _ st); [|now left].
    destruct (percent_inv _ _ Hp) as [n ->]. right. exists n.
    destruct (read_charges HEADER [] (Str.readlines text)) as [cs|e'].
    + destruct (write_charge_file_state (resp1_path name)
        (output_path name resname "_R1_" (Str.of_Z n)) resname
        (Str.readlines text) (map (scaled delta) cs)
        (created (output_path name resname "_R1_" (Str.of_Z n)) st))
        as [written ->].
      exists written. auto.
    + exists "". simpl snd. rewrite appended_nil. auto.
  - change (tag "RESP2") with "_R2_". rewrite create_RESP2.
    destruct (percent delta) as [pct|e'] eqn:Hp; [|now left].
    destruct (files st !! gas_path name) as [gas|]; [|now left].
    destruct (files st !! liquid_path name) as [liquid|]; [|now left].
    cbv zeta. destruct (can_create _ st); [|now left].
    destruct (percent_inv _ _ Hp) as [n ->]. right. exists n.
    assert (Hempty : exists written,
      (("RESP2" : string) = "RESP1" \/ ("RESP2" : string) = "RESP2") /\
      Ok (Str.of_Z n) = Ok (Str.of_Z n) :> result string /\
      created (output_path name resname "_R2_" (Str.of_Z n)) st =
        appended (output_path name resname "_R2_" (Str.of_Z n)) written
          (created (output_path name resname "_R2_" (Str.of_Z n)) st)).
    { exists "". rewrite appended_nil. auto. }
    destruct (read_charges HEADER [] (Str.readlines gas)) as [gpc|e'];
      [|exact Hempty].
    destruct (read_charges HEADER [] (Str.readlines liquid)) as [isc|e'];
      [|exact Hempty].
    destruct (mix_charges gpc isc delta) as [charges|e']; [|exact Hempty].
    destruct (write_charge_file_state (gas_path name)
      (output_path name resname "_R2_" (Str.of_Z n)) resname
      (Str.readlines gas) charges
      (created (output_path name resname "_R2_" (Str.of_Z n)) st))
      as [written ->].
    exists written. auto.
  - left. now rewrite (create_other _ _ _ _ _ H1 H2).
Qed.

(** X4: whatever its outcome, a run changes no directory and no file other
    than its output file; the three input paths are never the output path,
    so the input files are as they were. *)
Theorem inputs_never_modified name resname delta type st :
  dirs (snd (create_charge_file name resname delta type st)) = dirs st /\
  files (snd (create_charge_file name resname delta type st))
    !! resp1_path name = files st !! resp1_path name /\
  files (snd (create_charge_file name resname delta type st))
    !! gas_path name = files st !! gas_path name /\
  files (snd (create_charge_file name resname delta type st))
    !! liquid_path name = files st !! liquid_path name /\
  forall p,
    (forall pct, percent delta = Ok pct ->
       p <> output_path name resname (tag type) pct) ->
    files (snd (create_charge_file name resname delta type st)) !! p =
    files st !! p.
Proof.
  destruct (run_state name resname delta type st)
    as [-> | (n & written & Ht & Hp & ->)].
  - repeat split; reflexivity.
  - destruct (inputs_not_output name resname type n Ht) as (H1 & H2 & H3).
    split; [reflexivity|].
    repeat split; try (now apply lookup_written).
    intros p Hne. apply lookup_written. now apply Hne.
Qed.

(** X5: a second run with the same arguments, on the file system the first
    run has left, ends as the first and leaves the file system as the first
    left it. *)
Theorem run_twice name resname delta type st :
  create_charge_file name resname delta type
    (snd (create_charge_file name resname delta type st)) =
  create_charge_file name resname delta type st.
Proof.
  destruct (decide (type = "RESP1")) as [->|H1];
    [|destruct (decide (type = "RESP2")) as [->|H2]].
  - destruct (run_state name resname delta "RESP1" st)
      as [-> | (n & written & Ht & Hp & Hst)]; [reflexivity|].
    destruct (inputs_not_output name resname "RESP1" n Ht) as (Hne & _ & _).
    change (tag "RESP1") with "_R1_" in *.
    rewrite (create_RESP1 _ _ _ (snd _)), Hst.
    rewrite (lookup_written _ _ _ _ Hne), Hp. cbv zeta.
    change (can_create (output_path name resname "_R1_" (Str.of_Z n))
              (appended (output_path name resname "_R1_" (Str.of_Z n)) written
                 (created (output_path name resname "_R1_" (Str.of_Z n)) st)))
      with (can_create (output_path name resname "_R1_" (Str.of_Z n)) st).
    rewrite created_again. rewrite create_RESP1 in Hst |- *. rewrite Hp in Hst |- *.
    destruct (files st !! resp1_path name) as [text|]; [|simpl in Hst; now rewrite <- Hst].
    cbv zeta in Hst |- *.
    destruct (can_create _ st); [reflexivity | simpl in Hst; now rewrite <- Hst].
  - destruct (run_state name resname delta "RESP2" st)
      as [-> | (n & written & Ht & Hp & Hst)]; [reflexivity|].
    destruct (inputs_not_output name resname "RESP2" n Ht) as (_ & Hg & Hl).
    change (tag "RESP2") with "_R2_" in *.
    rewrite (create_RESP2 _ _ _ (snd _)), Hst.
    rewrite (lookup_written _ _ _ _ Hg), (lookup_written _ _ _ _ Hl), Hp.
    cbv zeta.
    change (can_create (output_path name resname "_R2_" (Str.of_Z n))
              (appended (output_path name resname "_R2_" (Str.of_Z n)) written
                 (created (output_path name resname "_R2_" (Str.of_Z n)) st)))
      with (can_create (output_path name resname "_R2_" (Str.of_Z n)) st).
    rewrite created_again. rewrite create_RESP2 in Hst |- *. rewrite Hp in Hst |- *.
    destruct (files st !! gas_path name) as [gas|]; [|simpl in Hst; now rewrite <- Hst].
    destruct (files st !! liquid_path name) as [liquid|]; [|simpl in Hst; now rewrite <- Hst].
    cbv zeta in Hst |- *.
    destruct (can_create _ st); [reflexivity | simpl in Hst; now rewrite <- Hst].
  - now rewrite !(create_other _ _ _ _ _ H1 H2).
Qed.

(** ** Charges beyond the atom lines *)

Lemma atom_line_surplus entry resname charges extra num text :
  atom_line entry resname charges num = Ok text ->
  atom_line entry resname (charges ++ extra) num = Ok text.
Proof.
  intros H.
  apply atom_line_inv in H
    as (e0 & e1 & e2 & e3 & e4 & e5 & e6 & rest & c & -> & Hc & ->).
  apply atom_line_ok. now apply lookup_app_l_Some.
Qed.

Lemma emitted_surplus resname charges extra lines : forall v num u,
  snd (emitted resname charges v num lines) = Ok u ->
  emitted resname (charges ++ extra) v num lines =
  emitted resname charges v num lines.
Proof.
  induction lines as [|line rest IH]; intros v num u H; [reflexivity|].
  rewrite !emitted_step in *. destruct (is_atom_line v line).
  - destruct (atom_line (Str.split line) resname charges num) as [text|e] eqn:Hl;
      [|discriminate].
    rewrite (atom_line_surplus _ _ _ extra _ _ Hl). simpl in H.
    now rewrite (IH _ _ _ H).
  - simpl in H. now rewrite (IH _ _ _ H).
Qed.

(** X6: the writer takes the charges in turn and never counts them: when
    it ends well with a list of charges, it writes the same file and ends
    the same with any longer list that begins with it. *)
Theorem surplus_charges_ignored f output resname lines charges extra st n :
  fst (write_charge_file f output resname lines charges st) = Ok n ->
  write_charge_file f output resname lines (charges ++ extra) st =
  write_charge_file f output resname lines charges st.
Proof.
  rewrite !write_charge_file_spec.
  destruct (lines !! 1%nat); [|discriminate]. cbv zeta.
  destruct (snd (emitted resname charges HEADER 0 (retitle resname lines)))
    as [u|e] eqn:He; [|discriminate].
  intros _. rewrite (emitted_surplus _ _ extra _ _ _ _ He).
  now rewrite He.
Qed.

(** X6, on the sample gas-phase file with a third charge. *)
Lemma surplus_charges_ignored_witness :
  write_charge_file (gas_path "m") "m-liquid/out.mol2" "MOL"
    (Str.readlines Sample.gas) ([0.6; -0.6]%float ++ [9.9%float])
    (created "m-liquid/out.mol2" Sample.st0) =
  write_charge_file (gas_path "m") "m-liquid/out.mol2" "MOL"
    (Str.readlines Sample.gas) [0.6; -0.6]%float
    (created "m-liquid/out.mol2" Sample.st0).
Proof.
  apply (surplus_charges_ignored (gas_path "m") "m-liquid/out.mol2" "MOL"
           (Str.readlines Sample.gas) [0.6; -0.6]%float [9.9%float]
           (created "m-liquid/out.mol2" Sample.st0) 0).
  vm_compute. reflexivity.
Defined.

(** ** An atom line read back *)

(** An atom line as a row of fields. *)
Lemma format_atom_fields e0 e1 e2 e3 e4 e5 e6 resname charge :
  format_atom e0 e1 e2 e3 e4 e5 e6 resname charge =
  Str.spaces (7 - String.length e0) +:+ e0 +:+
  join_fields
    [ (1%nat, e1);
      (((3 - String.length e1) + (15 - String.length e2))%nat, e2);
      ((10 - String.length e3)%nat, e3);
      ((10 - String.length e4)%nat, e4);
      (1%nat, e5);
      (((3 - String.length e5) + (8 - String.length e6))%nat, e6);
      ((5 - String.length resname)%nat, resname);
      ((14 - String.length (Float.format_4f charge))%nat, Float.format_4f charge) ]
    (" " +:+ nl).
Proof.
  unfold format_atom, Str.rjust, Str.ljust. simpl join_fields.
  rewrite !spaces_add, !append_assoc. reflexivity.
Qed.

(** X7: an atom line written from the fields of an input line splits back
    into nine tokens (the seven fields kept, the residue name and the text of
    the charge) when the fields leave a space between them: x shorter than
    15 characters or the atom name shorter than 3, y and z shorter than 10,
    subst_id shorter than 8 or the atom type shorter than 3, the residue name
    shorter than 5 and the charge text shorter than 14. The reader then finds
    the float of the charge text in the written line. *)
Theorem rewritten_line_tokens line e0 e1 e2 e3 e4 e5 e6 rest resname charge :
  Str.split line = e0 :: e1 :: e2 :: e3 :: e4 :: e5 :: e6 :: rest ->
  is_token resname = true ->
  (String.length e1 < 3 \/ String.length e2 < 15)%nat ->
  (String.length e3 < 10)%nat ->
  (String.length e4 < 10)%nat ->
  (String.length e5 < 3 \/ String.length e6 < 8)%nat ->
  (String.length resname < 5)%nat ->
  (String.length (Float.format_4f charge) < 14)%nat ->
  Str.split (format_atom e0 e1 e2 e3 e4 e5 e6 resname charge) =
    [e0; e1; e2; e3; e4; e5; e6; resname; Float.format_4f charge] /\
  charge_of_line (format_atom e0 e1 e2 e3 e4 e5 e6 resname charge) =
    Float.of_string (Float.format_4f charge).
Proof.
  intros Hs Hr H12 H3 H4 H56 H7 H8.
  pose proof (split_tokens line) as Ht. rewrite Hs in Ht.
  inversion Ht as [|? ? T0 Ht1]; subst. inversion Ht1 as [|? ? T1 Ht2]; subst.
  inversion Ht2 as [|? ? T2 Ht3]; subst. inversion Ht3 as [|? ? T3 Ht4]; subst.
  inversion Ht4 as [|? ? T4 Ht5]; subst. inversion Ht5 as [|? ? T5 Ht6]; subst.
  inversion Ht6 as [|? ? T6 _]; subst.
  assert (Hsplit :
    Str.split (format_atom e0 e1 e2 e3 e4 e5 e6 resname charge) =
    [e0; e1; e2; e3; e4; e5; e6; resname; Float.format_4f charge]).
  { rewrite format_atom_fields. rewrite split_join_fields; [reflexivity|exact T0|].
    pose proof (format_4f_token charge).
    repeat (constructor; [simpl; split; [lia|assumption]|]). constructor. }
  split; [exact Hsplit|].
  unfold charge_of_line. now rewrite Hsplit.
Qed.

(** X7, on the first atom line of the sample gas-phase file. *)
Lemma rewritten_line_tokens_witness :
  Str.split (format_atom "1" "C1" "0.1234" "-1.2345" "3.0" "C.3" "1" "MOL" 0.6) =
    ["1"; "C1"; "0.1234"; "-1.2345"; "3.0"; "C.3"; "1"; "MOL";
     Float.format_4f 0.6] /\
  charge_of_line (format_atom "1" "C1" "0.1234" "-1.2345" "3.0" "C.3" "1" "MOL" 0.6) =
    Float.of_string (Float.format_4f 0.6).
Proof.
  apply (rewritten_line_tokens
           ("  1 C1  0.1234 -1.2345 3.0 C.3 1 UNK 0.5 ****" +:+ nl)
           "1" "C1" "0.1234" "-1.2345" "3.0" "C.3" "1" ["UNK"; "0.5"; "****"]
           "MOL" 0.6%float);
    vm_compute; try reflexivity; try lia; left; lia.
Defined.

(** X8: with a residue name of five characters or more, no space is left
    between subst_id and the residue name: the written line has eight
    tokens, the seventh made of both, and the reader fails on it with
    [IndexError]. *)
Theorem wide_resname_merges line e0 e1 e2 e3 e4 e5 e6 rest resname charge :
  Str.split line = e0 :: e1 :: e2 :: e3 :: e4 :: e5 :: e6 :: rest ->
  is_token resname = true ->
  (String.length e1 < 3 \/ String.length e2 < 15)%nat ->
  (String.length e3 < 10)%nat ->
  (String.length e4 < 10)%nat ->
  (String.length e5 < 3 \/ String.length e6 < 8)%nat ->
  (5 <= String.length resname)%nat ->
  (String.length (Float.format_4f charge) < 14)%nat ->
  Str.split (format_atom e0 e1 e2 e3 e4 e5 e6 resname charge) =
    [e0; e1; e2; e3; e4; e5; e6 +:+ resname; Float.format_4f charge] /\
  charge_of_line (format_atom e0 e1 e2 e3 e4 e5 e6 resname charge) =
    Raise IndexError.
Proof.
  intros Hs Hr H12 H3 H4 H56 H7 H8.
  pose proof (split_tokens line) as Ht. rewrite Hs in Ht.
  inversion Ht as [|? ? T0 Ht1]; subst. inversion Ht1 as [|? ? T1 Ht2]; subst.
  inversion Ht2 as [|? ? T2 Ht3]; subst. inversion Ht3 as [|? ? T3 Ht4]; subst.
  inversion Ht4 as [|? ? T4 Ht5]; subst. inversion Ht5 as [|? ? T5 Ht6]; subst.
  inversion Ht6 as [|? ? T6 _]; subst.
  assert (Hsplit :
    Str.split (format_atom e0 e1 e2 e3 e4 e5 e6 resname charge) =
    [e0; e1; e2; e3; e4; e5; e6 +:+ resname; Float.format_4f charge]).
  { rewrite format_atom_fields. simpl join_fields.
    replace (5 - String.length resname)%nat with 0%nat by lia.
    change (Str.spaces 0 +:+ resname +:+ ?s) with (resname +:+ s).
    rewrite <- (append_assoc e6 resname).
    pose proof (format_4f_token charge).
    pose proof (token_after e6 resname (is_token_no_space _ T6) Hr).
    change (Str.split
      (Str.spaces (7 - String.length e0) +:+ e0 +:+
       join_fields
         [ (1%nat, e1);
           (((3 - String.length e1) + (15 - String.length e2))%nat, e2);
           ((10 - String.length e3)%nat, e3);
           ((10 - String.length e4)%nat, e4);
           (1%nat, e5);
           (((3 - String.length e5) + (8 - String.length e6))%nat,
            e6 +:+ resname);
           ((14 - String.length (Float.format_4f charge))%nat,
            Float.format_4f charge) ]
         (" " +:+ nl)) =
      [e0; e1; e2; e3; e4; e5; e6 +:+ resname; Float.format_4f charge]).
    rewrite split_join_fields; [reflexivity|exact T0|].
    repeat (constructor; [simpl; split; [lia|assumption]|]). constructor. }
  split; [exact Hsplit|].
  unfold charge_of_line. now rewrite Hsplit.
Qed.

(** X8, on the first atom line of the sample gas-phase file. *)
Lemma wide_resname_merges_witness :
  Str.split (format_atom "1" "C1" "0.1234" "-1.2345" "3.0" "C.3" "1" "LIGAND" 0.6) =
    ["1"; "C1"; "0.1234"; "-1.2345"; "3.0"; "C.3"; "1" +:+ "LIGAND";
     Float.format_4f 0.6] /\
  charge_of_line
    (format_atom "1" "C1" "0.1234" "-1.2345" "3.0" "C.3" "1" "LIGAND" 0.6) =
    Raise IndexError.
Proof.
  apply (wide_resname_merges
           ("  1 C1  0.1234 -1.2345 3.0 C.3 1 UNK 0.5 ****" +:+ nl)
           "1" "C1" "0.1234" "-1.2345" "3.0" "C.3" "1" ["UNK"; "0.5"; "****"]
           "LIGAND" 0.6%float);
    vm_compute; try reflexivity; try lia; left; lia.
Defined.

(** ** The other writers *)

Lemma open_write_close filename text st :
  (do f <- open_w filename; run write f text; run close f; ret 0) st =
  if can_create filename st
  then (Ok 0, Fs (<[filename := text]> (files st)) (dirs st))
  else (Raise (open_w_error filename st), st).
Proof.
  unfold bind at 1. rewrite open_w_spec.
  destruct (can_create filename st); [|reflexivity].
  unfold bind, close, ret. rewrite write_appended.
  now rewrite appended_created.
Qed.

Lemma can_create_directory filename st :
  filename ∈ dirs st -> can_create filename st = false.
Proof.
  intros H. unfold can_create, is_directory.
  rewrite (bool_decide_eq_true_2 (filename ∈ dirs st \/ _)) by now left.
  simpl. now rewrite andb_false_r.
Qed.


Lemma write_each_spec output mol2_files : forall st,
  write_each output mol2_files st =
  (Ok tt,
   appended output (Str.concat (map (fun ele => ele +:+ " ") mol2_files)) st).
Proof.
  induction mol2_files as [|ele rest IH]; intros st.
  - simpl. now rewrite appended_nil.
  - simpl. erewrite bind_ok by apply write_appended.
    rewrite IH. now rewrite appended_appended.
Qed.

(** X10: [create_fb_input_header] writes the options with the port, the
    job type and the force field, then every mol2 file followed by a space,
    in the order of the list, then the step lines. With a convergence that
    is neither [tight] nor [loose] it raises [SystemExit] there, and the file
    keeps what was written so far; otherwise the block of the convergence and
    the closing block follow and the result is 0. *)
Theorem fb_header_text output port type forcefield mol2_files convergence st :
  create_fb_input_header output port type forcefield mol2_files convergence st =
  if bool_decide (convergence = "tight") then
    (Ok 0,
     appended output
       (fb_options port type forcefield +:+
        Str.concat (map (fun ele => ele +:+ " ") mol2_files) +:+
        fb_steps +:+ fb_tight +:+ fb_closing) st)
  else if bool_decide (convergence = "loose") then
    (Ok 0,
     appended output
       (fb_options port type forcefield +:+
        Str.concat (map (fun ele => ele +:+ " ") mol2_files) +:+
        fb_steps +:+ fb_loose +:+ fb_closing) st)
  else
    (Raise SystemExit,
     appended output
       (fb_options port type forcefield +:+
        Str.concat (map (fun ele => ele +:+ " ") mol2_files) +:+
        fb_steps) st).
Proof.
  unfold create_fb_input_header.
  erewrite bind_ok by apply write_appended.
  erewrite bind_ok by apply write_each_spec.
  erewrite bind_ok by apply write_appended.
  rewrite !appended_appended.
  destruct (bool_decide (convergence = "tight")).
  - erewrite bind_ok by apply write_appended.
    erewrite bind_ok by apply write_appended.
    unfold ret. rewrite ?appended_appended, ?append_assoc. reflexivity.
  - destruct (bool_decide (convergence = "loose")).
    + erewrite bind_ok by apply write_appended.
      erewrite bind_ok by apply write_appended.
      unfold ret. rewrite ?appended_appended, ?append_assoc. reflexivity.
    + erewrite bind_raise by reflexivity. rewrite ?append_assoc. reflexivity.
Qed.

Lemma head_input a file :
  Path.head ("/input/" +:+ file) = Some "/input/" ->
  Path.head (a +:+ "/input/" +:+ file) = Some (a +:+ "/input/").
Proof.
  intros H. induction a as [|c a IH]; [exact H|].
  rewrite !(append_cons c a). simpl. now rewrite IH.
Qed.

Lemma rstrip_input a : Path.rstrip_slash (a +:+ "/input/") = a +:+ "/input".
Proof.
  induction a as [|c a IH]; [reflexivity|].
  rewrite !(append_cons c a). simpl. rewrite IH.
  rewrite bool_decide_eq_false_2; [reflexivity|].
  intros H. apply append_empty in H as [_ H]. discriminate.
Qed.

Lemma dirname_input a file :
  Path.head ("/input/" +:+ file) = Some "/input/" ->
  Path.dirname (a +:+ "/input/" +:+ file) = a +:+ "/input".
Proof.
  intros H. unfold Path.dirname. rewrite (head_input _ _ H), rstrip_input.
  rewrite bool_decide_eq_false_2; [reflexivity|].
  intros H'. apply append_empty in H' as [_ H']. discriminate.
Qed.

Lemma endswith_slash_app s t :
  t <> "" -> Path.endswith_slash (s +:+ t) = Path.endswith_slash t.
Proof.
  intros Ht. induction s as [|c s IH]; [reflexivity|].
  rewrite append_cons, <- IH.
  destruct (s +:+ t) eqn:E; [|reflexivity].
  apply append_empty in E as [_ E]. contradiction.
Qed.

Lemma rstrip_slash_id s : Path.endswith_slash s = false -> Path.rstrip_slash s = s.
Proof.
  induction s as [|c s IH]; [reflexivity|].
  destruct s as [|c' s'].
  - simpl. intros ->. reflexivity.
  - intros H. change (Path.endswith_slash (String c' s') = false) in H.
    cbn [Path.rstrip_slash] in *. rewrite (IH H).
    now rewrite bool_decide_eq_false_2.
Qed.

(** The two files of [create_respyte_input_files] can be opened when their
    directory exists and they are no directories themselves. *)
Lemma can_create_input name type file st :
  Path.head ("/input/" +:+ file) = Some "/input/" ->
  Path.endswith_slash ("/input/" +:+ file) = false ->
  can_create (name +:+ "-" +:+ type +:+ "/input/" +:+ file) st =
    bool_decide (name +:+ "-" +:+ type +:+ "/input" ∈ dirs st) &&
    negb (bool_decide (name +:+ "-" +:+ type +:+ "/input/" +:+ file ∈ dirs st)) /\
  open_w_error (name +:+ "-" +:+ type +:+ "/input/" +:+ file) st =
    if bool_decide (name +:+ "-" +:+ type +:+ "/input" ∈ dirs st)
    then IsADirectoryError
    else lost (name +:+ "-" +:+ type +:+ "/input/" +:+ file) st.
Proof.
  intros Hh He.
  replace (name +:+ "-" +:+ type +:+ "/input/" +:+ file)
    with ((name +:+ "-" +:+ type) +:+ "/input/" +:+ file)
    by now rewrite !append_assoc.
  replace (name +:+ "-" +:+ type +:+ "/input")
    with ((name +:+ "-" +:+ type) +:+ "/input")
    by now rewrite !append_assoc.
  set (a := name +:+ "-" +:+ type).
  assert (Hne : a +:+ "/input/" +:+ file <> "")
    by (intros H; apply append_empty in H as [_ H]; discriminate).
  assert (Hs : Path.endswith_slash (a +:+ "/input/" +:+ file) = false)
    by (rewrite endswith_slash_app; [exact He | discriminate]).
  assert (Hd : Path.rstrip_slash (a +:+ "/input") <> "").
  { rewrite rstrip_slash_id by (now rewrite endswith_slash_app).
    intros H. apply append_empty in H as [_ H]. discriminate. }
  assert (Hp : parent_found (a +:+ "/input/" +:+ file) st =
               bool_decide (a +:+ "/input" ∈ dirs st)).
  { unfold parent_found. rewrite (rstrip_slash_id _ Hs), (dirname_input _ _ Hh).
    apply bool_decide_ext. split; [|now right].
    intros [H|H]; [contradiction | exact H]. }
  unfold can_create, open_w_error, is_directory.
  rewrite Hp, Hs, (rstrip_slash_id _ Hs), bool_decide_eq_false_2 by exact Hne.
  split; [|reflexivity].
  rewrite (bool_decide_ext
             (a +:+ "/input/" +:+ file ∈ dirs st \/
              a +:+ "/input/" +:+ file ∈ dirs st)
             (a +:+ "/input/" +:+ file ∈ dirs st)) by tauto.
  simpl. now rewrite andb_true_r.
Qed.

(** X11: [create_respyte_input_files] writes [input.yml] and then
    [respyte.yml]. For a type other than RESP1, RESP2GAS and RESP2LIQUID it
    raises [SystemExit] before it opens a file; without the directory
    [name-type/input], or with a directory at the path of [input.yml], it
    raises the error of [open] at the first file; in these cases the file
    system is as it was. With a directory at the path of [respyte.yml] it
    raises [IsADirectoryError] at the second file, after [input.yml] has been
    written: this is the one case in which one file is written without the
    other. Otherwise it returns 0 and the two files hold the two texts, with
    the number of conformers, and method, basis and pcm of the type. *)
Theorem respyte_inputs_written type name resname number_of_conformers st :
  create_respyte_input_files type name resname number_of_conformers st =
  match respyte_settings type with
  | Raise e => (Raise e, st)
  | Ok (method, basis, pcm) =>
      let first :=
        Fs (<[input_yml_path name type :=
                input_yml (Str.of_Z number_of_conformers) method basis pcm]>
              (files st))
           (dirs st) in
      if negb (bool_decide (name +:+ "-" +:+ type +:+ "/input" ∈ dirs st)) then
        (Raise (lost (input_yml_path name type) st), st)
      else if bool_decide (input_yml_path name type ∈ dirs st) then
        (Raise IsADirectoryError, st)
      else if bool_decide (respyte_yml_path name type ∈ dirs st) then
        (Raise IsADirectoryError, first)
      else
        (Ok 0,
         Fs (<[respyte_yml_path name type :=
                 respyte_yml (Str.of_Z number_of_conformers)]> (files first))
            (dirs st))
  end.
Proof.
  unfold create_respyte_input_files.
  destruct (respyte_settings type) as [[[method basis] pcm]|e];
    [|now erewrite bind_raise by reflexivity].
  erewrite bind_ok by reflexivity. cbv iota beta zeta.
  assert (H1 : forall st',
    can_create (input_yml_path name type) st' =
      bool_decide (name +:+ "-" +:+ type +:+ "/input" ∈ dirs st') &&
      negb (bool_decide (input_yml_path name type ∈ dirs st')) /\
    open_w_error (input_yml_path name type) st' =
      if bool_decide (name +:+ "-" +:+ type +:+ "/input" ∈ dirs st')
      then IsADirectoryError else lost (input_yml_path name type) st')
    by exact (fun st' =>
                can_create_input name type "input.yml" st' eq_refl eq_refl).
  assert (H2 : forall st',
    can_create (respyte_yml_path name type) st' =
      bool_decide (name +:+ "-" +:+ type +:+ "/input" ∈ dirs st') &&
      negb (bool_decide (respyte_yml_path name type ∈ dirs st')) /\
    open_w_error (respyte_yml_path name type) st' =
      if bool_decide (name +:+ "-" +:+ type +:+ "/input" ∈ dirs st')
      then IsADirectoryError else lost (respyte_yml_path name type) st')
    by exact (fun st' =>
                can_create_input name type "respyte.yml" st' eq_refl eq_refl).
  unfold bind at 1. rewrite open_w_spec.
  destruct (H1 st) as [-> ->].
  destruct (bool_decide (name +:+ "-" +:+ type +:+ "/input" ∈ dirs st)) eqn:Hd;
    [|reflexivity].
  destruct (bool_decide (input_yml_path name type ∈ dirs st)); [reflexivity|].
  simpl andb. cbv iota.
  unfold bind at 1. rewrite write_appended, appended_created.
  unfold bind at 1. unfold close at 1, ret at 1.
  unfold bind at 1. rewrite open_w_spec.
  destruct (H2 (Fs (<[input_yml_path name type :=
                        input_yml (Str.of_Z number_of_conformers) method basis pcm]>
                      (files st)) (dirs st))) as [-> ->].
  simpl dirs. rewrite Hd.
  destruct (bool_decide (respyte_yml_path name type ∈ dirs st)); [reflexivity|].
  simpl andb. cbv iota.
  unfold bind, close, ret. rewrite write_appended, appended_created.
  reflexivity.
Qed.

Lemma charge_type_known name resname delta type st :
  fst (create_charge_file name resname delta type st) <> Raise SystemExit ->
  type = "RESP1" \/ type = "RESP2".
Proof.
  intros H. destruct (decide (type = "RESP1")) as [|H1]; [now left|].
  destruct (decide (type = "RESP2")) as [|H2]; [now right|].
  now rewrite (create_other _ _ _ _ _ H1 H2) in H.
Qed.

(** X12: RESP1 is the only type that [create_charge_file] and
    [create_respyte_input_files] both take: any other type makes one of them
    raise [SystemExit]. *)
Theorem common_type name resname delta number_of_conformers type st st' :
  fst (create_charge_file name resname delta type st) <> Raise SystemExit ->
  fst (create_respyte_input_files type name resname number_of_conformers st')
    <> Raise SystemExit ->
  type = "RESP1".
Proof.
  intros Hc Hr. apply charge_type_known in Hc as [-> | ->]; [reflexivity|].
  exfalso. apply Hr. reflexivity.
Qed.

(** X12, on the sample files. *)
Lemma common_type_witness : ("RESP1" : string) = "RESP1".
Proof.
  apply (common_type "m" "MOL" 0.5%float 3 "RESP1" Sample.st0 Sample.st0);
    vm_compute; discriminate.
Defined.
